(** * terraform-provider-headscale: the reconcilers, embedded and verified

    The provider maps Terraform resource operations (Create / Read / Update /
    Delete) onto unary RPCs of the Headscale service.  Every handler of the
    Go code is a straight-line procedure with early returns that
      - decodes a model from the request,
      - performs at most two RPCs,
      - appends diagnostics and writes (or removes) the state of the response.

    The embedding keeps that shape: a handler is a function
    [request -> response -> World -> response * World] where the response is
    the in/out parameter [resp] of the Go handler and [World] carries what the
    handler can observe or change outside of its arguments (the remote
    service behind the RPC client, the wall clock, the log of issued RPCs).
    A handler with an expression that can panic (an index, a field of a
    possibly nil pointer) returns [option response]: [None] is the panic, and
    the world still records what happened before it. *)

From Stdlib Require Import ZArith Lia Ascii.
From stdpp Require Import base option list strings gmap pretty.

Open Scope string_scope.
Open Scope Z_scope.
Open Scope list_scope.

(** ** Go values *)

Module Go.

(** A slice; the nil slice is distinguished from an allocated empty one
    (the code compares slices with [nil]). *)
Inductive slice (A : Type) : Type :=
| nil_slice
| mk_slice (elems : list A).
Arguments nil_slice {A}.
Arguments mk_slice {A} elems.

Definition elements {A} (s : slice A) : list A :=
  match s with
  | nil_slice => []
  | mk_slice l => l
  end.

Definition is_nil {A} (s : slice A) : bool :=
  match s with
  | nil_slice => true
  | mk_slice _ => false
  end.

Definition len {A} (s : slice A) : nat := length (elements s).

(** [s[i]]: [None] stands for the run-time panic "index out of range". *)
Definition index {A} (s : slice A) (i : nat) : option A := elements s !! i.

(** [err.Error()]: an error is represented by its message. *)
Definition error := string.

(** Integer conversions between [int64] and [uint64] wrap around. *)
Definition uint64 (z : Z) : Z := z mod 2 ^ 64.
Definition int64 (z : Z) : Z :=
  let u := z mod 2 ^ 64 in
  if u <? 2 ^ 63 then u else u - 2 ^ 64.

(** [strings.Split(s, sep)] for a one-byte separator: the pieces of [s]
    between consecutive occurrences of [sep]; never empty. *)
Fixpoint Split (s : string) (sep : Ascii.ascii) : list string :=
  match s with
  | EmptyString => [EmptyString]
  | String c rest =>
      if Ascii.eqb c sep then EmptyString :: Split rest sep
      else match Split rest sep with
           | [] => [String c EmptyString]
           | piece :: pieces => String c piece :: pieces
           end
  end.

(** Whether the byte [c] occurs in [s]. *)
Fixpoint occurs (c : Ascii.ascii) (s : string) : bool :=
  match s with
  | EmptyString => false
  | String c' rest => Ascii.eqb c' c || occurs c rest
  end.

(** The part of [s] that precedes the first occurrence of [sep]; all of
    [s] when [sep] does not occur.  This is what the first piece of
    [Split] is specified to be. *)
Fixpoint before_first (sep : Ascii.ascii) (s : string) : string :=
  match s with
  | EmptyString => EmptyString
  | String c rest => if Ascii.eqb c sep then EmptyString else String c (before_first sep rest)
  end.

End Go.
Import Go.

(** ** Time *)

Module time.

(** An instant, in nanoseconds since the Unix epoch, and a duration in
    nanoseconds.  Both are unbounded here: the saturation of [Time.Add] at
    the ends of the representable range is out of reach of the wall clock
    and of any [int64] duration. *)
Definition Time := Z.
Definition Duration := Z.

Definition Nanosecond : Duration := 1.
Definition Second : Duration := 1000000000.
Definition Hour : Duration := 3600 * Second.

Definition Add (t : Time) (d : Duration) : Time := t + d.

(** [t.After(u)]: strictly later. *)
Definition After (t u : Time) : bool := u <? t.

(** The functions of package [time] that the provider calls and whose
    text is not part of this repository. *)
Class Lib := {
  (** [time.ParseDuration]: the duration, or the message of the error. *)
  ParseDuration : string -> error + Duration;
  (** [t.Format(time.RFC3339)]. *)
  FormatRFC3339 : Time -> string;
}.

End time.

(** ** Conversions of package strconv *)

Module strconv.

(** The functions of package [strconv] that the import handlers call and
    whose text is not part of this repository. *)
Class Lib := {
  (** [strconv.Atoi]: the integer, or the message of the error *)
  Atoi : string -> error + Z;
  (** [strconv.Quote], which is also the rendering of a string by the verb
      [%q] *)
  Quote : string -> string;
}.

(** [strconv.ParseBool].  The error is a [*NumError], printed as
    [strconv.ParseBool: parsing <quoted input>: invalid syntax]. *)
Definition ParseBool {lib : Lib} (str : string) : error + bool :=
  if bool_decide (str ∈ ["1"; "t"; "T"; "TRUE"; "true"; "True"]) then inr true
  else if bool_decide (str ∈ ["0"; "f"; "F"; "FALSE"; "false"; "False"]) then inr false
  else inl ("strconv.ParseBool: parsing " +:+ Quote str +:+ ": invalid syntax").

End strconv.

(** ** Protobuf well-known timestamp *)

Module timestamppb.

Record Timestamp := { Seconds : Z; Nanos : Z }.

(** [timestamppb.New(t)]: whole seconds (rounded down) and the rest. *)
Definition New (t : time.Time) : Timestamp :=
  {| Seconds := t `div` time.Second; Nanos := t `mod` time.Second |}.

(** [x.AsTime()] on a possibly nil pointer: the getters of a nil message
    return zero, so a nil timestamp is the epoch. *)
Definition AsTime (x : option Timestamp) : time.Time :=
  match x with
  | None => 0
  | Some ts => Seconds ts * time.Second + Nanos ts
  end.

End timestamppb.

(** ** Terraform plugin framework: attribute values, diagnostics, state *)

Module types.

(** An attribute value is null, unknown, or known. *)
Inductive Value (A : Type) : Type :=
| Null
| Unknown
| Known (a : A).
Arguments Null {A}.
Arguments Unknown {A}.
Arguments Known {A} a.

Definition IsNull {A} (v : Value A) : bool :=
  match v with
  | Null => true
  | _ => false
  end.

Definition String := Value string.
Definition Int64 := Value Z.
Definition Bool := Value bool.
(** A set of strings; its elements are attribute values themselves. *)
Definition Set_ := Value (list String).

(** [ValueString], [ValueInt64], [ValueBool]: the zero value unless known. *)
Definition ValueString (v : String) : string :=
  match v with
  | Known s => s
  | _ => ""
  end.

Definition ValueInt64 (v : Int64) : Z :=
  match v with
  | Known z => z
  | _ => 0
  end.

Definition ValueBool (v : Bool) : bool :=
  match v with
  | Known b => b
  | _ => false
  end.

(** [s.Elements()]. *)
Definition Elements (v : Set_) : list String :=
  match v with
  | Known l => l
  | _ => []
  end.

(** [types.SetValueFrom(ctx, types.StringType, xs)] for [xs : []string]:
    a nil slice reflects into the null set, any other slice into the set of
    its (known) elements.  No diagnostic arises for strings. *)
Definition SetValueFrom (xs : slice string) : Set_ :=
  match xs with
  | nil_slice => Null
  | mk_slice l => Known (Known <$> l)
  end.

(** The members of a set value, as a finite set. *)
Definition members (v : Set_) : gset string :=
  list_to_set (ValueString <$> Elements v).

End types.

Module diag.

Inductive Severity := SeverityError | SeverityWarning.

Record Diagnostic := {
  severity : Severity;
  summary : string;
  detail : string;
}.

Definition Diagnostics := list Diagnostic.

Definition is_error (d : Diagnostic) : bool :=
  match severity d with
  | SeverityError => true
  | SeverityWarning => false
  end.

Definition HasError (ds : Diagnostics) : bool := existsb is_error ds.

Definition NewErrorDiagnostic (s d : string) : Diagnostic :=
  {| severity := SeverityError; summary := s; detail := d |}.

#[global] Instance Severity_eq_dec : EqDecision Severity.
Proof. solve_decision. Defined.

#[global] Instance Diagnostic_eq_dec : EqDecision Diagnostic.
Proof. solve_decision. Defined.

(** [diags.Append(in...)]: a diagnostic that the collection already
    contains is not added again. *)
Definition Append (diags new : Diagnostics) : Diagnostics :=
  fold_left (fun acc d => if bool_decide (d ∈ acc) then acc else acc ++ [d]) new diags.

End diag.

Module tfsdk.

(** A state, plan or configuration holding a model of type [M]; [None] is
    the null object (a resource that does not exist). *)
Definition State (M : Type) := option M.

(** The Go zero value of a model struct. *)
Class Zero (M : Type) := zero : M.

(** [s.Get(ctx, &data)]: decodes the object into the model.  The null
    object cannot be decoded into a struct: the target keeps its zero
    value and an error is reported. *)
Definition Get {M} `{Zero M} (s : State M) : M * diag.Diagnostics :=
  match s with
  | Some m => (m, [])
  | None =>
      (zero, [diag.NewErrorDiagnostic "Value Conversion Error"
                "unhandled null value"])
  end.

(** The response of a handler: the [resp] in/out parameter of the Go
    code, reduced to its diagnostics and its state. *)
Record Response (M : Type) := {
  Diagnostics : diag.Diagnostics;
  State_ : State M;
}.
Arguments Diagnostics {M} _.
Arguments State_ {M} _.

(** The response the framework hands to Read and Update: no diagnostics,
    state preset to the prior state.  Create and data-source Read start
    from the null state. *)
Definition fresh {M} (prior : State M) : Response M :=
  {| Diagnostics := []; State_ := prior |}.

Definition Append {M} (resp : Response M) (ds : diag.Diagnostics) : Response M :=
  {| Diagnostics := diag.Append (Diagnostics resp) ds; State_ := State_ resp |}.

Definition AddError {M} (resp : Response M) (s d : string) : Response M :=
  Append resp [diag.NewErrorDiagnostic s d].

(** [resp.State.Set(ctx, &data)]; the models written by the provider are
    well typed for their schema, so no diagnostic arises. *)
Definition Set_ {M} (resp : Response M) (data : M) : Response M :=
  {| Diagnostics := Diagnostics resp; State_ := Some data |}.

(** [resp.State.RemoveResource(ctx)]. *)
Definition RemoveResource {M} (resp : Response M) : Response M :=
  {| Diagnostics := Diagnostics resp; State_ := None |}.

Definition HasError {M} (resp : Response M) : bool :=
  diag.HasError (Diagnostics resp).

(** [resp.State.SetAttribute(ctx, path, value)] for a top-level attribute:
    the attribute is replaced in the object, a null object being taken as
    the object with every attribute null.  [set] is the update of the
    field.  The values the provider sets are of the attribute's type, so no
    diagnostic arises. *)
Definition SetAttribute {M} `{Zero M} (resp : Response M) (set : M -> M) : Response M :=
  {| Diagnostics := Diagnostics resp; State_ := Some (set (default zero (State_ resp))) |}.

End tfsdk.

(** ** The Headscale RPC contract (package v1), as far as the provider
       touches it *)

Module v1.

Import timestamppb.

Record User := {
  User_Id : Z;
  User_Name : string;
  User_CreatedAt : option Timestamp;
  User_DisplayName : string;
  User_Email : string;
}.

Record Node := {
  Node_Id : Z;
  Node_Name : string;
  Node_User : option User;
  Node_ForcedTags : slice string;
  Node_ApprovedRoutes : slice string;
}.

Record PreAuthKey := {
  PreAuthKey_Id : Z;
  PreAuthKey_Key : string;
  PreAuthKey_Reusable : bool;
  PreAuthKey_Ephemeral : bool;
  PreAuthKey_Expiration : option Timestamp;
  PreAuthKey_CreatedAt : option Timestamp;
  PreAuthKey_AclTags : slice string;
}.

Record ApiKey := {
  ApiKey_Prefix : string;
  ApiKey_Expiration : option Timestamp;
  ApiKey_CreatedAt : option Timestamp;
}.

(** Getters are nil-safe: on a nil message they return the zero value. *)
Definition User_GetId (u : option User) : Z := from_option User_Id 0 u.
Definition User_GetName (u : option User) : string := from_option User_Name "" u.
Definition User_GetCreatedAt (u : option User) : option Timestamp := u ≫= User_CreatedAt.
Definition User_GetDisplayName (u : option User) : string := from_option User_DisplayName "" u.
Definition User_GetEmail (u : option User) : string := from_option User_Email "" u.

Definition Node_GetId (n : option Node) : Z := from_option Node_Id 0 n.
Definition Node_GetName (n : option Node) : string := from_option Node_Name "" n.
Definition Node_GetUser (n : option Node) : option User := n ≫= Node_User.
Definition Node_GetForcedTags (n : option Node) : slice string :=
  from_option Node_ForcedTags nil_slice n.
Definition Node_GetApprovedRoutes (n : option Node) : slice string :=
  from_option Node_ApprovedRoutes nil_slice n.

Definition PreAuthKey_GetId (k : option PreAuthKey) : Z := from_option PreAuthKey_Id 0 k.
Definition PreAuthKey_GetKey (k : option PreAuthKey) : string := from_option PreAuthKey_Key "" k.
Definition PreAuthKey_GetReusable (k : option PreAuthKey) : bool :=
  from_option PreAuthKey_Reusable false k.
Definition PreAuthKey_GetEphemeral (k : option PreAuthKey) : bool :=
  from_option PreAuthKey_Ephemeral false k.
Definition PreAuthKey_GetExpiration (k : option PreAuthKey) : option Timestamp :=
  k ≫= PreAuthKey_Expiration.
Definition PreAuthKey_GetCreatedAt (k : option PreAuthKey) : option Timestamp :=
  k ≫= PreAuthKey_CreatedAt.
Definition PreAuthKey_GetAclTags (k : option PreAuthKey) : slice string :=
  from_option PreAuthKey_AclTags nil_slice k.

(** Requests and responses.  A response is never nil when the call
    returns no error; its message-typed fields may be.  A repeated message
    field is a slice of pointers in Go; its elements are taken here as the
    messages themselves, none of them nil, as the protobuf decoder delivers
    them.  This matters in one place, the loop of PreAuthKey Read, which
    reads [found.Id] from each element without a getter. *)
Record ListNodesRequest := mkListNodesRequest { }.
Record ListNodesResponse := { ListNodesResponse_Nodes : slice Node }.

Record GetNodeRequest := { GetNodeRequest_NodeId : Z }.
Record GetNodeResponse := { GetNodeResponse_Node : option Node }.

Record SetTagsRequest := {
  SetTagsRequest_NodeId : Z;
  SetTagsRequest_Tags : slice string;
}.
Record SetTagsResponse := { SetTagsResponse_Node : option Node }.

Record SetApprovedRoutesRequest := {
  SetApprovedRoutesRequest_NodeId : Z;
  SetApprovedRoutesRequest_Routes : slice string;
}.
Record SetApprovedRoutesResponse := { SetApprovedRoutesResponse_Node : option Node }.

Record ListUsersRequest := { ListUsersRequest_Id : Z }.
Record ListUsersResponse := { ListUsersResponse_Users : slice User }.

Record ListPreAuthKeysRequest := { ListPreAuthKeysRequest_User : Z }.
Record ListPreAuthKeysResponse := { ListPreAuthKeysResponse_PreAuthKeys : slice PreAuthKey }.

Record CreatePreAuthKeyRequest := {
  CreatePreAuthKeyRequest_User : Z;
  CreatePreAuthKeyRequest_Reusable : bool;
  CreatePreAuthKeyRequest_Ephemeral : bool;
  CreatePreAuthKeyRequest_Expiration : option Timestamp;
  CreatePreAuthKeyRequest_AclTags : slice string;
}.
Record CreatePreAuthKeyResponse := { CreatePreAuthKeyResponse_PreAuthKey : option PreAuthKey }.

Record CreateApiKeyRequest := { CreateApiKeyRequest_Expiration : option Timestamp }.
Record CreateApiKeyResponse := { CreateApiKeyResponse_ApiKey : string }.

Record ListApiKeysRequest := mkListApiKeysRequest { }.
Record ListApiKeysResponse := { ListApiKeysResponse_ApiKeys : slice ApiKey }.

(** The client interface.  [Remote] is the state of the service behind
    the channel; a call steps it and returns an error or a response. *)
Class HeadscaleServiceClient (Remote : Type) := {
  ListNodes : Remote -> ListNodesRequest -> Remote * (error + ListNodesResponse);
  GetNode : Remote -> GetNodeRequest -> Remote * (error + GetNodeResponse);
  SetTags : Remote -> SetTagsRequest -> Remote * (error + SetTagsResponse);
  SetApprovedRoutes :
    Remote -> SetApprovedRoutesRequest -> Remote * (error + SetApprovedRoutesResponse);
  ListUsers : Remote -> ListUsersRequest -> Remote * (error + ListUsersResponse);
  ListPreAuthKeys :
    Remote -> ListPreAuthKeysRequest -> Remote * (error + ListPreAuthKeysResponse);
  CreatePreAuthKey :
    Remote -> CreatePreAuthKeyRequest -> Remote * (error + CreatePreAuthKeyResponse);
  CreateApiKey : Remote -> CreateApiKeyRequest -> Remote * (error + CreateApiKeyResponse);
  ListApiKeys : Remote -> ListApiKeysRequest -> Remote * (error + ListApiKeysResponse);
}.

(** The contract of the two "set" operations, which replace the value
    set of a node wholesale: a successful answer carries a node whose set is
    the one of the request. *)
Definition SetTags_replaces {Remote} `{client : !HeadscaleServiceClient Remote} : Prop :=
  forall r q r' response,
    SetTags r q = (r', inr response) ->
    list_to_set (C := gset string)
      (elements (Node_GetForcedTags (SetTagsResponse_Node response)))
    = list_to_set (elements (SetTagsRequest_Tags q)).

Definition SetApprovedRoutes_replaces {Remote} `{client : !HeadscaleServiceClient Remote} : Prop :=
  forall r q r' response,
    SetApprovedRoutes r q = (r', inr response) ->
    list_to_set (C := gset string)
      (elements (Node_GetApprovedRoutes (SetApprovedRoutesResponse_Node response)))
    = list_to_set (elements (SetApprovedRoutesRequest_Routes q)).

(** An issued RPC, as recorded in the log of the world. *)
Inductive Call :=
| CallListNodes (q : ListNodesRequest)
| CallGetNode (q : GetNodeRequest)
| CallSetTags (q : SetTagsRequest)
| CallSetApprovedRoutes (q : SetApprovedRoutesRequest)
| CallListUsers (q : ListUsersRequest)
| CallListPreAuthKeys (q : ListPreAuthKeysRequest)
| CallCreatePreAuthKey (q : CreatePreAuthKeyRequest)
| CallCreateApiKey (q : CreateApiKeyRequest)
| CallListApiKeys (q : ListApiKeysRequest).

(** The messages and methods of the client used by Create, Update and
    Delete of users and by Delete of keys. *)
Record CreateUserRequest := {
  CreateUserRequest_Name : string;
  CreateUserRequest_DisplayName : string;
  CreateUserRequest_Email : string;
}.
Record CreateUserResponse := { CreateUserResponse_User : option User }.

Record RenameUserRequest := {
  RenameUserRequest_OldId : Z;
  RenameUserRequest_NewName : string;
}.
Record RenameUserResponse := { RenameUserResponse_User : option User }.

Record DeleteUserRequest := { DeleteUserRequest_Id : Z }.
Record DeleteUserResponse := mkDeleteUserResponse { }.

Record ExpirePreAuthKeyRequest := {
  ExpirePreAuthKeyRequest_User : Z;
  ExpirePreAuthKeyRequest_Key : string;
}.
Record ExpirePreAuthKeyResponse := mkExpirePreAuthKeyResponse { }.

Record DeleteApiKeyRequest := { DeleteApiKeyRequest_Prefix : string }.
Record DeleteApiKeyResponse := mkDeleteApiKeyResponse { }.

Class HeadscaleServiceClientMore (Remote : Type) := {
  CreateUser : Remote -> CreateUserRequest -> Remote * (error + CreateUserResponse);
  RenameUser : Remote -> RenameUserRequest -> Remote * (error + RenameUserResponse);
  DeleteUser : Remote -> DeleteUserRequest -> Remote * (error + DeleteUserResponse);
  ExpirePreAuthKey :
    Remote -> ExpirePreAuthKeyRequest -> Remote * (error + ExpirePreAuthKeyResponse);
  DeleteApiKey : Remote -> DeleteApiKeyRequest -> Remote * (error + DeleteApiKeyResponse);
}.

Inductive MoreCall :=
| CallCreateUser (q : CreateUserRequest)
| CallRenameUser (q : RenameUserRequest)
| CallDeleteUser (q : DeleteUserRequest)
| CallExpirePreAuthKey (q : ExpirePreAuthKeyRequest)
| CallDeleteApiKey (q : DeleteApiKeyRequest).

End v1.

(** ** The world of a handler *)

Module world.

Record World (Remote : Type) := {
  (** the service behind the RPC client *)
  remote : Remote;
  (** the wall clock: [clock 0] is the next reading of [time.Now()],
      [clock 1] the one after, and so on *)
  clock : nat -> time.Time;
  (** the RPCs issued so far, oldest first *)
  calls : list v1.Call;
}.
Arguments remote {Remote} _.
Arguments clock {Remote} _.
Arguments calls {Remote} _.

(** [time.Now()]. *)
Definition Now {Remote} (w : World Remote) : time.Time * World Remote :=
  (clock w 0%nat,
   {| remote := remote w; clock := fun n => clock w (S n); calls := calls w |}).

(** One unary RPC through the client: the remote steps, the call is logged. *)
Definition rpc {Remote Req Resp}
    (method : Remote -> Req -> Remote * (error + Resp))
    (tag : Req -> v1.Call) (q : Req) (w : World Remote)
  : (error + Resp) * World Remote :=
  let '(r, res) := method (remote w) q in
  (res, {| remote := r; clock := clock w; calls := calls w ++ [tag q] |}).

End world.

(** The world of the handlers that call the methods of
    [HeadscaleServiceClientMore]; none of them reads the clock. *)
Module world_more.

Record World (Remote : Type) := {
  remote : Remote;
  (** the RPCs issued so far, oldest first *)
  calls : list v1.MoreCall;
}.
Arguments remote {Remote} _.
Arguments calls {Remote} _.

Definition rpc {Remote Req Resp}
    (method : Remote -> Req -> Remote * (error + Resp))
    (tag : Req -> v1.MoreCall) (q : Req) (w : World Remote)
  : (error + Resp) * World Remote :=
  let '(r, res) := method (remote w) q in
  (res, {| remote := r; calls := calls w ++ [tag q] |}).

End world_more.

(** ** nodes data source *)

Module NodesDataSource.

Import types tfsdk world v1.

Record NodeModel := {
  Id : types.Int64;
  Name : types.String;
  UserId : types.Int64;
}.

Record NodesDataSourceModel := { Nodes : slice NodeModel }.

#[export] Instance NodesDataSourceModel_zero : Zero NodesDataSourceModel :=
  {| Nodes := nil_slice |}.

Record ReadRequest := { Config : tfsdk.State NodesDataSourceModel }.

Section Handlers.
Context {Remote : Type} `{client : !HeadscaleServiceClient Remote}.

Definition Read (req : ReadRequest) (resp : Response NodesDataSourceModel)
    (w : World Remote) : Response NodesDataSourceModel * World Remote :=
  let '(data, ds) := Get (Config req) in
  let resp := Append resp ds in
  if HasError resp then (resp, w) else
  let '(res, w) := rpc ListNodes CallListNodes mkListNodesRequest w in
  match res with
  | inl err =>
      (AddError resp "Client Error" ("Unable to list nodes, got error: " +:+ err), w)
  | inr response =>
      match ListNodesResponse_Nodes response with
      | nil_slice =>
          (AddError resp "Client Error" "Headscale return null instead of list of nodes", w)
      | mk_slice nodes =>
          let result :=
            (fun node =>
               {| Id := Known (int64 (Node_Id node));
                  Name := Known (Node_Name node);
                  UserId := Known (int64 (User_GetId (Node_User node))) |}) <$> nodes in
          let data := {| Nodes := mk_slice result |} in
          (tfsdk.Set_ resp data, w)
      end
  end.

End Handlers.
End NodesDataSource.

(** ** node_tags resource *)

Module NodeTagsResource.

Import types tfsdk world v1.

Record NodeTagsResourceModel := {
  Id : types.Int64;
  NodeId : types.Int64;
  Tags : types.Set_;
}.

#[export] Instance NodeTagsResourceModel_zero : Zero NodeTagsResourceModel :=
  {| Id := Null; NodeId := Null; Tags := Null |}.

Definition with_Tags (data : NodeTagsResourceModel) (tags : types.Set_) :=
  {| Id := Id data; NodeId := NodeId data; Tags := tags |}.

Record CreateRequest := { CreateRequest_Plan : tfsdk.State NodeTagsResourceModel }.

Record ReadRequest := { ReadRequest_State : tfsdk.State NodeTagsResourceModel }.

Record UpdateRequest := {
  UpdateRequest_State : tfsdk.State NodeTagsResourceModel;
  UpdateRequest_Plan : tfsdk.State NodeTagsResourceModel;
}.

(** [req.Plan.GetAttribute(ctx, path.Root("tags"), &tags)] with
    [tags : []string].  The diagnostics of the call are dropped by the
    handler, so only the effect on the target is kept: a set of known
    strings is stored into it, a null set stores the nil slice (in a null
    plan every attribute is null), and a value that does not convert
    (unknown, or with an element that is not known) leaves the target as it
    is. *)
Definition GetAttribute_tags (plan : tfsdk.State NodeTagsResourceModel)
    (target : slice string) : slice string :=
  match plan with
  | None => nil_slice
  | Some p =>
      match Tags p with
      | Null => nil_slice
      | Unknown => target
      | Known elems =>
          if forallb (fun e => match e with Known _ => true | _ => false end) elems
          then mk_slice (ValueString <$> elems)
          else target
      end
  end.

Definition readComputedFields (node : option Node) (data : NodeTagsResourceModel)
  : NodeTagsResourceModel * diag.Diagnostics :=
  let forcedTags := Node_GetForcedTags node in
  let forcedTags := if is_nil forcedTags then mk_slice [] else forcedTags in
  let tags := SetValueFrom forcedTags in
  (with_Tags data tags, []).

(** What a handler may do to the state of its response: leave it, remove
    it, or write a record whose tags are a known set of known strings. *)
Definition well_observed (before after : Response NodeTagsResourceModel) : Prop :=
  State_ after = State_ before
  \/ State_ after = None
  \/ exists d l, State_ after = Some d /\ Tags d = Known (Known <$> l).

(** The request that carries the set [S] for the node of the record. *)
Definition request (data : NodeTagsResourceModel) (S : list string) : SetTagsRequest :=
  {| SetTagsRequest_NodeId := uint64 (ValueInt64 (NodeId data));
     SetTagsRequest_Tags := mk_slice S |}.

Section Handlers.
Context {Remote : Type} `{client : !HeadscaleServiceClient Remote}.

Definition Create (req : CreateRequest) (resp : Response NodeTagsResourceModel)
    (w : World Remote) : Response NodeTagsResourceModel * World Remote :=
  let '(data, ds) := Get (CreateRequest_Plan req) in
  let resp := Append resp ds in
  if HasError resp then (resp, w) else
  let data := {| Id := NodeId data; NodeId := NodeId data; Tags := Tags data |} in
  let tags := mk_slice (ValueString <$> Elements (Tags data)) in
  let '(res, w) :=
    rpc SetTags CallSetTags
      {| SetTagsRequest_NodeId := uint64 (ValueInt64 (NodeId data));
         SetTagsRequest_Tags := tags |} w in
  match res with
  | inl err =>
      (AddError resp "Client Error" ("Unable to set node tags, got error: " +:+ err), w)
  | inr response =>
      let '(data, ds) := readComputedFields (SetTagsResponse_Node response) data in
      let resp := Append resp ds in
      (tfsdk.Set_ resp data, w)
  end.

Definition Read (req : ReadRequest) (resp : Response NodeTagsResourceModel)
    (w : World Remote) : Response NodeTagsResourceModel * World Remote :=
  let '(data, ds) := Get (ReadRequest_State req) in
  let resp := Append resp ds in
  if HasError resp then (resp, w) else
  let '(res, w) :=
    rpc GetNode CallGetNode {| GetNodeRequest_NodeId := uint64 (ValueInt64 (NodeId data)) |} w in
  match res with
  | inl err =>
      (AddError resp "Client Error" ("Unable to list nodes tags, got error: " +:+ err), w)
  | inr response =>
      match GetNodeResponse_Node response with
      | None =>
          let resp := AddError resp "node not found" "node not found" in
          (RemoveResource resp, w)
      | Some node =>
          let '(data, ds) := readComputedFields (Some node) data in
          let resp := Append resp ds in
          (tfsdk.Set_ resp data, w)
      end
  end.

Definition Update (req : UpdateRequest) (resp : Response NodeTagsResourceModel)
    (w : World Remote) : Response NodeTagsResourceModel * World Remote :=
  let '(data, ds) := Get (UpdateRequest_State req) in
  let resp := Append resp ds in
  if HasError resp then (resp, w) else
  let tags := mk_slice [] in
  let tags := GetAttribute_tags (UpdateRequest_Plan req) tags in
  let '(res, w) :=
    rpc SetTags CallSetTags
      {| SetTagsRequest_NodeId := uint64 (ValueInt64 (NodeId data));
         SetTagsRequest_Tags := tags |} w in
  match res with
  | inl err =>
      (AddError resp "Client Error" ("Unable to set node tags, got error: " +:+ err), w)
  | inr response =>
      let '(data, ds) := readComputedFields (SetTagsResponse_Node response) data in
      let resp := Append resp ds in
      (tfsdk.Set_ resp data, w)
  end.

End Handlers.

Record DeleteRequest := { DeleteRequest_State : tfsdk.State NodeTagsResourceModel }.
Record ImportStateRequest := { ID : string }.

Definition with_NodeId (data : NodeTagsResourceModel) (v : types.Int64) :=
  {| Id := Id data; NodeId := v; Tags := Tags data |}.
Definition with_Id (data : NodeTagsResourceModel) (v : types.Int64) :=
  {| Id := v; NodeId := NodeId data; Tags := Tags data |}.

Section MoreHandlers.
Context {Remote : Type} `{client : !HeadscaleServiceClient Remote} {conv : strconv.Lib}.

(** The request carries no [Tags] field: the nil slice.  The diagnostics
    are looked at only after the call. *)
Definition Delete (req : DeleteRequest) (resp : Response NodeTagsResourceModel)
    (w : World Remote) : Response NodeTagsResourceModel * World Remote :=
  let '(data, ds) := Get (DeleteRequest_State req) in
  let resp := Append resp ds in
  let '(res, w) :=
    rpc SetTags CallSetTags
      {| SetTagsRequest_NodeId := uint64 (ValueInt64 (NodeId data));
         SetTagsRequest_Tags := nil_slice |} w in
  match res with
  | inl err =>
      (AddError resp "Client Error" ("Unable to set node tags, got error: " +:+ err), w)
  | inr _ => if HasError resp then (resp, w) else (resp, w)
  end.

Definition ImportState (req : ImportStateRequest) (resp : Response NodeTagsResourceModel)
  : Response NodeTagsResourceModel :=
  match strconv.Atoi (ID req) with
  | inl err => AddError resp "Fail to parse node id" ("Fail to parse node id: " +:+ err)
  | inr id =>
      let typedId := Known (int64 id) in
      let resp := SetAttribute resp (fun data => with_NodeId data typedId) in
      SetAttribute resp (fun data => with_Id data typedId)
  end.

End MoreHandlers.
End NodeTagsResource.

(** ** node_routes resource *)

Module NodeRoutesResource.

Import types tfsdk world v1.

Record NodeRoutesResourceModel := {
  Id : types.Int64;
  NodeId : types.Int64;
  Routes : types.Set_;
}.

#[export] Instance NodeRoutesResourceModel_zero : Zero NodeRoutesResourceModel :=
  {| Id := Null; NodeId := Null; Routes := Null |}.

Definition with_Routes (data : NodeRoutesResourceModel) (routes : types.Set_) :=
  {| Id := Id data; NodeId := NodeId data; Routes := routes |}.

Record CreateRequest := { CreateRequest_Plan : tfsdk.State NodeRoutesResourceModel }.

Record ReadRequest := { ReadRequest_State : tfsdk.State NodeRoutesResourceModel }.

Record UpdateRequest := {
  UpdateRequest_State : tfsdk.State NodeRoutesResourceModel;
  UpdateRequest_Plan : tfsdk.State NodeRoutesResourceModel;
}.

(** [req.Plan.GetAttribute(ctx, path.Root("routes"), &routes)]; see
    [NodeTagsResource.GetAttribute_tags]. *)
Definition GetAttribute_routes (plan : tfsdk.State NodeRoutesResourceModel)
    (target : slice string) : slice string :=
  match plan with
  | None => nil_slice
  | Some p =>
      match Routes p with
      | Null => nil_slice
      | Unknown => target
      | Known elems =>
          if forallb (fun e => match e with Known _ => true | _ => false end) elems
          then mk_slice (ValueString <$> elems)
          else target
      end
  end.

Definition readComputedFields (node : option Node) (data : NodeRoutesResourceModel)
  : NodeRoutesResourceModel * diag.Diagnostics :=
  let approvedRoutes := Node_GetApprovedRoutes node in
  let approvedRoutes := if is_nil approvedRoutes then mk_slice [] else approvedRoutes in
  let routes := SetValueFrom approvedRoutes in
  (with_Routes data routes, []).

(** What a handler may do to the state of its response: leave it, remove
    it, or write a record whose routes are a known set of known strings. *)
Definition well_observed (before after : Response NodeRoutesResourceModel) : Prop :=
  State_ after = State_ before
  \/ State_ after = None
  \/ exists d l, State_ after = Some d /\ Routes d = Known (Known <$> l).

(** The request that carries the set [S] for the node of the record. *)
Definition request (data : NodeRoutesResourceModel) (S : list string)
  : SetApprovedRoutesRequest :=
  {| SetApprovedRoutesRequest_NodeId := uint64 (ValueInt64 (NodeId data));
     SetApprovedRoutesRequest_Routes := mk_slice S |}.

Section Handlers.
Context {Remote : Type} `{client : !HeadscaleServiceClient Remote}.

Definition Create (req : CreateRequest) (resp : Response NodeRoutesResourceModel)
    (w : World Remote) : Response NodeRoutesResourceModel * World Remote :=
  let '(data, ds) := Get (CreateRequest_Plan req) in
  let resp := Append resp ds in
  if HasError resp then (resp, w) else
  let data := {| Id := NodeId data; NodeId := NodeId data; Routes := Routes data |} in
  let routes := mk_slice (ValueString <$> Elements (Routes data)) in
  let '(res, w) :=
    rpc SetApprovedRoutes CallSetApprovedRoutes
      {| SetApprovedRoutesRequest_NodeId := uint64 (ValueInt64 (NodeId data));
         SetApprovedRoutesRequest_Routes := routes |} w in
  match res with
  | inl err =>
      (AddError resp "Client Error" ("Unable to set node routes, got error: " +:+ err), w)
  | inr response =>
      let '(data, ds) := readComputedFields (SetApprovedRoutesResponse_Node response) data in
      let resp := Append resp ds in
      (tfsdk.Set_ resp data, w)
  end.

Definition Read (req : ReadRequest) (resp : Response NodeRoutesResourceModel)
    (w : World Remote) : Response NodeRoutesResourceModel * World Remote :=
  let '(data, ds) := Get (ReadRequest_State req) in
  let resp := Append resp ds in
  if HasError resp then (resp, w) else
  let '(res, w) :=
    rpc GetNode CallGetNode {| GetNodeRequest_NodeId := uint64 (ValueInt64 (NodeId data)) |} w in
  match res with
  | inl err =>
      (AddError resp "Client Error" ("Unable to list nodes routes, got error: " +:+ err), w)
  | inr response =>
      match GetNodeResponse_Node response with
      | None =>
          let resp := AddError resp "node not found" "node not found" in
          (RemoveResource resp, w)
      | Some node =>
          let '(data, ds) := readComputedFields (Some node) data in
          let resp := Append resp ds in
          (tfsdk.Set_ resp data, w)
      end
  end.

Definition Update (req : UpdateRequest) (resp : Response NodeRoutesResourceModel)
    (w : World Remote) : Response NodeRoutesResourceModel * World Remote :=
  let '(data, ds) := Get (UpdateRequest_State req) in
  let resp := Append resp ds in
  if HasError resp then (resp, w) else
  let routes := mk_slice [] in
  let routes := GetAttribute_routes (UpdateRequest_Plan req) routes in
  let '(res, w) :=
    rpc SetApprovedRoutes CallSetApprovedRoutes
      {| SetApprovedRoutesRequest_NodeId := uint64 (ValueInt64 (NodeId data));
         SetApprovedRoutesRequest_Routes := routes |} w in
  match res with
  | inl err =>
      (AddError resp "Client Error" ("Unable to set node routes, got error: " +:+ err), w)
  | inr response =>
      let '(data, ds) := readComputedFields (SetApprovedRoutesResponse_Node response) data in
      let resp := Append resp ds in
      (tfsdk.Set_ resp data, w)
  end.

End Handlers.

Record DeleteRequest := { DeleteRequest_State : tfsdk.State NodeRoutesResourceModel }.
Record ImportStateRequest := { ID : string }.

Definition with_NodeId (data : NodeRoutesResourceModel) (v : types.Int64) :=
  {| Id := Id data; NodeId := v; Routes := Routes data |}.
Definition with_Id (data : NodeRoutesResourceModel) (v : types.Int64) :=
  {| Id := v; NodeId := NodeId data; Routes := Routes data |}.

Section MoreHandlers.
Context {Remote : Type} `{client : !HeadscaleServiceClient Remote} {conv : strconv.Lib}.

(** The request carries no [Routes] field: the nil slice.  The diagnostics
    are looked at only after the call. *)
Definition Delete (req : DeleteRequest) (resp : Response NodeRoutesResourceModel)
    (w : World Remote) : Response NodeRoutesResourceModel * World Remote :=
  let '(data, ds) := Get (DeleteRequest_State req) in
  let resp := Append resp ds in
  let '(res, w) :=
    rpc SetApprovedRoutes CallSetApprovedRoutes
      {| SetApprovedRoutesRequest_NodeId := uint64 (ValueInt64 (NodeId data));
         SetApprovedRoutesRequest_Routes := nil_slice |} w in
  match res with
  | inl err =>
      (AddError resp "Client Error" ("Unable to set node routes, got error: " +:+ err), w)
  | inr _ => if HasError resp then (resp, w) else (resp, w)
  end.

Definition ImportState (req : ImportStateRequest) (resp : Response NodeRoutesResourceModel)
  : Response NodeRoutesResourceModel :=
  match strconv.Atoi (ID req) with
  | inl err => AddError resp "Fail to parse node id" ("Fail to parse node id: " +:+ err)
  | inr id =>
      let typedId := Known (int64 id) in
      let resp := SetAttribute resp (fun data => with_NodeId data typedId) in
      SetAttribute resp (fun data => with_Id data typedId)
  end.

End MoreHandlers.
End NodeRoutesResource.

(** ** pre_auth_key resource *)

Module PreAuthKeyResource.

Import types tfsdk world v1 timestamppb.

Record PreAuthKeyResourceModel := {
  Id : types.Int64;
  UserId : types.Int64;
  Reusable : types.Bool;
  Ephemeral : types.Bool;
  Ttl : types.String;
  ACLTags : types.Set_;
  Expired : types.Bool;
  CreatedAt : types.String;
  Expiration : types.String;
  Key : types.String;
}.

#[export] Instance PreAuthKeyResourceModel_zero : Zero PreAuthKeyResourceModel :=
  {| Id := Null; UserId := Null; Reusable := Null; Ephemeral := Null; Ttl := Null;
     ACLTags := Null; Expired := Null; CreatedAt := Null; Expiration := Null;
     Key := Null |}.

Definition with_ACLTags (data : PreAuthKeyResourceModel) (tags : types.Set_) :=
  {| Id := Id data; UserId := UserId data; Reusable := Reusable data;
     Ephemeral := Ephemeral data; Ttl := Ttl data; ACLTags := tags;
     Expired := Expired data; CreatedAt := CreatedAt data;
     Expiration := Expiration data; Key := Key data |}.

Definition with_Reusable_Ephemeral (data : PreAuthKeyResourceModel) (r e : types.Bool) :=
  {| Id := Id data; UserId := UserId data; Reusable := r;
     Ephemeral := e; Ttl := Ttl data; ACLTags := ACLTags data;
     Expired := Expired data; CreatedAt := CreatedAt data;
     Expiration := Expiration data; Key := Key data |}.

Record CreateRequest := { CreateRequest_Plan : tfsdk.State PreAuthKeyResourceModel }.
Record ReadRequest := { ReadRequest_State : tfsdk.State PreAuthKeyResourceModel }.
Record UpdateRequest := {
  UpdateRequest_State : tfsdk.State PreAuthKeyResourceModel;
  UpdateRequest_Plan : tfsdk.State PreAuthKeyResourceModel;
}.

(** The scan of [Read]: the loop has no [break], so the last key of the
    list with the wanted id wins. *)
Definition scan (id : Z) (keys : list PreAuthKey) : option PreAuthKey :=
  fold_left
    (fun preAuthKey found =>
       if bool_decide (PreAuthKey_Id found ≠ id) then preAuthKey else Some found)
    keys None.

Section Handlers.
Context {Remote : Type} `{client : !HeadscaleServiceClient Remote} {lib : time.Lib}.

(** [None] is the panic of [key.Expiration] on a nil [key]; the fields
    assigned before it are lost with the handler. *)
Definition readComputedFields (key : option PreAuthKey) (data : PreAuthKeyResourceModel)
    (w : World Remote) : option PreAuthKeyResourceModel * World Remote :=
  let createdAt := Known (time.FormatRFC3339 (AsTime (PreAuthKey_GetCreatedAt key))) in
  let expiration := Known (time.FormatRFC3339 (AsTime (PreAuthKey_GetExpiration key))) in
  let key_ := Known (PreAuthKey_GetKey key) in
  let id := Known (int64 (PreAuthKey_GetId key)) in
  let '(now, w) := Now w in
  match key with
  | None => (None, w)
  | Some k =>
      let expired := Known (time.After now (AsTime (PreAuthKey_Expiration k))) in
      (Some {| Id := id; UserId := UserId data;
               Reusable := Known (PreAuthKey_GetReusable key);
               Ephemeral := Known (PreAuthKey_GetEphemeral key);
               Ttl := Ttl data; ACLTags := ACLTags data;
               Expired := expired; CreatedAt := createdAt;
               Expiration := expiration; Key := key_ |}, w)
  end.

Definition Create (req : CreateRequest) (resp : Response PreAuthKeyResourceModel)
    (w : World Remote) : option (Response PreAuthKeyResourceModel) * World Remote :=
  let '(data, ds) := Get (CreateRequest_Plan req) in
  let resp := Append resp ds in
  if HasError resp then (Some resp, w) else
  let aclTags := mk_slice (ValueString <$> Elements (ACLTags data)) in
  let expiration :=
    if IsNull (Ttl data) then
      let '(now, w) := Now w in
      inr (New (time.Add now (1 * time.Hour)), w)
    else
      match time.ParseDuration (ValueString (Ttl data)) with
      | inl err => inl err
      | inr ttl =>
          let '(now, w) := Now w in
          inr (New (time.Add now ttl), w)
      end in
  match expiration with
  | inl err =>
      (Some (AddError resp "Parse TTL Error" ("Unable to parse ttl, got error: " +:+ err)), w)
  | inr (expiration, w) =>
      let '(res, w) :=
        rpc CreatePreAuthKey CallCreatePreAuthKey
          {| CreatePreAuthKeyRequest_User := uint64 (ValueInt64 (UserId data));
             CreatePreAuthKeyRequest_Reusable := ValueBool (Reusable data);
             CreatePreAuthKeyRequest_Ephemeral := ValueBool (Ephemeral data);
             CreatePreAuthKeyRequest_Expiration := Some expiration;
             CreatePreAuthKeyRequest_AclTags := aclTags |} w in
      match res with
      | inl err =>
          (Some (AddError resp "Client Error"
                   ("Unable to create pre auth key, got error: " +:+ err)), w)
      | inr response =>
          let '(data, w) :=
            readComputedFields (CreatePreAuthKeyResponse_PreAuthKey response) data w in
          ((fun data => tfsdk.Set_ resp data) <$> data, w)
      end
  end.

Definition Read (req : ReadRequest) (resp : Response PreAuthKeyResourceModel)
    (w : World Remote) : option (Response PreAuthKeyResourceModel) * World Remote :=
  let '(data, ds) := Get (ReadRequest_State req) in
  let resp := Append resp ds in
  if HasError resp then (Some resp, w) else
  let '(res, w) :=
    rpc ListPreAuthKeys CallListPreAuthKeys
      {| ListPreAuthKeysRequest_User := uint64 (ValueInt64 (UserId data)) |} w in
  match res with
  | inl err =>
      (Some (AddError resp "Client Error"
               ("Unable to list pre auth keys, got error: " +:+ err)), w)
  | inr response =>
      let id := uint64 (ValueInt64 (Id data)) in
      match scan id (elements (ListPreAuthKeysResponse_PreAuthKeys response)) with
      | None =>
          let resp := AddError resp "Pre auth key not found" "Pre auth key not found" in
          (Some (RemoveResource resp), w)
      | Some preAuthKey =>
          match readComputedFields (Some preAuthKey) data w with
          | (None, w) => (None, w)
          | (Some data, w) =>
              let data :=
                with_Reusable_Ephemeral data
                  (Known (PreAuthKey_Reusable preAuthKey))
                  (Known (PreAuthKey_Ephemeral preAuthKey)) in
              let aclTags := SetValueFrom (PreAuthKey_AclTags preAuthKey) in
              let data := with_ACLTags data aclTags in
              let resp := tfsdk.Set_ resp data in
              let '(now, w) := Now w in
              if time.After now (AsTime (PreAuthKey_Expiration preAuthKey))
              then (Some (RemoveResource resp), w)
              else (Some resp, w)
          end
      end
  end.

Definition Update (req : UpdateRequest) (resp : Response PreAuthKeyResourceModel)
    (w : World Remote) : Response PreAuthKeyResourceModel * World Remote :=
  (AddError resp "Error updating pre auth key" "Pre auth keys cannot be updated", w).

(** The record Read builds from a found key; [now] is the reading of the
    clock taken while the computed fields are filled in. *)
Definition observed (k : PreAuthKey) (now : time.Time)
    (data : PreAuthKeyResourceModel)
  : PreAuthKeyResourceModel :=
  {| Id := Known (int64 (PreAuthKey_Id k));
     UserId := UserId data;
     Reusable := Known (PreAuthKey_Reusable k);
     Ephemeral := Known (PreAuthKey_Ephemeral k);
     Ttl := Ttl data;
     ACLTags := SetValueFrom (PreAuthKey_AclTags k);
     Expired :=
       Known (time.After now (AsTime (PreAuthKey_Expiration k)));
     CreatedAt :=
       Known (time.FormatRFC3339 (AsTime (PreAuthKey_CreatedAt k)));
     Expiration :=
       Known (time.FormatRFC3339 (AsTime (PreAuthKey_Expiration k)));
     Key := Known (PreAuthKey_Key k) |}.

(** The request Create sends for a key that is to expire at [expiration]. *)
Definition request (data : PreAuthKeyResourceModel)
    (expiration : time.Time) : CreatePreAuthKeyRequest :=
  {| CreatePreAuthKeyRequest_User := uint64 (ValueInt64 (UserId data));
     CreatePreAuthKeyRequest_Reusable := ValueBool (Reusable data);
     CreatePreAuthKeyRequest_Ephemeral := ValueBool (Ephemeral data);
     CreatePreAuthKeyRequest_Expiration := Some (New expiration);
     CreatePreAuthKeyRequest_AclTags :=
       mk_slice (ValueString <$> Elements (ACLTags data)) |}.

End Handlers.

Record DeleteRequest := { DeleteRequest_State : tfsdk.State PreAuthKeyResourceModel }.
Record ImportStateRequest := { ID : string }.

Definition with_UserId (data : PreAuthKeyResourceModel) (v : types.Int64) :=
  {| Id := Id data; UserId := v; Reusable := Reusable data;
     Ephemeral := Ephemeral data; Ttl := Ttl data; ACLTags := ACLTags data;
     Expired := Expired data; CreatedAt := CreatedAt data;
     Expiration := Expiration data; Key := Key data |}.
Definition with_Id (data : PreAuthKeyResourceModel) (v : types.Int64) :=
  {| Id := v; UserId := UserId data; Reusable := Reusable data;
     Ephemeral := Ephemeral data; Ttl := Ttl data; ACLTags := ACLTags data;
     Expired := Expired data; CreatedAt := CreatedAt data;
     Expiration := Expiration data; Key := Key data |}.

Section MoreHandlers.
Context {Remote : Type} `{client : !HeadscaleServiceClientMore Remote} {conv : strconv.Lib}.

Definition Delete (req : DeleteRequest) (resp : Response PreAuthKeyResourceModel)
    (w : world_more.World Remote)
  : Response PreAuthKeyResourceModel * world_more.World Remote :=
  let '(data, ds) := Get (DeleteRequest_State req) in
  let resp := Append resp ds in
  if HasError resp then (resp, w) else
  let '(res, w) :=
    world_more.rpc ExpirePreAuthKey CallExpirePreAuthKey
      {| ExpirePreAuthKeyRequest_User := uint64 (ValueInt64 (UserId data));
         ExpirePreAuthKeyRequest_Key := ValueString (Key data) |} w in
  match res with
  | inl err =>
      (AddError resp "Client Error"
         ("Unable to delete pre auth key, got error: " +:+ err), w)
  | inr _ => (resp, w)
  end.

(** The guard [len(idParts) != 2 || idParts[0] == "" || idParts[1] == ""]
    is evaluated left to right, so the two elements are read only from a
    list of length two. *)
Definition ImportState (req : ImportStateRequest) (resp : Response PreAuthKeyResourceModel)
  : Response PreAuthKeyResourceModel :=
  let idParts := Split (ID req) ","%char in
  let unexpected :=
    AddError resp "Unexpected Import Identifier"
      ("Expected import identifier with format: user_id,key_id. Got: "
       +:+ strconv.Quote (ID req)) in
  match idParts with
  | [part0; part1] =>
      if bool_decide (part0 = "") || bool_decide (part1 = "") then unexpected
      else
        match strconv.Atoi part0 with
        | inl err => AddError resp "Fail to parse user id" ("Fail to parse user id: " +:+ err)
        | inr userId =>
            match strconv.Atoi part1 with
            | inl err =>
                AddError resp "Fail to parse key id" ("Fail to parse key id: " +:+ err)
            | inr keyId =>
                let resp :=
                  SetAttribute resp (fun data => with_UserId data (Known (int64 userId))) in
                SetAttribute resp (fun data => with_Id data (Known (int64 keyId)))
            end
        end
  | _ => unexpected
  end.

End MoreHandlers.
End PreAuthKeyResource.

(** ** user resource *)

Module UserResource.

Import types tfsdk world v1 timestamppb.

Record UserResourceModel := {
  Id : types.Int64;
  Name : types.String;
  Email : types.String;
  DisplayName : types.String;
  CreatedAt : types.String;
}.

#[export] Instance UserResourceModel_zero : Zero UserResourceModel :=
  {| Id := Null; Name := Null; Email := Null; DisplayName := Null; CreatedAt := Null |}.

Record ReadRequest := { ReadRequest_State : tfsdk.State UserResourceModel }.

Section Handlers.
Context {Remote : Type} `{client : !HeadscaleServiceClient Remote} {lib : time.Lib}.

Definition readComputedFields (user : option User) (data : UserResourceModel)
  : UserResourceModel :=
  {| CreatedAt := Known (time.FormatRFC3339 (AsTime (User_GetCreatedAt user)));
     Id := Known (int64 (User_GetId user));
     Name := Known (User_GetName user);
     Email :=
       if bool_decide (User_GetEmail user = "") then Null
       else Known (User_GetEmail user);
     DisplayName :=
       if bool_decide (User_GetDisplayName user = "") then Null
       else Known (User_GetDisplayName user) |}.

(** [None] is the panic of an index out of range. *)
Definition Read (req : ReadRequest) (resp : Response UserResourceModel)
    (w : World Remote) : option (Response UserResourceModel) * World Remote :=
  let '(data, ds) := Get (ReadRequest_State req) in
  let resp := Append resp ds in
  if HasError resp then (Some resp, w) else
  let '(res, w) :=
    rpc ListUsers CallListUsers
      {| ListUsersRequest_Id := uint64 (ValueInt64 (Id data)) |} w in
  match res with
  | inl err =>
      (Some (AddError resp "Client Error" ("Unable to list users, got error: " +:+ err)), w)
  | inr response =>
      if is_nil (ListUsersResponse_Users response)
         || negb (len (ListUsersResponse_Users response) =? 1)%nat
      then
        let resp := AddError resp "user not found" "user not found" in
        (Some (RemoveResource resp), w)
      else
        match index (ListUsersResponse_Users response) 0 with
        | None => (None, w)
        | Some user =>
            let data := readComputedFields (Some user) data in
            (Some (tfsdk.Set_ resp data), w)
        end
  end.

End Handlers.

Record CreateRequest := { CreateRequest_Plan : tfsdk.State UserResourceModel }.
Record UpdateRequest := {
  UpdateRequest_State : tfsdk.State UserResourceModel;
  UpdateRequest_Plan : tfsdk.State UserResourceModel;
}.
Record DeleteRequest := { DeleteRequest_State : tfsdk.State UserResourceModel }.

(** [req.Plan.GetAttribute(ctx, path.Root("name"), &newName)] with
    [newName : string]: a known string is stored into the target; a null or
    unknown value (or a null plan) cannot be held by a Go string, the target
    keeps its zero value and an error is reported. *)
Definition GetAttribute_name (plan : tfsdk.State UserResourceModel)
  : string * diag.Diagnostics :=
  match plan with
  | Some p =>
      match Name p with
      | Known s => (s, [])
      | Null =>
          ("", [diag.NewErrorDiagnostic "Value Conversion Error" "unhandled null value"])
      | Unknown =>
          ("", [diag.NewErrorDiagnostic "Value Conversion Error" "unhandled unknown value"])
      end
  | None =>
      ("", [diag.NewErrorDiagnostic "Value Conversion Error" "unhandled null value"])
  end.

Section MoreHandlers.
Context {Remote : Type} `{client : !HeadscaleServiceClientMore Remote} {lib : time.Lib}.

Definition Create (req : CreateRequest) (resp : Response UserResourceModel)
    (w : world_more.World Remote) : Response UserResourceModel * world_more.World Remote :=
  let '(data, ds) := Get (CreateRequest_Plan req) in
  let resp := Append resp ds in
  if HasError resp then (resp, w) else
  let createUserRequest :=
    {| CreateUserRequest_Name := ValueString (Name data);
       CreateUserRequest_DisplayName :=
         if negb (IsNull (DisplayName data)) then ValueString (DisplayName data) else "";
       CreateUserRequest_Email :=
         if negb (IsNull (Email data)) then ValueString (Email data) else "" |} in
  let '(res, w) := world_more.rpc CreateUser CallCreateUser createUserRequest w in
  match res with
  | inl err =>
      (AddError resp "Client Error" ("Unable to create user, got error: " +:+ err), w)
  | inr response =>
      let data := readComputedFields (CreateUserResponse_User response) data in
      (tfsdk.Set_ resp data, w)
  end.

(** The diagnostics of reading the planned name are appended, and the
    handler goes on to the call without looking at them. *)
Definition Update (req : UpdateRequest) (resp : Response UserResourceModel)
    (w : world_more.World Remote) : Response UserResourceModel * world_more.World Remote :=
  let '(data, ds) := Get (UpdateRequest_State req) in
  let resp := Append resp ds in
  if HasError resp then (resp, w) else
  let '(newName, ds) := GetAttribute_name (UpdateRequest_Plan req) in
  let resp := Append resp ds in
  let '(res, w) :=
    world_more.rpc RenameUser CallRenameUser
      {| RenameUserRequest_OldId := uint64 (ValueInt64 (Id data));
         RenameUserRequest_NewName := newName |} w in
  match res with
  | inl err =>
      (AddError resp "Client Error" ("Unable to rename user, got error: " +:+ err), w)
  | inr response =>
      let data := readComputedFields (RenameUserResponse_User response) data in
      (tfsdk.Set_ resp data, w)
  end.

Definition Delete (req : DeleteRequest) (resp : Response UserResourceModel)
    (w : world_more.World Remote) : Response UserResourceModel * world_more.World Remote :=
  let '(data, ds) := Get (DeleteRequest_State req) in
  let resp := Append resp ds in
  if HasError resp then (resp, w) else
  let '(res, w) :=
    world_more.rpc DeleteUser CallDeleteUser
      {| DeleteUserRequest_Id := uint64 (ValueInt64 (Id data)) |} w in
  match res with
  | inl err =>
      (AddError resp "Client Error" ("Unable to delete user, got error: " +:+ err), w)
  | inr _ => (resp, w)
  end.

End MoreHandlers.
End UserResource.

(** ** api_key resource *)

Module ApiKeyResource.

Import types tfsdk world v1 timestamppb.

Record ApiKeyResourceModel := {
  Id : types.String;
  Ttl : types.String;
  Expired : types.Bool;
  CreatedAt : types.String;
  Expiration : types.String;
  Key : types.String;
}.

#[export] Instance ApiKeyResourceModel_zero : Zero ApiKeyResourceModel :=
  {| Id := Null; Ttl := Null; Expired := Null; CreatedAt := Null; Expiration := Null;
     Key := Null |}.

Record CreateRequest := { CreateRequest_Plan : tfsdk.State ApiKeyResourceModel }.
Record ReadRequest := { ReadRequest_State : tfsdk.State ApiKeyResourceModel }.
Record UpdateRequest := {
  UpdateRequest_State : tfsdk.State ApiKeyResourceModel;
  UpdateRequest_Plan : tfsdk.State ApiKeyResourceModel;
}.

Section Handlers.
Context {Remote : Type} `{client : !HeadscaleServiceClient Remote} {lib : time.Lib}.

(** The loop breaks at the first key with the wanted prefix. *)
Definition readComputedFields (prefix : string) (listResponse : ListApiKeysResponse)
    (data : ApiKeyResourceModel) (w : World Remote)
  : (ApiKeyResourceModel * bool) * World Remote :=
  match
    List.find (fun found => bool_decide (prefix = ApiKey_Prefix found))
      (elements (ListApiKeysResponse_ApiKeys listResponse))
  with
  | None => ((data, false), w)
  | Some apiKey =>
      let expiration := Known (time.FormatRFC3339 (AsTime (ApiKey_Expiration apiKey))) in
      let createdAt := Known (time.FormatRFC3339 (AsTime (ApiKey_CreatedAt apiKey))) in
      let '(now, w) := Now w in
      let expired := Known (time.After now (AsTime (ApiKey_Expiration apiKey))) in
      (({| Id := Id data; Ttl := Ttl data; Expired := expired; CreatedAt := createdAt;
           Expiration := expiration; Key := Key data |}, true), w)
  end.

(** [None] is the panic of an index out of range. *)
Definition Create (req : CreateRequest) (resp : Response ApiKeyResourceModel)
    (w : World Remote) : option (Response ApiKeyResourceModel) * World Remote :=
  let '(data, ds) := Get (CreateRequest_Plan req) in
  let resp := Append resp ds in
  if HasError resp then (Some resp, w) else
  match time.ParseDuration (ValueString (Ttl data)) with
  | inl err =>
      (Some (AddError resp "Parse TTL Error" ("Unable to parse ttl, got error: " +:+ err)), w)
  | inr ttl =>
      let '(now, w) := Now w in
      let '(res, w) :=
        rpc CreateApiKey CallCreateApiKey
          {| CreateApiKeyRequest_Expiration := Some (New (time.Add now ttl)) |} w in
      match res with
      | inl err =>
          (Some (AddError resp "Client Error"
                   ("Unable to create api key, got error: " +:+ err)), w)
      | inr response =>
          match Split (CreateApiKeyResponse_ApiKey response) "."%char !! 0%nat with
          | None => (None, w)
          | Some keyPrefix =>
          let data :=
            {| Id := Known keyPrefix; Ttl := Ttl data; Expired := Expired data;
               CreatedAt := CreatedAt data; Expiration := Expiration data;
               Key := Known (CreateApiKeyResponse_ApiKey response) |} in
          let '(res, w) := rpc ListApiKeys CallListApiKeys mkListApiKeysRequest w in
          match res with
          | inl err =>
              (Some (AddError resp "Client Error"
                       ("Unable to list api keys after creation, got error: " +:+ err)), w)
          | inr listResponse =>
              let '((data, isFound), w) :=
                readComputedFields (ValueString (Id data)) listResponse data w in
              if negb isFound then
                let resp :=
                  AddError resp "Client Error" "Unable to found api key after creation" in
                (Some (RemoveResource resp), w)
              else (Some (tfsdk.Set_ resp data), w)
          end
          end
      end
  end.

Definition Read (req : ReadRequest) (resp : Response ApiKeyResourceModel)
    (w : World Remote) : Response ApiKeyResourceModel * World Remote :=
  let '(data, ds) := Get (ReadRequest_State req) in
  let resp := Append resp ds in
  if HasError resp then (resp, w) else
  let '(res, w) := rpc ListApiKeys CallListApiKeys mkListApiKeysRequest w in
  match res with
  | inl err =>
      (AddError resp "Client Error" ("Unable to list api keys, got error: " +:+ err), w)
  | inr listResponse =>
      let '((data, isFound), w) :=
        readComputedFields (ValueString (Id data)) listResponse data w in
      if negb isFound then (RemoveResource resp, w)
      else
        let resp := tfsdk.Set_ resp data in
        if ValueBool (Expired data) then (RemoveResource resp, w) else (resp, w)
  end.

Definition Update (req : UpdateRequest) (resp : Response ApiKeyResourceModel)
    (w : World Remote) : Response ApiKeyResourceModel * World Remote :=
  (AddError resp "Error updating api key" "api keys cannot be updated", w).

(** The record built from a listed key; [now] is the reading of the clock
    taken while the computed fields are filled in. *)
Definition observed (k : ApiKey) (now : time.Time) (data : ApiKeyResourceModel)
  : ApiKeyResourceModel :=
  {| Id := Id data;
     Ttl := Ttl data;
     Expired := Known (time.After now (AsTime (ApiKey_Expiration k)));
     CreatedAt := Known (time.FormatRFC3339 (AsTime (ApiKey_CreatedAt k)));
     Expiration := Known (time.FormatRFC3339 (AsTime (ApiKey_Expiration k)));
     Key := Key data |}.

End Handlers.

Record DeleteRequest := { DeleteRequest_State : tfsdk.State ApiKeyResourceModel }.

Section MoreHandlers.
Context {Remote : Type} `{client : !HeadscaleServiceClientMore Remote}.

Definition Delete (req : DeleteRequest) (resp : Response ApiKeyResourceModel)
    (w : world_more.World Remote) : Response ApiKeyResourceModel * world_more.World Remote :=
  let '(data, ds) := Get (DeleteRequest_State req) in
  let resp := Append resp ds in
  if HasError resp then (resp, w) else
  let '(res, w) :=
    world_more.rpc DeleteApiKey CallDeleteApiKey
      {| DeleteApiKeyRequest_Prefix := ValueString (Id data) |} w in
  match res with
  | inl err =>
      (AddError resp "Client Error" ("Unable to delete api key, got error: " +:+ err), w)
  | inr _ => (resp, w)
  end.

End MoreHandlers.
End ApiKeyResource.

(** ** provider configuration *)

Module HeadscaleProvider.

Import types.

Record TLSModel := {
  Insecure : types.Bool;
  CaPem : types.String;
  ClientCertPem : types.String;
  ClientKeyPem : types.String;
}.

Record HeadscaleProviderModel := {
  Endpoint : types.String;
  ApiKey : types.String;
  TLS : option TLSModel;
}.

#[export] Instance HeadscaleProviderModel_zero : tfsdk.Zero HeadscaleProviderModel :=
  {| Endpoint := Null; ApiKey := Null; TLS := None |}.

(** The operating system as [Configure] sees it: environment variables,
    files by path, and the log of the paths handed to [os.ReadFile]. *)
Record OS := {
  env : gmap string string;
  files : gmap string string;
  reads : list string;
}.

(** [os.Getenv]: the empty string when the variable is not set. *)
Definition Getenv (key : string) (os : OS) : string := default "" (env os !! key).

(** [os.ReadFile]. *)
Definition ReadFile (name : string) (os : OS) : (error + string) * OS :=
  let os' := {| env := env os; files := files os; reads := reads os ++ [name] |} in
  match files os !! name with
  | Some content => (inr content, os')
  | None => (inl ("open " +:+ name +:+ ": no such file or directory"), os')
  end.

(** The functions of crypto/x509 and crypto/tls that [Configure] calls
    and whose text is not part of this repository. *)
Class Crypto := {
  CertPool : Type;
  Certificate : Type;
  (** [x509.NewCertPool()] followed by [AppendCertsFromPEM]; [None] when
      the latter answers false *)
  AppendCertsFromPEM : string -> option CertPool;
  (** [tls.X509KeyPair(certPEMBlock, keyPEMBlock)] *)
  X509KeyPair : string -> string -> error + Certificate;
}.

Record tlsConfig `{Crypto} := {
  InsecureSkipVerify : bool;
  RootCAs : option CertPool;
  Certificates : list Certificate;
}.

Inductive DialOption `{Crypto} :=
| WithPerRPCCredentials (token : string)
| WithTransportCredentials (cfg : tlsConfig).

(** [grpc.NewClient(target, opts...)]. *)
Class Grpc `{Crypto} := {
  ClientConn : Type;
  NewClient : string -> list DialOption -> error + ClientConn;
}.

(** The configuration as the schema types it: [endpoint] and [api_key]
    are strings, and [tls] is a map of nested objects
    ([schema.MapNestedAttribute]) whose objects hold the four TLS
    attributes. *)
Record ProviderConfig := {
  Config_Endpoint : types.String;
  Config_ApiKey : types.String;
  Config_TLS : types.Value (gmap string TLSModel);
}.

(** What [req.Config.Get(ctx, &data)] makes of a configuration.  The model
    declares [TLS] as a pointer to a struct: a null [tls] is stored as the
    nil pointer, and every other value of the map type has no conversion
    into a struct, so that Get reports an error.  [None] is a configuration
    that Get does not decode; the text of its diagnostic is the framework's
    and is not modelled. *)
Definition decoded (config : ProviderConfig) : tfsdk.State HeadscaleProviderModel :=
  match Config_TLS config with
  | Null =>
      Some {| Endpoint := Config_Endpoint config; ApiKey := Config_ApiKey config;
              TLS := None |}
  | _ => None
  end.

Section Configure.
Context {crypto : Crypto} {grpc : Grpc} {conv : strconv.Lib}.

Record HeadscaleProviderConfiguration := { conn : ClientConn }.

(** The configuration of the request, as [Get] decodes it: [decoded config]
    for the configuration [config] that Terraform hands over. *)
Record ConfigureRequest := { Config : tfsdk.State HeadscaleProviderModel }.

Record ConfigureResponse := {
  Diagnostics : diag.Diagnostics;
  DataSourceData : option HeadscaleProviderConfiguration;
  ResourceData : option HeadscaleProviderConfiguration;
}.

Definition Append (resp : ConfigureResponse) (ds : diag.Diagnostics) :=
  {| Diagnostics := diag.Append (Diagnostics resp) ds;
     DataSourceData := DataSourceData resp;
     ResourceData := ResourceData resp |}.

Definition AddError (resp : ConfigureResponse) (s d : string) :=
  Append resp [diag.NewErrorDiagnostic s d].

(** The guard [data.TLS != nil && !data.TLS.<field>.IsNull()]: the TLS
    block when the guard holds. *)
Definition tls_with {A} (field : TLSModel -> types.Value A) (tls : option TLSModel)
  : option TLSModel :=
  match tls with
  | Some t => if IsNull (field t) then None else Some t
  | None => None
  end.

Definition Configure (req : ConfigureRequest) (resp : ConfigureResponse) (os : OS)
  : ConfigureResponse * OS :=
  let '(data, ds) := tfsdk.Get (Config req) in
  let resp := Append resp ds in
  if diag.HasError (Diagnostics resp) then (resp, os) else
  let target := Getenv "HEADSCALE_ENDPOINT" os in
  let target := if negb (IsNull (Endpoint data)) then ValueString (Endpoint data) else target in
  if bool_decide (target = "") then
    (AddError resp "endpoint is not set" "provider's attribute 'endpoint' is not configured", os)
  else
  let connOpts := [] in
  let apiKey := Getenv "HEADSCALE_API_KEY" os in
  let apiKey := if negb (IsNull (ApiKey data)) then ValueString (ApiKey data) else apiKey in
  let connOpts :=
    if negb (bool_decide (apiKey = "")) then connOpts ++ [WithPerRPCCredentials apiKey]
    else connOpts in
  let '(insecure, resp) :=
    match tls_with Insecure (TLS data) with
    | Some t => (ValueBool (Insecure t), resp)
    | None =>
        let insecureEnv := Getenv "HEADSCALE_TLS_INSECURE" os in
        if negb (bool_decide (insecureEnv = "")) then
          match strconv.ParseBool insecureEnv with
          | inl err =>
              (false,
               AddError resp "Fail to parse env HEADSCALE_TLS_INSECURE"
                 ("Fail to parse env HEADSCALE_TLS_INSECURE: " +:+ err))
          | inr result => (result, resp)
          end
        else (false, resp)
    end in
  let caPemPathEnv := Getenv "HEADSCALE_TLS_CA_PATH" os in
  (* [inl resp] is an early return with that response *)
  let rootCAs : (ConfigureResponse + option CertPool) * OS :=
    match tls_with CaPem (TLS data) with
    | Some t =>
        match AppendCertsFromPEM (ValueString (CaPem t)) with
        | None => (inl (AddError resp "Fail to decode tls.ca_pem" "Fail to decode tls.ca_pem"), os)
        | Some certPool => (inr (Some certPool), os)
        end
    | None =>
        if negb (bool_decide (caPemPathEnv = "")) then
          let '(res, os) := ReadFile caPemPathEnv os in
          match res with
          | inl err =>
              (inl (AddError resp "Fail to read HEADSCALE_TLS_CA_PATH"
                      ("Fail to read ca pem from HEADSCALE_TLS_CA_PATH (" +:+ caPemPathEnv
                       +:+ "): " +:+ err)), os)
          | inr cert =>
              match AppendCertsFromPEM cert with
              | None =>
                  (inl (AddError resp "Fail to decode tls.HEADSCALE_TLS_CA_PATH"
                          "Fail to decode HEADSCALE_TLS_CA_PATH"), os)
              | Some certPool => (inr (Some certPool), os)
              end
          end
        else (inr None, os)
    end in
  match rootCAs with
  | (inl resp, os) => (resp, os)
  | (inr rootCAs, os) =>
  let tlsClientCertPathEnv := Getenv "HEADSCALE_TLS_CLIENT_CERT_PATH" os in
  let tlsClientCertPem : (ConfigureResponse + string) * OS :=
    match tls_with ClientCertPem (TLS data) with
    | Some t => (inr (ValueString (ClientCertPem t)), os)
    | None =>
        if negb (bool_decide (tlsClientCertPathEnv = "")) then
          let '(res, os) := ReadFile tlsClientCertPathEnv os in
          match res with
          | inl err =>
              (inl (AddError resp "Fail to read HEADSCALE_TLS_CLIENT_CERT_PATH"
                      ("Fail to client cert pem from HEADSCALE_TLS_CLIENT_CERT_PATH ("
                       +:+ tlsClientCertPathEnv +:+ "): " +:+ err)), os)
          | inr pem => (inr pem, os)
          end
        else (inr "", os)
    end in
  match tlsClientCertPem with
  | (inl resp, os) => (resp, os)
  | (inr tlsClientCertPem, os) =>
  let tlsClientKeyPemPathEnv := Getenv "HEADSCALE_TLS_CLIENT_KEY_PATH" os in
  let tlsClientKeyPem : (ConfigureResponse + string) * OS :=
    (* the guard tests ClientCertPem, the value read is ClientKeyPem *)
    match tls_with ClientCertPem (TLS data) with
    | Some t => (inr (ValueString (ClientKeyPem t)), os)
    | None =>
        if negb (bool_decide (tlsClientKeyPemPathEnv = "")) then
          let '(res, os) := ReadFile tlsClientKeyPemPathEnv os in
          match res with
          | inl err =>
              (inl (AddError resp "Fail to read HEADSCALE_TLS_CLIENT_KEY_PATH"
                      ("Fail to client cert pem from HEADSCALE_TLS_CLIENT_KEY_PATH ("
                       +:+ tlsClientKeyPemPathEnv +:+ "): " +:+ err)), os)
          | inr pem => (inr pem, os)
          end
        else (inr "", os)
    end in
  match tlsClientKeyPem with
  | (inl resp, os) => (resp, os)
  | (inr tlsClientKeyPem, os) =>
  let certificates : ConfigureResponse + list Certificate :=
    if (0 <? String.length tlsClientCertPem)%nat || (0 <? String.length tlsClientKeyPem)%nat
    then
      match X509KeyPair tlsClientCertPem tlsClientKeyPem with
      | inl err =>
          inl (AddError resp "Fail to read build tls client key pair"
                 ("Fail to read build tls client key pair: " +:+ err))
      | inr cert => inr [cert]
      end
    else inr [] in
  match certificates with
  | inl resp => (resp, os)
  | inr certificates =>
  let tlsConfig :=
    {| InsecureSkipVerify := insecure; RootCAs := rootCAs; Certificates := certificates |} in
  let connOpts := connOpts ++ [WithTransportCredentials tlsConfig] in
  match NewClient target connOpts with
  | inl err =>
      (AddError resp "Create GRPC client error" ("cant create grpc client, got error: " +:+ err),
       os)
  | inr conn =>
      let config := {| conn := conn |} in
      ({| Diagnostics := Diagnostics resp;
          DataSourceData := Some config;
          ResourceData := Some config |}, os)
  end
  end
  end
  end
  end.

End Configure.

(** The value of an attribute that can also come from the environment:
    the inline value unless it is null. *)
Definition inline_or_env (inline : types.String) (env : string) : string :=
  if IsNull inline then env else ValueString inline.

(** Whether certificate verification is to be skipped: the inline flag
    unless it is null, else the variable when it parses. *)
Definition insecure_of {conv : strconv.Lib} (tls : option TLSModel) (env : string)
  : bool :=
  match tls_with Insecure tls with
  | Some t => ValueBool (Insecure t)
  | None =>
      match strconv.ParseBool env with
      | inr b => b
      | inl _ => false
      end
  end.

(** The root pool: decoded from the inline bundle unless it is null, else
    from the file named by the variable when it is set, else none. *)
Definition rootCAs_of {crypto : Crypto} (tls : option TLSModel) (os : OS)
  : option CertPool :=
  match tls_with CaPem tls with
  | Some t => AppendCertsFromPEM (ValueString (CaPem t))
  | None =>
      let path := Getenv "HEADSCALE_TLS_CA_PATH" os in
      if bool_decide (path = "") then None
      else files os !! path ≫= AppendCertsFromPEM
  end.

End HeadscaleProvider.

(** ** Test doubles

    An in-memory service behind the client interface and stand-ins for the
    library functions, used to run the handlers on concrete inputs. *)

Module Fake.

Import v1 timestamppb.

Record Service := {
  nodes : slice Node;
  users : slice User;
  preAuthKeys : slice PreAuthKey;
  apiKeys : slice ApiKey;
  (** the secret handed out by the next CreateApiKey *)
  nextApiKey : string;
}.

Definition find_node (id : Z) (s : Service) : option Node :=
  List.find (fun n => bool_decide (Node_Id n = id)) (elements (nodes s)).

Definition update_node (f : Node -> Node) (id : Z) (s : Service) : Service :=
  {| nodes :=
       match nodes s with
       | nil_slice => nil_slice
       | mk_slice l => mk_slice ((fun n => if bool_decide (Node_Id n = id) then f n else n) <$> l)
       end;
     users := users s; preAuthKeys := preAuthKeys s; apiKeys := apiKeys s;
     nextApiKey := nextApiKey s |}.

Definition set_tags (tags : slice string) (n : Node) : Node :=
  {| Node_Id := Node_Id n; Node_Name := Node_Name n; Node_User := Node_User n;
     Node_ForcedTags := tags; Node_ApprovedRoutes := Node_ApprovedRoutes n |}.

Definition set_routes (routes : slice string) (n : Node) : Node :=
  {| Node_Id := Node_Id n; Node_Name := Node_Name n; Node_User := Node_User n;
     Node_ForcedTags := Node_ForcedTags n; Node_ApprovedRoutes := routes |}.

#[export] Instance client : HeadscaleServiceClient Service := {|
  ListNodes s _ := (s, inr {| ListNodesResponse_Nodes := nodes s |});
  GetNode s q :=
    (s, inr {| GetNodeResponse_Node := find_node (GetNodeRequest_NodeId q) s |});
  SetTags s q :=
    match find_node (SetTagsRequest_NodeId q) s with
    | None => (s, inl "node not found")
    | Some n =>
        (update_node (set_tags (SetTagsRequest_Tags q)) (SetTagsRequest_NodeId q) s,
         inr {| SetTagsResponse_Node := Some (set_tags (SetTagsRequest_Tags q) n) |})
    end;
  SetApprovedRoutes s q :=
    match find_node (SetApprovedRoutesRequest_NodeId q) s with
    | None => (s, inl "node not found")
    | Some n =>
        (update_node (set_routes (SetApprovedRoutesRequest_Routes q))
           (SetApprovedRoutesRequest_NodeId q) s,
         inr {| SetApprovedRoutesResponse_Node :=
                  Some (set_routes (SetApprovedRoutesRequest_Routes q) n) |})
    end;
  ListUsers s _ := (s, inr {| ListUsersResponse_Users := users s |});
  ListPreAuthKeys s _ :=
    (s, inr {| ListPreAuthKeysResponse_PreAuthKeys := preAuthKeys s |});
  CreatePreAuthKey s q :=
    let k :=
      {| PreAuthKey_Id := Z.of_nat (len (preAuthKeys s)) + 1;
         PreAuthKey_Key := "secret";
         PreAuthKey_Reusable := CreatePreAuthKeyRequest_Reusable q;
         PreAuthKey_Ephemeral := CreatePreAuthKeyRequest_Ephemeral q;
         PreAuthKey_Expiration := CreatePreAuthKeyRequest_Expiration q;
         PreAuthKey_CreatedAt := None;
         PreAuthKey_AclTags := CreatePreAuthKeyRequest_AclTags q |} in
    ({| nodes := nodes s; users := users s;
        preAuthKeys := mk_slice (elements (preAuthKeys s) ++ [k]);
        apiKeys := apiKeys s; nextApiKey := nextApiKey s |},
     inr {| CreatePreAuthKeyResponse_PreAuthKey := Some k |});
  CreateApiKey s q :=
    let k :=
      {| ApiKey_Prefix := default "" (Split (nextApiKey s) "." !! 0%nat);
         ApiKey_Expiration := CreateApiKeyRequest_Expiration q;
         ApiKey_CreatedAt := None |} in
    ({| nodes := nodes s; users := users s; preAuthKeys := preAuthKeys s;
        apiKeys := mk_slice (elements (apiKeys s) ++ [k]);
        nextApiKey := nextApiKey s |},
     inr {| CreateApiKeyResponse_ApiKey := nextApiKey s |});
  ListApiKeys s _ := (s, inr {| ListApiKeysResponse_ApiKeys := apiKeys s |});
|}.

Definition empty : Service :=
  {| nodes := mk_slice []; users := mk_slice []; preAuthKeys := mk_slice [];
     apiKeys := mk_slice []; nextApiKey := "" |}.

(** A clock that stands still at [t]. *)
Definition at_ (t : time.Time) (s : Service) : world.World Service :=
  {| world.remote := s; world.clock := fun _ => t; world.calls := [] |}.

(** A digit string, most significant digit first. *)
Definition digit (c : ascii) : option Z :=
  let n := Z.of_N (N_of_ascii c) in
  if (48 <=? n) && (n <=? 57) then Some (n - 48) else None.

Fixpoint number (s : string) (acc : Z) : Z * string :=
  match s with
  | EmptyString => (acc, s)
  | String c rest =>
      match digit c with
      | Some d => number rest (10 * acc + d)
      | None => (acc, s)
      end
  end.

Definition units : list (string * time.Duration) :=
  [("ns", 1); ("us", 1000); ("µs", 1000); ("ms", 1000000); ("s", time.Second);
   ("m", 60 * time.Second); ("h", time.Hour)].

(** Durations of the shape the schema validators admit, digits followed by
    one unit; every other string is an error. *)
Definition parse_simple_duration (s : string) : error + time.Duration :=
  let '(n, u) := number s 0 in
  if bool_decide (u = s) then inl ("time: invalid duration " +:+ s)
  else
    match List.find (fun p => bool_decide (p.1 = u)) units with
    | Some (_, unit) => inr (n * unit)
    | None => inl ("time: unknown unit in duration " +:+ s)
    end.

#[export] Instance timeLib : time.Lib := {|
  time.ParseDuration := parse_simple_duration;
  time.FormatRFC3339 t := pretty.pretty t;
|}.

(** Stand-ins for the certificate functions: a PEM block is accepted when
    it is not empty. *)
#[export] Instance crypto : HeadscaleProvider.Crypto := {|
  HeadscaleProvider.CertPool := string;
  HeadscaleProvider.Certificate := string * string;
  HeadscaleProvider.AppendCertsFromPEM pem :=
    if bool_decide (pem = "") then None else Some pem;
  HeadscaleProvider.X509KeyPair cert key :=
    if bool_decide (cert = "") then
      inl "tls: failed to find any PEM data in certificate input"
    else if bool_decide (key = "") then
      inl "tls: failed to find any PEM data in key input"
    else inr (cert, key);
|}.

#[export] Instance grpc : HeadscaleProvider.Grpc := {|
  HeadscaleProvider.ClientConn := string * list HeadscaleProvider.DialOption;
  HeadscaleProvider.NewClient target opts := inr (target, opts);
|}.

End Fake.

(** Test doubles for the remaining client methods and for strconv. *)

Module FakeMore.

Import v1.

(** Users get the next free id; rename and delete act on the stored list. *)
#[export] Instance client : HeadscaleServiceClientMore Fake.Service := {|
  CreateUser s q :=
    let u :=
      {| User_Id := Z.of_nat (len (Fake.users s)) + 1;
         User_Name := CreateUserRequest_Name q;
         User_CreatedAt := None;
         User_DisplayName := CreateUserRequest_DisplayName q;
         User_Email := CreateUserRequest_Email q |} in
    ({| Fake.nodes := Fake.nodes s;
        Fake.users := mk_slice (elements (Fake.users s) ++ [u]);
        Fake.preAuthKeys := Fake.preAuthKeys s; Fake.apiKeys := Fake.apiKeys s;
        Fake.nextApiKey := Fake.nextApiKey s |},
     inr {| CreateUserResponse_User := Some u |});
  RenameUser s q :=
    match
      List.find (fun u => bool_decide (User_Id u = RenameUserRequest_OldId q))
        (elements (Fake.users s))
    with
    | None => (s, inl "user not found")
    | Some u =>
        (s, inr {| RenameUserResponse_User :=
                     Some {| User_Id := User_Id u;
                             User_Name := RenameUserRequest_NewName q;
                             User_CreatedAt := User_CreatedAt u;
                             User_DisplayName := User_DisplayName u;
                             User_Email := User_Email u |} |})
    end;
  DeleteUser s q := (s, inr mkDeleteUserResponse);
  ExpirePreAuthKey s q := (s, inr mkExpirePreAuthKeyResponse);
  DeleteApiKey s q := (s, inr mkDeleteApiKeyResponse);
|}.

Definition start (s : Fake.Service) : world_more.World Fake.Service :=
  {| world_more.remote := s; world_more.calls := [] |}.

(** A string between double quotes: [strconv.Quote] on the strings that
    need no escape. *)
Definition quote (s : string) : string :=
  String.String "034"%char s +:+ String.String "034"%char EmptyString.

(** Decimal digits after an optional sign, within the range of a 64-bit
    [int]; every other string is an error. *)
Definition parse_decimal (s : string) : error + Z :=
  let '(negative, digits) :=
    match s with
    | String.String "-"%char rest => (true, rest)
    | String.String "+"%char rest => (false, rest)
    | _ => (false, s)
    end in
  let '(n, rest) := Fake.number digits 0 in
  let n := if negative then - n else n in
  if bool_decide (digits = "") || negb (bool_decide (rest = "")) then
    inl ("strconv.Atoi: parsing " +:+ quote s +:+ ": invalid syntax")
  else if (n <? - 2 ^ 63) || (2 ^ 63 - 1 <? n) then
    inl ("strconv.Atoi: parsing " +:+ quote s +:+ ": value out of range")
  else inr n.

#[export] Instance conv : strconv.Lib := {|
  strconv.Atoi := parse_decimal;
  strconv.Quote := quote;
|}.

End FakeMore.

(** * Verification *)

Import Go types tfsdk world v1 timestamppb.

(** ** Facts about the framework and library models *)

Lemma HasError_app (ds1 ds2 : diag.Diagnostics) :
  diag.HasError (ds1 ++ ds2) = diag.HasError ds1 || diag.HasError ds2.
Proof. unfold diag.HasError. apply existsb_app. Qed.

Lemma HasError_elem (ds : diag.Diagnostics) (d : diag.Diagnostic) :
  d ∈ ds -> diag.is_error d = true -> diag.HasError ds = true.
Proof.
  intros Hin Herr. apply existsb_exists. exists d. split; [|done].
  by apply list_elem_of_In.
Qed.

(** Appending one diagnostic: it is added unless already contained. *)
Lemma diag_Append_one (ds : diag.Diagnostics) (d : diag.Diagnostic) :
  diag.Append ds [d] = if bool_decide (d ∈ ds) then ds else ds ++ [d].
Proof. reflexivity. Qed.

Lemma diag_Append_error_fresh (ds : diag.Diagnostics) (s d : string) :
  diag.HasError ds = false ->
  diag.Append ds [diag.NewErrorDiagnostic s d] = ds ++ [diag.NewErrorDiagnostic s d].
Proof.
  intros Hok. rewrite diag_Append_one. case_bool_decide as Hin; [|done].
  apply HasError_elem in Hin; [congruence|done].
Qed.

Lemma diag_HasError_Append_error (ds : diag.Diagnostics) (s d : string) :
  diag.HasError (diag.Append ds [diag.NewErrorDiagnostic s d]) = true.
Proof.
  rewrite diag_Append_one. case_bool_decide as Hin.
  - by apply HasError_elem in Hin.
  - rewrite HasError_app. apply orb_true_r.
Qed.

Lemma diag_Append_error_elem (ds : diag.Diagnostics) (s d : string) :
  diag.NewErrorDiagnostic s d ∈ diag.Append ds [diag.NewErrorDiagnostic s d].
Proof.
  rewrite diag_Append_one. case_bool_decide as Hin; [done|].
  apply elem_of_app. right. by left.
Qed.

Lemma HasError_Append_nil {M} (resp : Response M) :
  HasError (Append resp []) = HasError resp.
Proof. reflexivity. Qed.

Lemma HasError_AddError {M} (resp : Response M) (s d : string) :
  HasError (AddError resp s d) = true.
Proof. apply diag_HasError_Append_error. Qed.

Lemma Diagnostics_AddError {M} (resp : Response M) (s d : string) :
  HasError resp = false ->
  Diagnostics (AddError resp s d) = Diagnostics resp ++ [diag.NewErrorDiagnostic s d].
Proof. apply diag_Append_error_fresh. Qed.

Lemma HasError_RemoveResource {M} (resp : Response M) :
  HasError (RemoveResource resp) = HasError resp.
Proof. reflexivity. Qed.

Lemma Append_nil {M} (resp : Response M) : Append resp [] = resp.
Proof. by destruct resp. Qed.

(** A timestamp built from an instant denotes that instant. *)
Lemma AsTime_New (t : time.Time) : AsTime (Some (New t)) = t.
Proof.
  unfold AsTime, New; simpl.
  pose proof (Z.div_mod t time.Second) as E.
  unfold time.Second in *. lia.
Qed.

(** The set conversion yields the null set exactly on the nil slice. *)
Lemma SetValueFrom_null (xs : slice string) :
  SetValueFrom xs = Null <-> xs = nil_slice.
Proof. destruct xs; simpl; split; congruence. Qed.

Lemma ValueString_Known (l : list string) : ValueString <$> (Known <$> l) = l.
Proof. induction l as [|x l IH]; [done|]. by rewrite !fmap_cons, IH. Qed.

Lemma members_Known (l : list string) : members (Known (Known <$> l)) = list_to_set l.
Proof. unfold members; simpl. by rewrite ValueString_Known. Qed.

(** ** NodeTagSet / NodeRouteSet: the observed set is never null *)

Lemma NodeTags_readComputedFields_eq (node : option Node)
    (data : NodeTagsResource.NodeTagsResourceModel) :
  NodeTagsResource.readComputedFields node data =
    (NodeTagsResource.with_Tags data
       (Known (Known <$> elements (Node_GetForcedTags node))), []).
Proof.
  unfold NodeTagsResource.readComputedFields.
  by destruct (Node_GetForcedTags node).
Qed.

Lemma NodeRoutes_readComputedFields_eq (node : option Node)
    (data : NodeRoutesResource.NodeRoutesResourceModel) :
  NodeRoutesResource.readComputedFields node data =
    (NodeRoutesResource.with_Routes data
       (Known (Known <$> elements (Node_GetApprovedRoutes node))), []).
Proof.
  unfold NodeRoutesResource.readComputedFields.
  by destruct (Node_GetApprovedRoutes node).
Qed.

Section Node_invariant.
Context {Remote : Type} `{client : !HeadscaleServiceClient Remote}.

Ltac handler_cases :=
  repeat match goal with
         | |- context [Get ?s] => destruct (Get s) as [? ?]
         | |- context [if HasError ?r then _ else _] => destruct (HasError r); [by left|]
         | |- context [rpc ?m ?t ?q ?w] => destruct (rpc m t q w) as [[?|?] ?]; [by left|]
         end.

Lemma NodeTags_Create_well_observed req resp (w : World Remote) :
  NodeTagsResource.well_observed resp (NodeTagsResource.Create req resp w).1.
Proof.
  unfold NodeTagsResource.well_observed, NodeTagsResource.Create. handler_cases.
  rewrite NodeTags_readComputedFields_eq. right; right. by do 2 eexists.
Qed.

Lemma NodeTags_Read_well_observed req resp (w : World Remote) :
  NodeTagsResource.well_observed resp (NodeTagsResource.Read req resp w).1.
Proof.
  unfold NodeTagsResource.well_observed, NodeTagsResource.Read. handler_cases.
  destruct (GetNodeResponse_Node _); [|by right; left].
  rewrite NodeTags_readComputedFields_eq. right; right. by do 2 eexists.
Qed.

Lemma NodeTags_Update_well_observed req resp (w : World Remote) :
  NodeTagsResource.well_observed resp (NodeTagsResource.Update req resp w).1.
Proof.
  unfold NodeTagsResource.well_observed, NodeTagsResource.Update. handler_cases.
  rewrite NodeTags_readComputedFields_eq. right; right. by do 2 eexists.
Qed.

Lemma NodeRoutes_Create_well_observed req resp (w : World Remote) :
  NodeRoutesResource.well_observed resp (NodeRoutesResource.Create req resp w).1.
Proof.
  unfold NodeRoutesResource.well_observed, NodeRoutesResource.Create. handler_cases.
  rewrite NodeRoutes_readComputedFields_eq. right; right. by do 2 eexists.
Qed.

Lemma NodeRoutes_Read_well_observed req resp (w : World Remote) :
  NodeRoutesResource.well_observed resp (NodeRoutesResource.Read req resp w).1.
Proof.
  unfold NodeRoutesResource.well_observed, NodeRoutesResource.Read. handler_cases.
  destruct (GetNodeResponse_Node _); [|by right; left].
  rewrite NodeRoutes_readComputedFields_eq. right; right. by do 2 eexists.
Qed.

Lemma NodeRoutes_Update_well_observed req resp (w : World Remote) :
  NodeRoutesResource.well_observed resp (NodeRoutesResource.Update req resp w).1.
Proof.
  unfold NodeRoutesResource.well_observed, NodeRoutesResource.Update. handler_cases.
  rewrite NodeRoutes_readComputedFields_eq. right; right. by do 2 eexists.
Qed.

End Node_invariant.

(** C10. Mapping a remote node into the observed record of a NodeTagSet or
    NodeRouteSet always yields a known set of known strings: the elements of
    the remote list, and the empty set when the remote list is nil (also
    when the node itself is nil).  The observed field is never null (nor
    unknown), although the set conversion alone maps a nil slice to null.
    Create, Read and Update reach the state only through this mapping: each
    of them leaves the state, removes it, or writes a record whose set is
    known. *)
Theorem C10_observed_set_never_null
    {Remote : Type} `{client : !HeadscaleServiceClient Remote} :
  (forall node data,
      NodeTagsResource.Tags (NodeTagsResource.readComputedFields node data).1
        = Known (Known <$> elements (Node_GetForcedTags node))
      /\ NodeTagsResource.Tags (NodeTagsResource.readComputedFields node data).1 <> Null
      /\ (Node_GetForcedTags node = nil_slice ->
          NodeTagsResource.Tags (NodeTagsResource.readComputedFields node data).1
            = Known [])) /\
  (forall node data,
      NodeRoutesResource.Routes (NodeRoutesResource.readComputedFields node data).1
        = Known (Known <$> elements (Node_GetApprovedRoutes node))
      /\ NodeRoutesResource.Routes (NodeRoutesResource.readComputedFields node data).1 <> Null
      /\ (Node_GetApprovedRoutes node = nil_slice ->
          NodeRoutesResource.Routes (NodeRoutesResource.readComputedFields node data).1
            = Known [])) /\
  SetValueFrom nil_slice = Null /\
  (forall req resp (w : World Remote),
      NodeTagsResource.well_observed resp (NodeTagsResource.Create req resp w).1) /\
  (forall req resp (w : World Remote),
      NodeTagsResource.well_observed resp (NodeTagsResource.Read req resp w).1) /\
  (forall req resp (w : World Remote),
      NodeTagsResource.well_observed resp (NodeTagsResource.Update req resp w).1) /\
  (forall req resp (w : World Remote),
      NodeRoutesResource.well_observed resp (NodeRoutesResource.Create req resp w).1) /\
  (forall req resp (w : World Remote),
      NodeRoutesResource.well_observed resp (NodeRoutesResource.Read req resp w).1) /\
  (forall req resp (w : World Remote),
      NodeRoutesResource.well_observed resp (NodeRoutesResource.Update req resp w).1).
Proof.
  split; [|split; [|split; [reflexivity|]]].
  - intros node data. rewrite NodeTags_readComputedFields_eq; simpl.
    split; [done|]. split; [done|]. by intros ->.
  - intros node data. rewrite NodeRoutes_readComputedFields_eq; simpl.
    split; [done|]. split; [done|]. by intros ->.
  - split; [apply @NodeTags_Create_well_observed|].
    split; [apply @NodeTags_Read_well_observed|].
    split; [apply @NodeTags_Update_well_observed|].
    split; [apply @NodeRoutes_Create_well_observed|].
    split; [apply @NodeRoutes_Read_well_observed|].
    apply @NodeRoutes_Update_well_observed.
Qed.

(** ** NodeList: nil is an error, empty is a result *)

Section NodesDataSource_facts.
Context {Remote : Type} `{client : !HeadscaleServiceClient Remote}.

Lemma NodesDataSource_Read_response
    (data : NodesDataSource.NodesDataSourceModel)
    (resp : Response NodesDataSource.NodesDataSourceModel)
    (w : World Remote) (r : Remote) (response : ListNodesResponse) :
  HasError resp = false ->
  ListNodes (remote w) mkListNodesRequest = (r, inr response) ->
  (NodesDataSource.Read {| NodesDataSource.Config := Some data |} resp w).1 =
    match ListNodesResponse_Nodes response with
    | nil_slice =>
        AddError resp "Client Error" "Headscale return null instead of list of nodes"
    | mk_slice nodes =>
        tfsdk.Set_ resp
          {| NodesDataSource.Nodes :=
               mk_slice
                 ((fun node =>
                     {| NodesDataSource.Id := Known (int64 (Node_Id node));
                        NodesDataSource.Name := Known (Node_Name node);
                        NodesDataSource.UserId :=
                          Known (int64 (User_GetId (Node_User node))) |}) <$> nodes) |}
    end.
Proof.
  intros Hok Hrpc. unfold NodesDataSource.Read; simpl.
  rewrite HasError_Append_nil, Hok. unfold rpc. rewrite Hrpc.
  rewrite Append_nil. by destruct (ListNodesResponse_Nodes response).
Qed.

End NodesDataSource_facts.

(** C9. When ListNodes answers without error: a nil node list adds the
    error "Headscale return null instead of list of nodes" and leaves the
    state as it was (nothing is written); an empty, non-nil list adds no
    diagnostic and writes the state with the empty sequence of nodes.  The
    first outcome carries an error and the second does not. *)
Theorem C9_nil_node_list_is_error_empty_is_result
    {Remote : Type} `{client : !HeadscaleServiceClient Remote}
    (data : NodesDataSource.NodesDataSourceModel)
    (resp : Response NodesDataSource.NodesDataSourceModel)
    (w : World Remote) (r : Remote) (response : ListNodesResponse) :
  HasError resp = false ->
  ListNodes (remote w) mkListNodesRequest = (r, inr response) ->
  let resp' := (NodesDataSource.Read {| NodesDataSource.Config := Some data |} resp w).1 in
  (ListNodesResponse_Nodes response = nil_slice ->
     State_ resp' = State_ resp
     /\ Diagnostics resp' =
          Diagnostics resp ++
            [diag.NewErrorDiagnostic "Client Error"
               "Headscale return null instead of list of nodes"]
     /\ HasError resp' = true) /\
  (ListNodesResponse_Nodes response = mk_slice [] ->
     State_ resp' = Some {| NodesDataSource.Nodes := mk_slice [] |}
     /\ Diagnostics resp' = Diagnostics resp
     /\ HasError resp' = false).
Proof.
  intros Hok Hrpc resp'. subst resp'.
  rewrite (NodesDataSource_Read_response data resp w r response Hok Hrpc).
  split; intros ->.
  - split; [done|]. split; [by apply Diagnostics_AddError|]. apply HasError_AddError.
  - by simpl.
Qed.

(** ** Keys cannot be updated *)

(** C4. Update of a PreAuthKey and Update of an ApiKey, on every request,
    every incoming response and every world: report the error diagnostic
    whose detail says that keys cannot be updated (appended to the incoming
    diagnostics, unless the very same diagnostic is already among them),
    leave the state of the response (preset to the prior state) untouched,
    and leave the world as it was: no RPC is logged and the remote service
    has not stepped. *)
Theorem C4_key_update_is_always_a_fatal_error {Remote : Type} :
  (forall (req : PreAuthKeyResource.UpdateRequest) resp (w : World Remote),
      let out := PreAuthKeyResource.Update req resp w in
      let err :=
        diag.NewErrorDiagnostic "Error updating pre auth key"
          "Pre auth keys cannot be updated" in
      err ∈ Diagnostics out.1
      /\ (err ∉ Diagnostics resp -> Diagnostics out.1 = Diagnostics resp ++ [err])
      /\ HasError out.1 = true
      /\ State_ out.1 = State_ resp
      /\ out.2 = w) /\
  (forall (req : ApiKeyResource.UpdateRequest) resp (w : World Remote),
      let out := ApiKeyResource.Update req resp w in
      let err :=
        diag.NewErrorDiagnostic "Error updating api key" "api keys cannot be updated" in
      err ∈ Diagnostics out.1
      /\ (err ∉ Diagnostics resp -> Diagnostics out.1 = Diagnostics resp ++ [err])
      /\ HasError out.1 = true
      /\ State_ out.1 = State_ resp
      /\ out.2 = w).
Proof.
  split; intros req resp w out err; subst out err;
    (split; [apply diag_Append_error_elem|]);
    (split; [intros Hnew; cbn [fst Diagnostics]; unfold PreAuthKeyResource.Update,
               ApiKeyResource.Update, AddError, Append; cbn [fst Diagnostics];
             rewrite diag_Append_one; by case_bool_decide|]);
    (split; [apply HasError_AddError|done]).
Qed.

(** ** User: exactly one row, or not found *)

Section UserResource_facts.
Context {Remote : Type} `{client : !HeadscaleServiceClient Remote} {lib : time.Lib}.

(** The guard of [Read] in terms of the list. *)
Lemma exactly_one_guard {A} (s : slice A) :
  is_nil s || negb (len s =? 1)%nat = false <-> exists x, s = mk_slice [x].
Proof.
  destruct s as [|[|x [|y l]]]; simpl; split; try done.
  - by intros [x [=]].
  - by intros [x [=]].
  - intros _. by exists x.
  - by intros [z [=]].
Qed.

Lemma UserResource_Read_total (req : UserResource.ReadRequest)
    (resp : Response UserResource.UserResourceModel) (w : World Remote) :
  is_Some (UserResource.Read req resp w).1.
Proof.
  unfold UserResource.Read.
  destruct (Get (UserResource.ReadRequest_State req)) as [data ds].
  destruct (HasError (Append resp ds)); [by eexists|].
  destruct (rpc _ _ _ w) as [[err|response] w']; [by eexists|].
  destruct (is_nil _ || negb _) eqn:E; [by eexists|].
  apply exactly_one_guard in E as [x E]. rewrite E; simpl. by eexists.
Qed.

Lemma UserResource_Read_answered
    (data : UserResource.UserResourceModel)
    (resp : Response UserResource.UserResourceModel)
    (w : World Remote) (r : Remote) (response : ListUsersResponse) :
  HasError resp = false ->
  ListUsers (remote w)
    {| ListUsersRequest_Id := uint64 (ValueInt64 (UserResource.Id data)) |}
    = (r, inr response) ->
  (UserResource.Read {| UserResource.ReadRequest_State := Some data |} resp w).1 =
    match ListUsersResponse_Users response with
    | mk_slice [u] =>
        Some (tfsdk.Set_ resp (UserResource.readComputedFields (Some u) data))
    | _ => Some (RemoveResource (AddError resp "user not found" "user not found"))
    end.
Proof.
  intros Hok Hrpc. unfold UserResource.Read; simpl.
  rewrite HasError_Append_nil, Hok, Append_nil. unfold rpc. rewrite Hrpc.
  by destruct (ListUsersResponse_Users response) as [|[|u [|u' l]]].
Qed.

End UserResource_facts.

(** C3. User Read never panics, whatever the remote answers.  When the
    list-by-id call answers without error, a nil list, an empty list and a
    list of more than one user all add the error "user not found" and
    remove the record; element 0 is read only from a list of exactly one
    user, and then the record is written from that user. *)
Theorem C3_user_read_needs_exactly_one_row
    {Remote : Type} `{client : !HeadscaleServiceClient Remote} {lib : time.Lib}
    (req : UserResource.ReadRequest)
    (resp : Response UserResource.UserResourceModel) (w : World Remote) :
  is_Some (UserResource.Read req resp w).1 /\
  forall data r response,
    UserResource.ReadRequest_State req = Some data ->
    HasError resp = false ->
    ListUsers (remote w)
      {| ListUsersRequest_Id := uint64 (ValueInt64 (UserResource.Id data)) |}
      = (r, inr response) ->
    let users := ListUsersResponse_Users response in
    (users = nil_slice \/ len users <> 1%nat ->
       (UserResource.Read req resp w).1 =
         Some (RemoveResource (AddError resp "user not found" "user not found"))) /\
    (forall u, users = mk_slice [u] ->
       index users 0 = Some u /\
       (UserResource.Read req resp w).1 =
         Some (tfsdk.Set_ resp (UserResource.readComputedFields (Some u) data))).
Proof.
  split; [apply UserResource_Read_total|].
  intros data r response Hst Hok Hrpc users. subst users.
  unfold UserResource.Read. rewrite Hst; simpl.
  rewrite HasError_Append_nil, Hok, Append_nil. unfold rpc. rewrite Hrpc.
  split.
  - intros Hbad.
    destruct (is_nil _ || negb _) eqn:E; [done|].
    apply exactly_one_guard in E as [x E]. rewrite E in Hbad.
    destruct Hbad as [?|Hlen]; [done|]. by destruct Hlen.
  - intros u ->. by simpl.
Qed.

(** ** PreAuthKey and ApiKey: scans, expiry, creation *)

(** The scan of PreAuthKey Read finds the last key carrying the id. *)
Lemma scan_snoc (id : Z) (keys : list PreAuthKey) (k : PreAuthKey) :
  PreAuthKeyResource.scan id (keys ++ [k]) =
    if bool_decide (PreAuthKey_Id k ≠ id) then PreAuthKeyResource.scan id keys else Some k.
Proof. unfold PreAuthKeyResource.scan. by rewrite fold_left_app. Qed.

Lemma scan_last (id : Z) (keys : list PreAuthKey) :
  PreAuthKeyResource.scan id keys = last (filter (fun k => PreAuthKey_Id k = id) keys).
Proof.
  induction keys as [|k keys IH] using rev_ind; [done|].
  rewrite scan_snoc, filter_app, IH.
  rewrite filter_cons, filter_nil.
  case_bool_decide as Hne; case_decide as Heq; try done.
  - by rewrite app_nil_r.
  - by rewrite last_snoc.
Qed.

Lemma scan_Some (id : Z) (keys : list PreAuthKey) (k : PreAuthKey) :
  PreAuthKeyResource.scan id keys = Some k -> k ∈ keys /\ PreAuthKey_Id k = id.
Proof.
  rewrite scan_last. intros Hl.
  assert (k ∈ filter (fun k => PreAuthKey_Id k = id) keys) as Hin.
  { apply last_Some in Hl as [l' ->]. set_solver. }
  apply list_elem_of_filter in Hin as [? ?]. by split.
Qed.

Lemma scan_None (id : Z) (keys : list PreAuthKey) :
  PreAuthKeyResource.scan id keys = None <-> forall k, k ∈ keys -> PreAuthKey_Id k ≠ id.
Proof.
  rewrite scan_last, last_None. split.
  - intros Hnil k Hin Heq.
    assert (k ∈ filter (fun k => PreAuthKey_Id k = id) keys) as Hf
      by (by apply list_elem_of_filter).
    rewrite Hnil in Hf. by apply elem_of_nil in Hf.
  - intros Hall.
    destruct (filter (fun k => PreAuthKey_Id k = id) keys) as [|k l] eqn:E; [done|].
    assert (k ∈ filter (fun k => PreAuthKey_Id k = id) keys) as Hin
      by (rewrite E; left).
    apply list_elem_of_filter in Hin as [Hid Hin]. by destruct (Hall k Hin).
Qed.

Section PreAuthKey_facts.
Context {Remote : Type} `{client : !HeadscaleServiceClient Remote} {lib : time.Lib}.

Lemma PreAuthKey_Read_answered
    (data : PreAuthKeyResource.PreAuthKeyResourceModel)
    (resp : Response PreAuthKeyResource.PreAuthKeyResourceModel)
    (w : World Remote) (r : Remote) (response : ListPreAuthKeysResponse) :
  HasError resp = false ->
  ListPreAuthKeys (remote w)
    {| ListPreAuthKeysRequest_User := uint64 (ValueInt64 (PreAuthKeyResource.UserId data)) |}
    = (r, inr response) ->
  (PreAuthKeyResource.Read {| PreAuthKeyResource.ReadRequest_State := Some data |} resp w).1 =
    match
      PreAuthKeyResource.scan (uint64 (ValueInt64 (PreAuthKeyResource.Id data)))
        (elements (ListPreAuthKeysResponse_PreAuthKeys response))
    with
    | None =>
        Some (RemoveResource
                (AddError resp "Pre auth key not found" "Pre auth key not found"))
    | Some k =>
        let resp' := tfsdk.Set_ resp (PreAuthKeyResource.observed k (clock w 0%nat) data) in
        if time.After (clock w 1%nat) (AsTime (PreAuthKey_Expiration k))
        then Some (RemoveResource resp')
        else Some resp'
    end.
Proof.
  intros Hok Hrpc. unfold PreAuthKeyResource.Read; simpl.
  rewrite HasError_Append_nil, Hok, Append_nil. unfold rpc. rewrite Hrpc.
  destruct (PreAuthKeyResource.scan _ _) as [k|]; [|done]. simpl.
  by destruct (time.After _ _).
Qed.

Lemma PreAuthKey_readComputedFields_calls (key : option PreAuthKey)
    (data : PreAuthKeyResource.PreAuthKeyResourceModel) (w : World Remote) :
  calls (PreAuthKeyResource.readComputedFields key data w).2 = calls w.
Proof. unfold PreAuthKeyResource.readComputedFields. by destruct key. Qed.

Lemma PreAuthKey_Create_calls
    (data : PreAuthKeyResource.PreAuthKeyResourceModel)
    (resp : Response PreAuthKeyResource.PreAuthKeyResourceModel)
    (w : World Remote) (d : time.Duration) :
  HasError resp = false ->
  (PreAuthKeyResource.Ttl data = Null /\ d = 1 * time.Hour
   \/ IsNull (PreAuthKeyResource.Ttl data) = false
      /\ time.ParseDuration (ValueString (PreAuthKeyResource.Ttl data)) = inr d) ->
  calls (PreAuthKeyResource.Create
           {| PreAuthKeyResource.CreateRequest_Plan := Some data |} resp w).2
    = calls w ++ [CallCreatePreAuthKey (PreAuthKeyResource.request data (time.Add (clock w 0%nat) d))].
Proof.
  intros Hok Httl. unfold PreAuthKeyResource.Create; simpl.
  rewrite HasError_Append_nil, Hok.
  assert (forall e, (let '(res, w0) :=
            rpc CreatePreAuthKey CallCreatePreAuthKey (PreAuthKeyResource.request data e)
              (Now w).2 in
          match res with
          | inl err =>
              (Some (AddError (Append resp []) "Client Error"
                       ("Unable to create pre auth key, got error: " +:+ err)), w0)
          | inr response =>
              let '(data0, w1) :=
                PreAuthKeyResource.readComputedFields
                  (CreatePreAuthKeyResponse_PreAuthKey response) data w0 in
              ((fun data1 => tfsdk.Set_ (Append resp []) data1) <$> data0, w1)
          end).2.(calls) = calls w ++ [CallCreatePreAuthKey (PreAuthKeyResource.request data e)])
    as Hrun.
  { intros e. unfold rpc; simpl.
    destruct (CreatePreAuthKey (remote w) _) as [r [err|response]]; simpl; [done|].
    pose proof (PreAuthKey_readComputedFields_calls
                  (CreatePreAuthKeyResponse_PreAuthKey response) data
                  {| remote := r; clock := fun n => clock w (S n);
                     calls := calls w ++ [CallCreatePreAuthKey (PreAuthKeyResource.request data e)] |})
      as Hc.
    by destruct (PreAuthKeyResource.readComputedFields _ _ _). }
  destruct Httl as [[-> ->]|[Hnn Hparse]]; simpl.
  - apply Hrun.
  - rewrite Hnn, Hparse. apply Hrun.
Qed.

End PreAuthKey_facts.

Section ApiKey_facts.
Context {Remote : Type} `{client : !HeadscaleServiceClient Remote} {lib : time.Lib}.

Lemma ApiKey_readComputedFields_eq (prefix : string) (listResponse : ListApiKeysResponse)
    (data : ApiKeyResource.ApiKeyResourceModel) (w : World Remote) :
  ApiKeyResource.readComputedFields prefix listResponse data w =
    match
      List.find (fun found => bool_decide (prefix = ApiKey_Prefix found))
        (elements (ListApiKeysResponse_ApiKeys listResponse))
    with
    | None => ((data, false), w)
    | Some k => ((ApiKeyResource.observed k (clock w 0%nat) data, true), (Now w).2)
    end.
Proof. unfold ApiKeyResource.readComputedFields. by destruct (List.find _ _). Qed.

Lemma ApiKey_Read_answered
    (data : ApiKeyResource.ApiKeyResourceModel)
    (resp : Response ApiKeyResource.ApiKeyResourceModel)
    (w : World Remote) (r : Remote) (listResponse : ListApiKeysResponse) :
  HasError resp = false ->
  ListApiKeys (remote w) mkListApiKeysRequest = (r, inr listResponse) ->
  (ApiKeyResource.Read {| ApiKeyResource.ReadRequest_State := Some data |} resp w).1 =
    match
      List.find
        (fun found =>
           bool_decide (ValueString (ApiKeyResource.Id data) = ApiKey_Prefix found))
        (elements (ListApiKeysResponse_ApiKeys listResponse))
    with
    | None => RemoveResource resp
    | Some k =>
        let resp' := tfsdk.Set_ resp (ApiKeyResource.observed k (clock w 0%nat) data) in
        if time.After (clock w 0%nat) (AsTime (ApiKey_Expiration k))
        then RemoveResource resp'
        else resp'
    end.
Proof.
  intros Hok Hrpc. unfold ApiKeyResource.Read; simpl.
  rewrite HasError_Append_nil, Hok, Append_nil. unfold rpc. rewrite Hrpc.
  rewrite ApiKey_readComputedFields_eq; simpl.
  destruct (List.find _ _) as [k|]; [|done]. simpl.
  by destruct (time.After _ _).
Qed.

End ApiKey_facts.

(** C1. A Read that finds its key removes the record when the clock, at
    the moment of the expiry check, is strictly past the expiration of the
    key; no diagnostic is added.
    For a PreAuthKey the found key is the last listed key with the id of
    the record and the check reads the clock anew (second reading of the
    operation, [clock w 1]); for an ApiKey the found key is the first listed
    key with the prefix of the record and the check reuses the reading taken
    for the [expired] field ([clock w 0]).  The statement holds for every
    clock, hence for every instant past the expiration. *)
Theorem C1_expired_key_is_removed_on_read
    {Remote : Type} `{client : !HeadscaleServiceClient Remote} {lib : time.Lib} :
  (forall (data : PreAuthKeyResource.PreAuthKeyResourceModel) resp (w : World Remote)
          r response k,
      HasError resp = false ->
      ListPreAuthKeys (remote w)
        {| ListPreAuthKeysRequest_User :=
             uint64 (ValueInt64 (PreAuthKeyResource.UserId data)) |}
        = (r, inr response) ->
      PreAuthKeyResource.scan (uint64 (ValueInt64 (PreAuthKeyResource.Id data)))
        (elements (ListPreAuthKeysResponse_PreAuthKeys response)) = Some k ->
      AsTime (PreAuthKey_Expiration k) < clock w 1%nat ->
      exists resp',
        (PreAuthKeyResource.Read
           {| PreAuthKeyResource.ReadRequest_State := Some data |} resp w).1 = Some resp'
        /\ State_ resp' = None
        /\ Diagnostics resp' = Diagnostics resp) /\
  (forall (data : ApiKeyResource.ApiKeyResourceModel) resp (w : World Remote)
          r listResponse k,
      HasError resp = false ->
      ListApiKeys (remote w) mkListApiKeysRequest = (r, inr listResponse) ->
      List.find
        (fun found =>
           bool_decide (ValueString (ApiKeyResource.Id data) = ApiKey_Prefix found))
        (elements (ListApiKeysResponse_ApiKeys listResponse)) = Some k ->
      AsTime (ApiKey_Expiration k) < clock w 0%nat ->
      let resp' :=
        (ApiKeyResource.Read {| ApiKeyResource.ReadRequest_State := Some data |} resp w).1 in
      State_ resp' = None /\ Diagnostics resp' = Diagnostics resp).
Proof.
  split.
  - intros data resp w r response k Hok Hrpc Hscan Hlate.
    rewrite (PreAuthKey_Read_answered data resp w r response Hok Hrpc), Hscan.
    unfold time.After. apply Z.ltb_lt in Hlate. rewrite Hlate.
    eexists. by split.
  - intros data resp w r listResponse k Hok Hrpc Hfind Hlate resp'. subst resp'.
    rewrite (ApiKey_Read_answered data resp w r listResponse Hok Hrpc), Hfind.
    unfold time.After. apply Z.ltb_lt in Hlate. by rewrite Hlate.
Qed.

(** At the instant of expiration itself, and before it, the record is kept
    and rewritten from the found key: the comparison is strict. *)
Lemma key_kept_until_expiration
    {Remote : Type} `{client : !HeadscaleServiceClient Remote} {lib : time.Lib} :
  (forall (data : PreAuthKeyResource.PreAuthKeyResourceModel) resp (w : World Remote)
          r response k,
      HasError resp = false ->
      ListPreAuthKeys (remote w)
        {| ListPreAuthKeysRequest_User :=
             uint64 (ValueInt64 (PreAuthKeyResource.UserId data)) |}
        = (r, inr response) ->
      PreAuthKeyResource.scan (uint64 (ValueInt64 (PreAuthKeyResource.Id data)))
        (elements (ListPreAuthKeysResponse_PreAuthKeys response)) = Some k ->
      clock w 1%nat <= AsTime (PreAuthKey_Expiration k) ->
      (PreAuthKeyResource.Read
         {| PreAuthKeyResource.ReadRequest_State := Some data |} resp w).1
        = Some (tfsdk.Set_ resp (PreAuthKeyResource.observed k (clock w 0%nat) data))) /\
  (forall (data : ApiKeyResource.ApiKeyResourceModel) resp (w : World Remote)
          r listResponse k,
      HasError resp = false ->
      ListApiKeys (remote w) mkListApiKeysRequest = (r, inr listResponse) ->
      List.find
        (fun found =>
           bool_decide (ValueString (ApiKeyResource.Id data) = ApiKey_Prefix found))
        (elements (ListApiKeysResponse_ApiKeys listResponse)) = Some k ->
      clock w 0%nat <= AsTime (ApiKey_Expiration k) ->
      (ApiKeyResource.Read {| ApiKeyResource.ReadRequest_State := Some data |} resp w).1
        = tfsdk.Set_ resp (ApiKeyResource.observed k (clock w 0%nat) data)).
Proof.
  split.
  - intros data resp w r response k Hok Hrpc Hscan Hearly.
    rewrite (PreAuthKey_Read_answered data resp w r response Hok Hrpc), Hscan.
    unfold time.After. apply Z.ltb_ge in Hearly. by rewrite Hearly.
  - intros data resp w r listResponse k Hok Hrpc Hfind Hearly.
    rewrite (ApiKey_Read_answered data resp w r listResponse Hok Hrpc), Hfind.
    unfold time.After. apply Z.ltb_ge in Hearly. by rewrite Hearly.
Qed.

(** C2. PreAuthKey Create, for a plan that decodes.  With a null ttl the
    handler issues one CreatePreAuthKey call whose expiration is the current
    time plus one hour.  With a ttl that is present, the string goes through
    [time.ParseDuration] (the Go parser of decimal numbers with the unit
    suffixes ns, us, µs, ms, s, m, h): when it yields a duration [d], the one
    call issued carries the expiration now + d; when it yields an error, the
    handler returns at once with the diagnostic "Parse TTL Error", the world
    is left as it was (no RPC logged, remote not stepped) and the state is
    not written. *)
Theorem C2_pre_auth_key_expiration_from_ttl
    {Remote : Type} `{client : !HeadscaleServiceClient Remote} {lib : time.Lib}
    (data : PreAuthKeyResource.PreAuthKeyResourceModel)
    (resp : Response PreAuthKeyResource.PreAuthKeyResourceModel) (w : World Remote) :
  HasError resp = false ->
  let out :=
    PreAuthKeyResource.Create {| PreAuthKeyResource.CreateRequest_Plan := Some data |} resp w in
  let now := clock w 0%nat in
  (PreAuthKeyResource.Ttl data = Null ->
     exists q,
       calls out.2 = calls w ++ [CallCreatePreAuthKey q]
       /\ AsTime (CreatePreAuthKeyRequest_Expiration q) = now + 3600 * 1000000000) /\
  (forall d,
     IsNull (PreAuthKeyResource.Ttl data) = false ->
     time.ParseDuration (ValueString (PreAuthKeyResource.Ttl data)) = inr d ->
     exists q,
       calls out.2 = calls w ++ [CallCreatePreAuthKey q]
       /\ AsTime (CreatePreAuthKeyRequest_Expiration q) = now + d) /\
  (forall err,
     IsNull (PreAuthKeyResource.Ttl data) = false ->
     time.ParseDuration (ValueString (PreAuthKeyResource.Ttl data)) = inl err ->
     out = (Some (AddError resp "Parse TTL Error"
                    ("Unable to parse ttl, got error: " +:+ err)), w)
     /\ calls out.2 = calls w
     /\ (exists resp', out.1 = Some resp' /\ HasError resp' = true
                       /\ State_ resp' = State_ resp)).
Proof.
  intros Hok out now. subst out now. split; [|split].
  - intros Hnull. eexists. split.
    + apply PreAuthKey_Create_calls; [done|]. by left.
    + unfold PreAuthKeyResource.request; cbn [CreatePreAuthKeyRequest_Expiration].
      rewrite AsTime_New. unfold time.Add, time.Hour, time.Second. lia.
  - intros d Hnn Hparse. eexists. split.
    + apply PreAuthKey_Create_calls; [done|]. right. by split.
    + unfold PreAuthKeyResource.request; cbn [CreatePreAuthKeyRequest_Expiration].
      by rewrite AsTime_New.
  - intros err Hnn Hparse.
    assert (PreAuthKeyResource.Create
              {| PreAuthKeyResource.CreateRequest_Plan := Some data |} resp w
            = (Some (AddError resp "Parse TTL Error"
                       ("Unable to parse ttl, got error: " +:+ err)), w)) as ->.
    { unfold PreAuthKeyResource.Create; simpl.
      by rewrite HasError_Append_nil, Hok, Append_nil, Hnn, Hparse. }
    split; [done|]. split; [done|]. eexists. split; [done|].
    split; [apply HasError_AddError|done].
Qed.

(** ** Not found: which Reads report an error *)

Section Node_facts.
Context {Remote : Type} `{client : !HeadscaleServiceClient Remote}.

Lemma NodeTags_Read_answered
    (data : NodeTagsResource.NodeTagsResourceModel)
    (resp : Response NodeTagsResource.NodeTagsResourceModel)
    (w : World Remote) (r : Remote) (response : GetNodeResponse) :
  HasError resp = false ->
  GetNode (remote w)
    {| GetNodeRequest_NodeId := uint64 (ValueInt64 (NodeTagsResource.NodeId data)) |}
    = (r, inr response) ->
  (NodeTagsResource.Read {| NodeTagsResource.ReadRequest_State := Some data |} resp w).1 =
    match GetNodeResponse_Node response with
    | None => RemoveResource (AddError resp "node not found" "node not found")
    | Some node =>
        tfsdk.Set_ resp
          (NodeTagsResource.with_Tags data
             (Known (Known <$> elements (Node_ForcedTags node))))
    end.
Proof.
  intros Hok Hrpc. unfold NodeTagsResource.Read; simpl.
  rewrite HasError_Append_nil, Hok, Append_nil. unfold rpc. rewrite Hrpc.
  destruct (GetNodeResponse_Node response) as [node|]; [|done].
  simpl. destruct (Node_ForcedTags node); simpl; by rewrite Append_nil.
Qed.

Lemma NodeRoutes_Read_answered
    (data : NodeRoutesResource.NodeRoutesResourceModel)
    (resp : Response NodeRoutesResource.NodeRoutesResourceModel)
    (w : World Remote) (r : Remote) (response : GetNodeResponse) :
  HasError resp = false ->
  GetNode (remote w)
    {| GetNodeRequest_NodeId := uint64 (ValueInt64 (NodeRoutesResource.NodeId data)) |}
    = (r, inr response) ->
  (NodeRoutesResource.Read {| NodeRoutesResource.ReadRequest_State := Some data |} resp w).1 =
    match GetNodeResponse_Node response with
    | None => RemoveResource (AddError resp "node not found" "node not found")
    | Some node =>
        tfsdk.Set_ resp
          (NodeRoutesResource.with_Routes data
             (Known (Known <$> elements (Node_ApprovedRoutes node))))
    end.
Proof.
  intros Hok Hrpc. unfold NodeRoutesResource.Read; simpl.
  rewrite HasError_Append_nil, Hok, Append_nil. unfold rpc. rewrite Hrpc.
  destruct (GetNodeResponse_Node response) as [node|]; [|done].
  simpl. destruct (Node_ApprovedRoutes node); simpl; by rewrite Append_nil.
Qed.

End Node_facts.

(** C5, as the code has it.  Every not-found or drift condition of a Read
    removes the record.  The expiry of a found key (PreAuthKey, ApiKey) and
    an ApiKey whose prefix is not listed add no diagnostic.  A user list
    that does not hold exactly one row, a PreAuthKey id that is not listed,
    and a nil node in the GetNode answer (NodeTagSet, NodeRouteSet) remove
    the record and add one error diagnostic "... not found". *)
Theorem C5_read_drift_removes_record_sometimes_with_error
    {Remote : Type} `{client : !HeadscaleServiceClient Remote} {lib : time.Lib} :
  (* User: not exactly one row *)
  (forall (data : UserResource.UserResourceModel) resp (w : World Remote) r response,
      HasError resp = false ->
      ListUsers (remote w)
        {| ListUsersRequest_Id := uint64 (ValueInt64 (UserResource.Id data)) |}
        = (r, inr response) ->
      ListUsersResponse_Users response = nil_slice
      \/ len (ListUsersResponse_Users response) <> 1%nat ->
      exists resp',
        (UserResource.Read {| UserResource.ReadRequest_State := Some data |} resp w).1
          = Some resp'
        /\ State_ resp' = None
        /\ Diagnostics resp' =
             Diagnostics resp ++ [diag.NewErrorDiagnostic "user not found" "user not found"]
        /\ HasError resp' = true) /\
  (* PreAuthKey: id not listed *)
  (forall (data : PreAuthKeyResource.PreAuthKeyResourceModel) resp (w : World Remote)
          r response,
      HasError resp = false ->
      ListPreAuthKeys (remote w)
        {| ListPreAuthKeysRequest_User :=
             uint64 (ValueInt64 (PreAuthKeyResource.UserId data)) |}
        = (r, inr response) ->
      (forall k, k ∈ elements (ListPreAuthKeysResponse_PreAuthKeys response) ->
                 PreAuthKey_Id k ≠ uint64 (ValueInt64 (PreAuthKeyResource.Id data))) ->
      exists resp',
        (PreAuthKeyResource.Read
           {| PreAuthKeyResource.ReadRequest_State := Some data |} resp w).1 = Some resp'
        /\ State_ resp' = None
        /\ Diagnostics resp' =
             Diagnostics resp ++
               [diag.NewErrorDiagnostic "Pre auth key not found" "Pre auth key not found"]
        /\ HasError resp' = true) /\
  (* PreAuthKey: found and expired *)
  (forall (data : PreAuthKeyResource.PreAuthKeyResourceModel) resp (w : World Remote)
          r response k,
      HasError resp = false ->
      ListPreAuthKeys (remote w)
        {| ListPreAuthKeysRequest_User :=
             uint64 (ValueInt64 (PreAuthKeyResource.UserId data)) |}
        = (r, inr response) ->
      PreAuthKeyResource.scan (uint64 (ValueInt64 (PreAuthKeyResource.Id data)))
        (elements (ListPreAuthKeysResponse_PreAuthKeys response)) = Some k ->
      AsTime (PreAuthKey_Expiration k) < clock w 1%nat ->
      exists resp',
        (PreAuthKeyResource.Read
           {| PreAuthKeyResource.ReadRequest_State := Some data |} resp w).1 = Some resp'
        /\ State_ resp' = None
        /\ Diagnostics resp' = Diagnostics resp
        /\ HasError resp' = false) /\
  (* ApiKey: prefix not listed, or found and expired *)
  (forall (data : ApiKeyResource.ApiKeyResourceModel) resp (w : World Remote)
          r listResponse,
      HasError resp = false ->
      ListApiKeys (remote w) mkListApiKeysRequest = (r, inr listResponse) ->
      let found :=
        List.find
          (fun found =>
             bool_decide (ValueString (ApiKeyResource.Id data) = ApiKey_Prefix found))
          (elements (ListApiKeysResponse_ApiKeys listResponse)) in
      found = None
      \/ (exists k, found = Some k /\ AsTime (ApiKey_Expiration k) < clock w 0%nat) ->
      let resp' :=
        (ApiKeyResource.Read {| ApiKeyResource.ReadRequest_State := Some data |} resp w).1 in
      State_ resp' = None
      /\ Diagnostics resp' = Diagnostics resp
      /\ HasError resp' = false) /\
  (* NodeTagSet and NodeRouteSet: nil node *)
  (forall (data : NodeTagsResource.NodeTagsResourceModel) resp (w : World Remote)
          r response,
      HasError resp = false ->
      GetNode (remote w)
        {| GetNodeRequest_NodeId := uint64 (ValueInt64 (NodeTagsResource.NodeId data)) |}
        = (r, inr response) ->
      GetNodeResponse_Node response = None ->
      let resp' :=
        (NodeTagsResource.Read {| NodeTagsResource.ReadRequest_State := Some data |} resp w).1 in
      State_ resp' = None
      /\ Diagnostics resp' =
           Diagnostics resp ++ [diag.NewErrorDiagnostic "node not found" "node not found"]
      /\ HasError resp' = true) /\
  (forall (data : NodeRoutesResource.NodeRoutesResourceModel) resp (w : World Remote)
          r response,
      HasError resp = false ->
      GetNode (remote w)
        {| GetNodeRequest_NodeId := uint64 (ValueInt64 (NodeRoutesResource.NodeId data)) |}
        = (r, inr response) ->
      GetNodeResponse_Node response = None ->
      let resp' :=
        (NodeRoutesResource.Read
           {| NodeRoutesResource.ReadRequest_State := Some data |} resp w).1 in
      State_ resp' = None
      /\ Diagnostics resp' =
           Diagnostics resp ++ [diag.NewErrorDiagnostic "node not found" "node not found"]
      /\ HasError resp' = true).
Proof.
  split; [|split; [|split; [|split; [|split]]]].
  - intros data resp w r response Hok Hrpc Hbad.
    rewrite (UserResource_Read_answered data resp w r response Hok Hrpc).
    assert (match ListUsersResponse_Users response with
            | mk_slice [u] =>
                Some (tfsdk.Set_ resp (UserResource.readComputedFields (Some u) data))
            | _ => Some (RemoveResource (AddError resp "user not found" "user not found"))
            end = Some (RemoveResource (AddError resp "user not found" "user not found")))
      as ->.
    { destruct (ListUsersResponse_Users response) as [|[|u [|u' l]]]; try done.
      destruct Hbad as [?|Hlen]; [done|]. by destruct Hlen. }
    eexists. split; [done|]. split; [done|].
    split; [by apply (Diagnostics_AddError resp)|].
    apply (HasError_AddError resp).
  - intros data resp w r response Hok Hrpc Habsent.
    rewrite (PreAuthKey_Read_answered data resp w r response Hok Hrpc).
    apply scan_None in Habsent. rewrite Habsent.
    eexists. split; [done|]. split; [done|].
    split; [by apply (Diagnostics_AddError resp)|].
    apply (HasError_AddError resp).
  - intros data resp w r response k Hok Hrpc Hscan Hlate.
    rewrite (PreAuthKey_Read_answered data resp w r response Hok Hrpc), Hscan.
    unfold time.After. apply Z.ltb_lt in Hlate. rewrite Hlate.
    eexists. by split.
  - intros data resp w r listResponse Hok Hrpc found Hdrift resp'. subst resp'.
    rewrite (ApiKey_Read_answered data resp w r listResponse Hok Hrpc). subst found.
    destruct Hdrift as [->|[k [-> Hlate]]]; [done|].
    unfold time.After. apply Z.ltb_lt in Hlate. by rewrite Hlate.
  - intros data resp w r response Hok Hrpc Hnil resp'. subst resp'.
    rewrite (NodeTags_Read_answered data resp w r response Hok Hrpc), Hnil.
    split; [done|]. split; [by apply (Diagnostics_AddError resp)|].
    apply (HasError_AddError resp).
  - intros data resp w r response Hok Hrpc Hnil resp'. subst resp'.
    rewrite (NodeRoutes_Read_answered data resp w r response Hok Hrpc), Hnil.
    split; [done|]. split; [by apply (Diagnostics_AddError resp)|].
    apply (HasError_AddError resp).
Qed.

(** ** ApiKey: the id is the prefix of the secret *)

Lemma Split_first (s : string) (sep : ascii) :
  Split s sep !! 0%nat = Some (before_first sep s).
Proof.
  induction s as [|c rest IH]; simpl; [done|].
  destruct (Ascii.eqb c sep); [done|].
  destruct (Split rest sep) as [|piece pieces]; [done|].
  simpl in *. by injection IH as ->.
Qed.

Lemma before_first_free (s : string) (sep : ascii) :
  occurs sep (before_first sep s) = false.
Proof.
  induction s as [|c rest IH]; simpl; [done|].
  destruct (Ascii.eqb c sep) eqn:E; [done|]. simpl. by rewrite E.
Qed.

(** On a string of the shape [p ++ sep ++ rest] with [sep] not in [p],
    the part before the first [sep] is [p]. *)
Lemma before_first_app (p rest : string) (sep : ascii) :
  occurs sep p = false -> before_first sep (p +:+ String.String sep rest) = p.
Proof.
  induction p as [|c p IH]; simpl.
  - intros _. by rewrite Ascii.eqb_refl.
  - intros Hfree. apply orb_false_iff in Hfree as [Hc Hp].
    rewrite Hc. by rewrite IH.
Qed.

(** The part before the first [sep] is a prefix, followed by nothing or
    by [sep]. *)
Lemma before_first_prefix (s : string) (sep : ascii) :
  s = before_first sep s
  \/ exists rest, s = before_first sep s +:+ String.String sep rest.
Proof.
  induction s as [|c s IH]; simpl; [by left|].
  destruct (Ascii.eqb c sep) eqn:E.
  - right. apply Ascii.eqb_eq in E as ->. by exists s.
  - destruct IH as [IH|[rest IH]].
    + left. by f_equal.
    + right. exists rest.
      transitivity (String.String c (before_first sep s +:+ String.String sep rest));
        [by f_equal|reflexivity].
Qed.

Lemma before_first_proper (s : string) (sep : ascii) :
  occurs sep s = true -> before_first sep s ≠ s.
Proof.
  intros Hocc Heq. pose proof (before_first_free s sep) as Hfree.
  rewrite Heq in Hfree. congruence.
Qed.

(** C6. Every ApiKey Create that succeeds (returns, without an error
    diagnostic) has gone through a CreateApiKey call that answered with a
    secret, and has written a record whose [key] is that secret and whose
    [id] is the part of the secret before its first '.'.  The other fields
    of the record come from the plan (ttl) and from the listed key with that
    prefix (expired, created_at, expiration): the secret reaches them only
    through its prefix.  When the secret contains a '.', the id is a proper
    prefix and differs from the secret. *)
Theorem C6_api_key_id_is_prefix_of_secret
    {Remote : Type} `{client : !HeadscaleServiceClient Remote} {lib : time.Lib}
    (req : ApiKeyResource.CreateRequest)
    (resp resp' : Response ApiKeyResource.ApiKeyResourceModel) (w : World Remote) :
  (ApiKeyResource.Create req resp w).1 = Some resp' ->
  HasError resp' = false ->
  exists data ttl r response k d,
    ApiKeyResource.CreateRequest_Plan req = Some data
    /\ time.ParseDuration (ValueString (ApiKeyResource.Ttl data)) = inr ttl
    /\ CreateApiKey (remote w)
         {| CreateApiKeyRequest_Expiration := Some (New (time.Add (clock w 0%nat) ttl)) |}
       = (r, inr response)
    /\ State_ resp' = Some d
    /\ let secret := CreateApiKeyResponse_ApiKey response in
       ApiKeyResource.Key d = Known secret
       /\ ApiKeyResource.Id d = Known (before_first "." secret)
       /\ (forall p rest,
             secret = p +:+ String.String "." rest -> occurs "." p = false ->
             ApiKeyResource.Id d = Known p)
       /\ (occurs "." secret = true -> ApiKeyResource.Id d <> Known secret)
       /\ ApiKeyResource.Ttl d = ApiKeyResource.Ttl data
       /\ ApiKey_Prefix k = before_first "." secret
       /\ ApiKeyResource.Expired d =
            Known (time.After (clock w 1%nat) (AsTime (ApiKey_Expiration k)))
       /\ ApiKeyResource.CreatedAt d =
            Known (time.FormatRFC3339 (AsTime (ApiKey_CreatedAt k)))
       /\ ApiKeyResource.Expiration d =
            Known (time.FormatRFC3339 (AsTime (ApiKey_Expiration k))).
Proof.
  unfold ApiKeyResource.Create.
  destruct (ApiKeyResource.CreateRequest_Plan req) as [data|]; simpl.
  2:{ change (Append resp _) with
        (AddError resp "Value Conversion Error" "unhandled null value").
      rewrite (HasError_AddError resp). intros [= <-] Hno.
      by rewrite (HasError_AddError resp) in Hno. }
  rewrite Append_nil.
  destruct (HasError resp) eqn:Hok; [intros [= <-]; congruence|].
  destruct (time.ParseDuration _) as [err|ttl] eqn:Hparse.
  { intros [= <-] Hno. by rewrite (HasError_AddError resp) in Hno. }
  unfold rpc; simpl.
  destruct (CreateApiKey (remote w) _) as [r [err|response]] eqn:Hcreate.
  { intros [= <-] Hno. by rewrite (HasError_AddError resp) in Hno. }
  rewrite Split_first. cbn [remote].
  destruct (ListApiKeys r mkListApiKeysRequest) as [r' [err|listResponse]].
  { intros [= <-] Hno. by rewrite (HasError_AddError resp) in Hno. }
  rewrite ApiKey_readComputedFields_eq; simpl.
  destruct (List.find _ _) as [k|] eqn:Hfind; simpl.
  2:{ intros [= <-] Hno.
      by rewrite HasError_RemoveResource, (HasError_AddError resp) in Hno. }
  intros [= <-] _.
  apply find_some in Hfind as [_ Hprefix]. apply bool_decide_eq_true in Hprefix.
  exists data, ttl, r, response, k. eexists.
  split; [done|]. split; [done|]. split; [done|]. split; [done|]. simpl.
  split; [done|]. split; [done|]. split.
  { intros p rest -> Hfree. by rewrite before_first_app. }
  split.
  { intros Hocc [= Heq]. by apply before_first_proper in Hocc. }
  done.
Qed.

(** ** NodeTagSet / NodeRouteSet: Update sends the whole set *)

Lemma all_Known (l : list string) :
  forallb (fun e : types.String => match e with Known _ => true | _ => false end)
    (Known <$> l) = true.
Proof. induction l as [|x l IH]; [done|]. by rewrite fmap_cons. Qed.

Section Update_facts.
Context {Remote : Type} `{client : !HeadscaleServiceClient Remote}.

Lemma NodeTags_Update_eq (S : list string)
    (prior plan : NodeTagsResource.NodeTagsResourceModel) (w : World Remote) :
  NodeTagsResource.Tags plan = Known (Known <$> S) ->
  NodeTagsResource.Update
    {| NodeTagsResource.UpdateRequest_State := Some prior;
       NodeTagsResource.UpdateRequest_Plan := Some plan |} (fresh (Some prior)) w =
    let '(res, w') := rpc SetTags CallSetTags (NodeTagsResource.request prior S) w in
    match res with
    | inl err =>
        (AddError (fresh (Some prior)) "Client Error"
           ("Unable to set node tags, got error: " +:+ err), w')
    | inr response =>
        (tfsdk.Set_ (fresh (Some prior))
           (NodeTagsResource.with_Tags prior
              (Known (Known <$>
                 elements (Node_GetForcedTags (SetTagsResponse_Node response))))), w')
    end.
Proof.
  intros Hplan. unfold NodeTagsResource.Update, NodeTagsResource.GetAttribute_tags.
  cbn [Get NodeTagsResource.UpdateRequest_State NodeTagsResource.UpdateRequest_Plan].
  rewrite Hplan, all_Known, ValueString_Known.
  rewrite HasError_Append_nil, Append_nil. cbn [HasError fresh Diagnostics diag.HasError existsb].
  unfold NodeTagsResource.request. destruct (rpc _ _ _ w) as [[err|response] w']; [done|].
  by rewrite NodeTags_readComputedFields_eq.
Qed.

Lemma NodeRoutes_Update_eq (S : list string)
    (prior plan : NodeRoutesResource.NodeRoutesResourceModel) (w : World Remote) :
  NodeRoutesResource.Routes plan = Known (Known <$> S) ->
  NodeRoutesResource.Update
    {| NodeRoutesResource.UpdateRequest_State := Some prior;
       NodeRoutesResource.UpdateRequest_Plan := Some plan |} (fresh (Some prior)) w =
    let '(res, w') := rpc SetApprovedRoutes CallSetApprovedRoutes (NodeRoutesResource.request prior S) w in
    match res with
    | inl err =>
        (AddError (fresh (Some prior)) "Client Error"
           ("Unable to set node routes, got error: " +:+ err), w')
    | inr response =>
        (tfsdk.Set_ (fresh (Some prior))
           (NodeRoutesResource.with_Routes prior
              (Known (Known <$>
                 elements
                   (Node_GetApprovedRoutes (SetApprovedRoutesResponse_Node response))))),
         w')
    end.
Proof.
  intros Hplan. unfold NodeRoutesResource.Update, NodeRoutesResource.GetAttribute_routes.
  cbn [Get NodeRoutesResource.UpdateRequest_State NodeRoutesResource.UpdateRequest_Plan].
  rewrite Hplan, all_Known, ValueString_Known.
  rewrite HasError_Append_nil, Append_nil. cbn [HasError fresh Diagnostics diag.HasError existsb].
  unfold NodeRoutesResource.request. destruct (rpc _ _ _ w) as [[err|response] w']; [done|].
  by rewrite NodeRoutes_readComputedFields_eq.
Qed.

End Update_facts.

(** C8.  Update of a NodeTagSet (of a NodeRouteSet) with the planned set
    [S], run twice in succession, the second run starting from the state and
    the remote left by the first.  Each run issues one SetTags
    (SetApprovedRoutes) call that carries the node id of the record and the
    complete set [S], whatever set the record held before: no diff is
    computed.  Against a remote whose set operation replaces wholesale, two
    runs that succeed both observe exactly the members of [S]. *)
Theorem C8_update_twice_observes_the_same_set
    {Remote : Type} `{client : !HeadscaleServiceClient Remote} :
  (SetTags_replaces ->
   forall (S : list string) (prior plan : NodeTagsResource.NodeTagsResourceModel)
          (w : World Remote),
     NodeTagsResource.Tags plan = Known (Known <$> S) ->
     let out1 :=
       NodeTagsResource.Update
         {| NodeTagsResource.UpdateRequest_State := Some prior;
            NodeTagsResource.UpdateRequest_Plan := Some plan |} (fresh (Some prior)) w in
     let out2 :=
       NodeTagsResource.Update
         {| NodeTagsResource.UpdateRequest_State := State_ out1.1;
            NodeTagsResource.UpdateRequest_Plan := Some plan |}
         (fresh (State_ out1.1)) out1.2 in
     let q := NodeTagsResource.request prior S in
     calls out1.2 = calls w ++ [CallSetTags q]
     /\ (HasError out1.1 = false -> HasError out2.1 = false ->
         calls out2.2 = calls w ++ [CallSetTags q; CallSetTags q]
         /\ exists d1 d2,
              State_ out1.1 = Some d1 /\ State_ out2.1 = Some d2
              /\ members (NodeTagsResource.Tags d1) = list_to_set S
              /\ members (NodeTagsResource.Tags d2) = list_to_set S)) /\
  (SetApprovedRoutes_replaces ->
   forall (S : list string) (prior plan : NodeRoutesResource.NodeRoutesResourceModel)
          (w : World Remote),
     NodeRoutesResource.Routes plan = Known (Known <$> S) ->
     let out1 :=
       NodeRoutesResource.Update
         {| NodeRoutesResource.UpdateRequest_State := Some prior;
            NodeRoutesResource.UpdateRequest_Plan := Some plan |} (fresh (Some prior)) w in
     let out2 :=
       NodeRoutesResource.Update
         {| NodeRoutesResource.UpdateRequest_State := State_ out1.1;
            NodeRoutesResource.UpdateRequest_Plan := Some plan |}
         (fresh (State_ out1.1)) out1.2 in
     let q := NodeRoutesResource.request prior S in
     calls out1.2 = calls w ++ [CallSetApprovedRoutes q]
     /\ (HasError out1.1 = false -> HasError out2.1 = false ->
         calls out2.2 = calls w ++ [CallSetApprovedRoutes q; CallSetApprovedRoutes q]
         /\ exists d1 d2,
              State_ out1.1 = Some d1 /\ State_ out2.1 = Some d2
              /\ members (NodeRoutesResource.Routes d1) = list_to_set S
              /\ members (NodeRoutesResource.Routes d2) = list_to_set S)).
Proof.
  split.
  - intros Hrep S prior plan w Hplan out1 out2 q.
    subst out2 out1 q. rewrite (NodeTags_Update_eq S prior plan w Hplan).
    unfold rpc.
    destruct (SetTags (remote w) _) as [r1 [err|response1]] eqn:E1; cbn [fst snd calls].
    { split; [done|]. intros Hno. by rewrite (HasError_AddError (fresh (Some prior))) in Hno. }
    split; [done|]. intros _.
    cbn [State_ tfsdk.Set_].
    rewrite (NodeTags_Update_eq S _ plan _ Hplan).
    unfold rpc; cbn [remote calls clock].
    change (NodeTagsResource.request (NodeTagsResource.with_Tags prior _) S)
      with (NodeTagsResource.request prior S).
    destruct (SetTags r1 _) as [r2 [err|response2]] eqn:E2; cbn [fst snd calls].
    { intros Hno. by rewrite HasError_AddError in Hno. }
    intros _. split; [by rewrite <- app_assoc|].
    do 2 eexists. split; [done|]. split; [done|].
    cbn [NodeTagsResource.Tags NodeTagsResource.with_Tags]. rewrite !members_Known.
    by rewrite (Hrep _ _ _ _ E1), (Hrep _ _ _ _ E2).
  - intros Hrep S prior plan w Hplan out1 out2 q.
    subst out2 out1 q. rewrite (NodeRoutes_Update_eq S prior plan w Hplan).
    unfold rpc.
    destruct (SetApprovedRoutes (remote w) _) as [r1 [err|response1]] eqn:E1;
      cbn [fst snd calls].
    { split; [done|]. intros Hno. by rewrite (HasError_AddError (fresh (Some prior))) in Hno. }
    split; [done|]. intros _.
    cbn [State_ tfsdk.Set_].
    rewrite (NodeRoutes_Update_eq S _ plan _ Hplan).
    unfold rpc; cbn [remote calls clock].
    change (NodeRoutesResource.request (NodeRoutesResource.with_Routes prior _) S)
      with (NodeRoutesResource.request prior S).
    destruct (SetApprovedRoutes r1 _) as [r2 [err|response2]] eqn:E2; cbn [fst snd calls].
    { intros Hno. by rewrite HasError_AddError in Hno. }
    intros _. split; [by rewrite <- app_assoc|].
    do 2 eexists. split; [done|]. split; [done|].
    cbn [NodeRoutesResource.Routes NodeRoutesResource.with_Routes]. rewrite !members_Known.
    by rewrite (Hrep _ _ _ _ E1), (Hrep _ _ _ _ E2).
Qed.

(** ** Provider configuration: the tls block *)

(** Case analysis along the control flow of Configure: the scrutinee at
    the head of the equation [E] is destructed, one step at a time. *)
Ltac head_scrutinee x :=
  lazymatch x with
  | match ?y with _ => _ end => head_scrutinee y
  | negb ?b => head_scrutinee b
  | orb ?b _ => head_scrutinee b
  | _ => constr:(x)
  end.

Ltac configure_step E :=
  lazymatch type of E with
  | ?lhs = _ =>
      lazymatch lhs with
      | match _ with _ => _ end =>
          let s := head_scrutinee lhs in
          destruct s eqn:?;
          cbn [HeadscaleProvider.env HeadscaleProvider.files HeadscaleProvider.reads
               negb orb] in E
      end
  end.

(** Closes a path that the hypotheses exclude. *)
Ltac configure_prune :=
  repeat match goal with
    | H : bool_decide _ = true |- _ => apply bool_decide_eq_true_1 in H
    | H : bool_decide _ = false |- _ => apply bool_decide_eq_false_1 in H
    end;
  congruence.

(** C7.  The schema types [tls] as a map of objects and the model as a
    pointer to a struct, so a configuration that holds a tls block (any
    value but null) is not decoded: Configure reports an error and returns
    before it resolves anything.  No file is read and no client is handed
    out.  An inline value is therefore never used, and the file named by
    HEADSCALE_TLS_CLIENT_KEY_PATH is not read either, whether or not the
    block holds an inline key. *)
Theorem C7_tls_block_stops_configuration
    {crypto : HeadscaleProvider.Crypto} {grpc : HeadscaleProvider.Grpc}
    {conv : strconv.Lib}
    (config : HeadscaleProvider.ProviderConfig)
    (resp : HeadscaleProvider.ConfigureResponse) (os : HeadscaleProvider.OS) :
  HeadscaleProvider.Config_TLS config <> Null ->
  let out :=
    HeadscaleProvider.Configure
      {| HeadscaleProvider.Config := HeadscaleProvider.decoded config |} resp os in
  diag.HasError (HeadscaleProvider.Diagnostics out.1) = true
  /\ HeadscaleProvider.DataSourceData out.1 = HeadscaleProvider.DataSourceData resp
  /\ HeadscaleProvider.ResourceData out.1 = HeadscaleProvider.ResourceData resp
  /\ out.2 = os.
Proof.
  intros Htls out. subst out.
  assert (HeadscaleProvider.decoded config = None) as ->.
  { unfold HeadscaleProvider.decoded.
    by destruct (HeadscaleProvider.Config_TLS config). }
  unfold HeadscaleProvider.Configure. cbn [Get HeadscaleProvider.Config].
  assert (diag.HasError
            (HeadscaleProvider.Diagnostics
               (HeadscaleProvider.Append resp
                  [diag.NewErrorDiagnostic "Value Conversion Error"
                     "unhandled null value"])) = true) as Herr
    by apply diag_HasError_Append_error.
  rewrite Herr. cbn [fst snd]. split; [exact Herr|done].
Qed.

(** C7 on a block with an inline certificate and no inline key, next to a
    readable key file: the file is not read and there is no client. *)
Lemma C7_witness :
  let block :=
    {| HeadscaleProvider.Insecure := Null; HeadscaleProvider.CaPem := Null;
       HeadscaleProvider.ClientCertPem := Known "CERT";
       HeadscaleProvider.ClientKeyPem := Null |} in
  let config :=
    {| HeadscaleProvider.Config_Endpoint := Known "headscale:50443";
       HeadscaleProvider.Config_ApiKey := Null;
       HeadscaleProvider.Config_TLS := Known {[ "default" := block ]} |} in
  let os :=
    {| HeadscaleProvider.env := {[ "HEADSCALE_TLS_CLIENT_KEY_PATH" := "/key.pem" ]};
       HeadscaleProvider.files := {[ "/key.pem" := "KEY" ]};
       HeadscaleProvider.reads := [] |} in
  let resp :=
    {| HeadscaleProvider.Diagnostics := []; HeadscaleProvider.DataSourceData := None;
       HeadscaleProvider.ResourceData := None |} in
  let out :=
    HeadscaleProvider.Configure (grpc := Fake.grpc) (conv := FakeMore.conv)
      {| HeadscaleProvider.Config := HeadscaleProvider.decoded config |} resp os in
  diag.HasError (HeadscaleProvider.Diagnostics out.1) = true
  /\ HeadscaleProvider.ResourceData out.1 = None
  /\ HeadscaleProvider.reads out.2 = [].
Proof.
  intros block config os resp out.
  destruct (C7_tls_block_stops_configuration (grpc := Fake.grpc) (conv := FakeMore.conv)
              config resp os ltac:(discriminate))
    as (Herr & _ & Hres & Hos).
  split; [exact Herr|]. split; [exact Hres|].
  exact (f_equal HeadscaleProvider.reads Hos).
Defined.

(** Without a tls block the three items come from the files named by
    their variables: with the CA variable unset and the two client
    variables set, the certificate and then the key are read, each from its
    file. *)
Lemma Configure_without_tls_reads_certificate_and_key_files
    {crypto : HeadscaleProvider.Crypto} {grpc : HeadscaleProvider.Grpc}
    {conv : strconv.Lib}
    (config : HeadscaleProvider.ProviderConfig)
    (resp : HeadscaleProvider.ConfigureResponse) (os : HeadscaleProvider.OS)
    (certPath keyPath certPem : string) :
  HeadscaleProvider.Config_TLS config = Null ->
  diag.HasError (HeadscaleProvider.Diagnostics resp) = false ->
  HeadscaleProvider.inline_or_env (HeadscaleProvider.Config_Endpoint config)
    (HeadscaleProvider.Getenv "HEADSCALE_ENDPOINT" os) <> "" ->
  HeadscaleProvider.Getenv "HEADSCALE_TLS_CA_PATH" os = "" ->
  HeadscaleProvider.Getenv "HEADSCALE_TLS_CLIENT_CERT_PATH" os = certPath ->
  HeadscaleProvider.Getenv "HEADSCALE_TLS_CLIENT_KEY_PATH" os = keyPath ->
  certPath <> "" -> keyPath <> "" ->
  HeadscaleProvider.files os !! certPath = Some certPem ->
  HeadscaleProvider.reads
    (HeadscaleProvider.Configure
       {| HeadscaleProvider.Config := HeadscaleProvider.decoded config |} resp os).2
  = HeadscaleProvider.reads os ++ [certPath; keyPath].
Proof.
  intros Htls Hok Hend Hca Hcert Hkey Hc Hk Hfile.
  destruct (HeadscaleProvider.Configure _ resp os) as [r os'] eqn:E. cbn [snd].
  unfold HeadscaleProvider.decoded in E. rewrite Htls in E.
  unfold HeadscaleProvider.Configure, HeadscaleProvider.ReadFile,
    HeadscaleProvider.Getenv, HeadscaleProvider.tls_with,
    HeadscaleProvider.inline_or_env in *.
  cbn [Get HeadscaleProvider.Config HeadscaleProvider.TLS HeadscaleProvider.Endpoint
       HeadscaleProvider.ApiKey] in E.
  assert (HeadscaleProvider.Append resp [] = resp) as Hresp by (by destruct resp).
  rewrite Hresp in E. cbv zeta in E. rewrite !if_negb in E. subst certPath keyPath.
  repeat (configure_step E; try solve [configure_prune]).
  all: simplify_eq; cbn [HeadscaleProvider.reads]; by rewrite <- ?app_assoc.
Qed.

(** ** The statements at concrete inputs *)

(** The in-memory service replaces wholesale. *)
Lemma Fake_SetTags_replaces : SetTags_replaces (client := Fake.client).
Proof.
  intros r q r' response. simpl.
  destruct (Fake.find_node _ r) as [n|]; [|done].
  by intros [= _ <-].
Qed.

Lemma Fake_SetApprovedRoutes_replaces : SetApprovedRoutes_replaces (client := Fake.client).
Proof.
  intros r q r' response. simpl.
  destruct (Fake.find_node _ r) as [n|]; [|done].
  by intros [= _ <-].
Qed.

(** A user list with no row for the id: the record is removed and the
    diagnostics do carry an error, against C5 as it is worded. *)
Lemma C5_absent_user_is_reported_as_error :
  let data :=
    {| UserResource.Id := Known 42; UserResource.Name := Known "alice";
       UserResource.Email := Null; UserResource.DisplayName := Null;
       UserResource.CreatedAt := Null |} in
  let out :=
    UserResource.Read (client := Fake.client) (lib := Fake.timeLib)
      {| UserResource.ReadRequest_State := Some data |} (fresh (Some data))
      (Fake.at_ 0 Fake.empty) in
  exists resp',
    out.1 = Some resp' /\ State_ resp' = None /\ HasError resp' = true.
Proof. eexists. vm_compute. done. Qed.

(** C5 on a user list without rows. *)
Lemma C5_witness :
  let data :=
    {| UserResource.Id := Known 42; UserResource.Name := Known "alice";
       UserResource.Email := Null; UserResource.DisplayName := Null;
       UserResource.CreatedAt := Null |} in
  let w := Fake.at_ 0 Fake.empty in
  exists resp',
    (UserResource.Read (client := Fake.client) (lib := Fake.timeLib)
       {| UserResource.ReadRequest_State := Some data |} (fresh (Some data)) w).1
      = Some resp'
    /\ State_ resp' = None
    /\ Diagnostics resp' = [diag.NewErrorDiagnostic "user not found" "user not found"]
    /\ HasError resp' = true.
Proof.
  intros data w.
  exact (proj1 (C5_read_drift_removes_record_sometimes_with_error
                  (client := Fake.client) (lib := Fake.timeLib))
           data (fresh (Some data)) w Fake.empty
           {| ListUsersResponse_Users := mk_slice [] |}
           eq_refl eq_refl (or_intror (fun E : 0%nat = 1%nat => O_S 0 E))).
Defined.

(** C9 on a service that answers nil, and on one that answers the empty
    list. *)
Lemma C9_witness :
  let svc :=
    {| Fake.nodes := nil_slice; Fake.users := nil_slice; Fake.preAuthKeys := nil_slice;
       Fake.apiKeys := nil_slice; Fake.nextApiKey := "" |} in
  let read nodes :=
    (NodesDataSource.Read (client := Fake.client)
       {| NodesDataSource.Config := Some {| NodesDataSource.Nodes := nil_slice |} |}
       (fresh None)
       (Fake.at_ 0
          {| Fake.nodes := nodes; Fake.users := nil_slice; Fake.preAuthKeys := nil_slice;
             Fake.apiKeys := nil_slice; Fake.nextApiKey := "" |})).1 in
  (State_ (read nil_slice) = None /\ HasError (read nil_slice) = true)
  /\ (State_ (read (mk_slice [])) = Some {| NodesDataSource.Nodes := mk_slice [] |}
      /\ HasError (read (mk_slice [])) = false).
Proof.
  intros svc read. split.
  - destruct (C9_nil_node_list_is_error_empty_is_result (client := Fake.client)
                {| NodesDataSource.Nodes := nil_slice |} (fresh None) (Fake.at_ 0 svc) svc
                {| ListNodesResponse_Nodes := nil_slice |} eq_refl eq_refl) as [Hnil _].
    destruct (Hnil eq_refl) as (Hs & _ & He). split; [exact Hs|exact He].
  - destruct (C9_nil_node_list_is_error_empty_is_result (client := Fake.client)
                {| NodesDataSource.Nodes := nil_slice |} (fresh None)
                (Fake.at_ 0 Fake.empty) Fake.empty
                {| ListNodesResponse_Nodes := mk_slice [] |} eq_refl eq_refl) as [_ Hempty].
    destruct (Hempty eq_refl) as (Hs & _ & He). split; [exact Hs|exact He].
Defined.

(** C3 on a user list without rows. *)
Lemma C3_witness :
  let data :=
    {| UserResource.Id := Known 42; UserResource.Name := Known "alice";
       UserResource.Email := Null; UserResource.DisplayName := Null;
       UserResource.CreatedAt := Null |} in
  (UserResource.Read (client := Fake.client) (lib := Fake.timeLib)
     {| UserResource.ReadRequest_State := Some data |} (fresh (Some data))
     (Fake.at_ 0 Fake.empty)).1
  = Some (RemoveResource (AddError (fresh (Some data)) "user not found" "user not found")).
Proof.
  intros data.
  refine (proj1 (proj2 (C3_user_read_needs_exactly_one_row
                          (client := Fake.client) (lib := Fake.timeLib)
                          {| UserResource.ReadRequest_State := Some data |}
                          (fresh (Some data)) (Fake.at_ 0 Fake.empty))
                   data Fake.empty {| ListUsersResponse_Users := mk_slice [] |}
                   eq_refl eq_refl eq_refl) _).
  right. vm_compute. discriminate.
Defined.

(** C1 on a key that expires one hour after the epoch, read two hours
    after the epoch. *)
Lemma C1_witness :
  let hour := 3600000000000 in
  let k :=
    {| PreAuthKey_Id := 9; PreAuthKey_Key := "secret"; PreAuthKey_Reusable := false;
       PreAuthKey_Ephemeral := false; PreAuthKey_Expiration := Some (New hour);
       PreAuthKey_CreatedAt := Some (New 0);
       PreAuthKey_AclTags := mk_slice ["tag:prod"] |} in
  let svc :=
    {| Fake.nodes := nil_slice; Fake.users := nil_slice;
       Fake.preAuthKeys := mk_slice [k]; Fake.apiKeys := nil_slice;
       Fake.nextApiKey := "" |} in
  let data :=
    {| PreAuthKeyResource.Id := Known 9; PreAuthKeyResource.UserId := Known 5;
       PreAuthKeyResource.Reusable := Known false;
       PreAuthKeyResource.Ephemeral := Known false;
       PreAuthKeyResource.Ttl := Known "1h";
       PreAuthKeyResource.ACLTags := Known [Known "tag:prod"];
       PreAuthKeyResource.Expired := Known false;
       PreAuthKeyResource.CreatedAt := Known "0";
       PreAuthKeyResource.Expiration := Known "3600000000000";
       PreAuthKeyResource.Key := Known "secret" |} in
  exists resp',
    (PreAuthKeyResource.Read (client := Fake.client) (lib := Fake.timeLib)
       {| PreAuthKeyResource.ReadRequest_State := Some data |} (fresh (Some data))
       (Fake.at_ (2 * hour) svc)).1 = Some resp'
    /\ State_ resp' = None
    /\ Diagnostics resp' = [].
Proof.
  intros hour k svc data.
  apply (proj1 (C1_expired_key_is_removed_on_read
                  (client := Fake.client) (lib := Fake.timeLib))
           data (fresh (Some data)) (Fake.at_ (2 * hour) svc) svc
           {| ListPreAuthKeysResponse_PreAuthKeys := mk_slice [k] |} k).
  - reflexivity.
  - reflexivity.
  - vm_compute. reflexivity.
  - vm_compute. reflexivity.
Defined.

(** C2 on the ttl "2h" and on the malformed ttl "soon". *)
Lemma C2_witness :
  let data ttl :=
    {| PreAuthKeyResource.Id := Unknown; PreAuthKeyResource.UserId := Known 5;
       PreAuthKeyResource.Reusable := Known false;
       PreAuthKeyResource.Ephemeral := Known false;
       PreAuthKeyResource.Ttl := ttl;
       PreAuthKeyResource.ACLTags := Known [Known "tag:prod"];
       PreAuthKeyResource.Expired := Unknown;
       PreAuthKeyResource.CreatedAt := Unknown;
       PreAuthKeyResource.Expiration := Unknown;
       PreAuthKeyResource.Key := Unknown |} in
  let run ttl :=
    PreAuthKeyResource.Create (client := Fake.client) (lib := Fake.timeLib)
      {| PreAuthKeyResource.CreateRequest_Plan := Some (data ttl) |} (fresh None)
      (Fake.at_ 5 Fake.empty) in
  (exists q,
      calls (run (Known "2h")).2 = [CallCreatePreAuthKey q]
      /\ AsTime (CreatePreAuthKeyRequest_Expiration q) = 5 + 7200000000000)
  /\ calls (run (Known "soon")).2 = [].
Proof.
  intros data run. split.
  - destruct (C2_pre_auth_key_expiration_from_ttl
                (client := Fake.client) (lib := Fake.timeLib)
                (data (Known "2h")) (fresh None) (Fake.at_ 5 Fake.empty) eq_refl)
      as (_ & Hparsed & _).
    apply (Hparsed 7200000000000); [reflexivity|]. vm_compute. reflexivity.
  - destruct (C2_pre_auth_key_expiration_from_ttl
                (client := Fake.client) (lib := Fake.timeLib)
                (data (Known "soon")) (fresh None) (Fake.at_ 5 Fake.empty) eq_refl)
      as (_ & _ & Hbad).
    refine (proj1 (proj2 (Hbad "time: invalid duration soon" eq_refl _))).
    vm_compute. reflexivity.
Defined.

(** C6 on the secret "abc.def". *)
Lemma C6_witness :
  let svc :=
    {| Fake.nodes := nil_slice; Fake.users := nil_slice; Fake.preAuthKeys := nil_slice;
       Fake.apiKeys := nil_slice; Fake.nextApiKey := "abc.def" |} in
  let plan :=
    {| ApiKeyResource.Id := Unknown; ApiKeyResource.Ttl := Known "2160h";
       ApiKeyResource.Expired := Unknown; ApiKeyResource.CreatedAt := Unknown;
       ApiKeyResource.Expiration := Unknown; ApiKeyResource.Key := Unknown |} in
  let out :=
    (ApiKeyResource.Create (client := Fake.client) (lib := Fake.timeLib)
       {| ApiKeyResource.CreateRequest_Plan := Some plan |} (fresh None)
       (Fake.at_ 5 svc)).1 in
  exists resp' d secret,
    out = Some resp'
    /\ State_ resp' = Some d
    /\ ApiKeyResource.Key d = Known secret
    /\ ApiKeyResource.Id d = Known (before_first "." secret).
Proof.
  intros svc plan out.
  set (resp' :=
         tfsdk.Set_ (fresh None)
           {| ApiKeyResource.Id := Known "abc"; ApiKeyResource.Ttl := Known "2160h";
              ApiKeyResource.Expired := Known false;
              ApiKeyResource.CreatedAt := Known "0";
              ApiKeyResource.Expiration := Known "7776000000000005";
              ApiKeyResource.Key := Known "abc.def" |}).
  assert (out = Some resp') as Hout by (vm_compute; reflexivity).
  destruct (C6_api_key_id_is_prefix_of_secret
              (client := Fake.client) (lib := Fake.timeLib)
              {| ApiKeyResource.CreateRequest_Plan := Some plan |} (fresh None) resp'
              (Fake.at_ 5 svc) Hout eq_refl)
    as (data & ttl & r & response & k & d & _ & _ & _ & Hst & Hkey & Hid & _).
  exists resp', d, (CreateApiKeyResponse_ApiKey response).
  split; [exact Hout|]. split; [exact Hst|]. split; [exact Hkey|exact Hid].
Defined.

(** C8 on node 7, whose approved routes go from 10.0.0.0/8 to
    192.168.0.0/24. *)
Lemma C8_witness :
  let node :=
    {| Node_Id := 7; Node_Name := "gw"; Node_User := None;
       Node_ForcedTags := nil_slice;
       Node_ApprovedRoutes := mk_slice ["10.0.0.0/8"] |} in
  let svc :=
    {| Fake.nodes := mk_slice [node]; Fake.users := nil_slice;
       Fake.preAuthKeys := nil_slice; Fake.apiKeys := nil_slice;
       Fake.nextApiKey := "" |} in
  let prior :=
    {| NodeRoutesResource.Id := Known 7; NodeRoutesResource.NodeId := Known 7;
       NodeRoutesResource.Routes := Known [Known "10.0.0.0/8"] |} in
  let plan :=
    {| NodeRoutesResource.Id := Known 7; NodeRoutesResource.NodeId := Known 7;
       NodeRoutesResource.Routes := Known [Known "192.168.0.0/24"] |} in
  let out1 :=
    NodeRoutesResource.Update (client := Fake.client)
      {| NodeRoutesResource.UpdateRequest_State := Some prior;
         NodeRoutesResource.UpdateRequest_Plan := Some plan |} (fresh (Some prior))
      (Fake.at_ 0 svc) in
  let out2 :=
    NodeRoutesResource.Update (client := Fake.client)
      {| NodeRoutesResource.UpdateRequest_State := State_ out1.1;
         NodeRoutesResource.UpdateRequest_Plan := Some plan |}
      (fresh (State_ out1.1)) out1.2 in
  exists d1 d2,
    State_ out1.1 = Some d1 /\ State_ out2.1 = Some d2
    /\ members (NodeRoutesResource.Routes d1) = list_to_set ["192.168.0.0/24"]
    /\ members (NodeRoutesResource.Routes d2) = list_to_set ["192.168.0.0/24"].
Proof.
  intros node svc prior plan out1 out2.
  destruct (proj2 (C8_update_twice_observes_the_same_set (client := Fake.client))
              Fake_SetApprovedRoutes_replaces ["192.168.0.0/24"] prior plan
              (Fake.at_ 0 svc) eq_refl) as [_ Hobs].
  destruct (Hobs eq_refl eq_refl) as [_ Hsets]. exact Hsets.
Defined.

(** * Further properties of the handlers *)

(** ** NodeTagSet / NodeRouteSet: Delete, ImportState, and the id *)

Lemma HasError_Append_l {M} (resp : Response M) (ds : diag.Diagnostics) :
  HasError resp = true -> HasError (Append resp ds) = true.
Proof.
  unfold HasError, Append; simpl. revert resp.
  induction ds as [|d ds IH]; intros resp Herr; [done|].
  simpl. apply (IH {| Diagnostics := _; State_ := State_ resp |}). simpl.
  case_bool_decide; [done|]. rewrite HasError_app, Herr. done.
Qed.

Lemma HasError_Append_error {M} (resp : Response M) (s d : string) :
  HasError (Append resp [diag.NewErrorDiagnostic s d]) = true.
Proof. apply (HasError_AddError resp). Qed.

(** X1. Delete of a NodeTagSet (NodeRouteSet) always issues exactly one
    SetTags (SetApprovedRoutes) call, for the node id of the prior state and
    with a nil value set: the diagnostics are consulted only after the call,
    so the call goes out even when the prior state could not be decoded (the
    node id is then 0) or when the response already carried an error.  The
    handler never touches the state of the response, and a prior state that
    cannot be decoded is reported as an error. *)
Theorem X1_node_delete_always_sends_the_empty_set
    {Remote : Type} `{client : !HeadscaleServiceClient Remote} :
  (forall (req : NodeTagsResource.DeleteRequest) resp (w : World Remote),
      let out := NodeTagsResource.Delete req resp w in
      calls out.2 =
        calls w ++
          [CallSetTags
             {| SetTagsRequest_NodeId :=
                  uint64 (ValueInt64
                            (NodeTagsResource.NodeId
                               (default NodeTagsResource.NodeTagsResourceModel_zero
                                  (NodeTagsResource.DeleteRequest_State req))));
                SetTagsRequest_Tags := nil_slice |}]
      /\ State_ out.1 = State_ resp
      /\ (NodeTagsResource.DeleteRequest_State req = None \/ HasError resp = true ->
          HasError out.1 = true)) /\
  (forall (req : NodeRoutesResource.DeleteRequest) resp (w : World Remote),
      let out := NodeRoutesResource.Delete req resp w in
      calls out.2 =
        calls w ++
          [CallSetApprovedRoutes
             {| SetApprovedRoutesRequest_NodeId :=
                  uint64 (ValueInt64
                            (NodeRoutesResource.NodeId
                               (default NodeRoutesResource.NodeRoutesResourceModel_zero
                                  (NodeRoutesResource.DeleteRequest_State req))));
                SetApprovedRoutesRequest_Routes := nil_slice |}]
      /\ State_ out.1 = State_ resp
      /\ (NodeRoutesResource.DeleteRequest_State req = None \/ HasError resp = true ->
          HasError out.1 = true)).
Proof.
  assert (forall A (b : bool) (x : A), (if b then x else x) = x) as Hif
    by (by intros ? []).
  split; intros req resp w out; subst out.
  - unfold NodeTagsResource.Delete.
    destruct (NodeTagsResource.DeleteRequest_State req) as [data|];
      cbn [Get default]; unfold rpc;
      destruct (SetTags (remote w) _) as [r [err|response]];
      rewrite ?Hif; cbn [fst snd calls]; (split; [done|]); (split; [done|]);
      intros Hbad.
    + apply (HasError_AddError (Append resp [])).
    + destruct Hbad as [?|Herr]; [done|]. by rewrite HasError_Append_nil.
    + apply (HasError_AddError (Append resp _)).
    + apply (HasError_AddError resp).
  - unfold NodeRoutesResource.Delete.
    destruct (NodeRoutesResource.DeleteRequest_State req) as [data|];
      cbn [Get default]; unfold rpc;
      destruct (SetApprovedRoutes (remote w) _) as [r [err|response]];
      rewrite ?Hif; cbn [fst snd calls]; (split; [done|]); (split; [done|]);
      intros Hbad.
    + apply (HasError_AddError (Append resp [])).
    + destruct Hbad as [?|Herr]; [done|]. by rewrite HasError_Append_nil.
    + apply (HasError_AddError (Append resp _)).
    + apply (HasError_AddError resp).
Qed.

(** X2. ImportState of a NodeTagSet (NodeRouteSet) calls no RPC.  When
    [strconv.Atoi] rejects the identifier, one error is reported and the
    state is left as it was; when it yields [n], no diagnostic is added and
    the state holds a record whose [id] and [node_id] are both [n], the
    value set being untouched. *)
Theorem X2_node_import_sets_id_and_node_id {conv : strconv.Lib} :
  (forall (req : NodeTagsResource.ImportStateRequest) resp,
      let out := NodeTagsResource.ImportState req resp in
      match strconv.Atoi (NodeTagsResource.ID req) with
      | inl err => State_ out = State_ resp /\ HasError out = true
      | inr n =>
          Diagnostics out = Diagnostics resp
          /\ exists d,
               State_ out = Some d
               /\ NodeTagsResource.Id d = Known (int64 n)
               /\ NodeTagsResource.NodeId d = Known (int64 n)
               /\ NodeTagsResource.Tags d =
                    NodeTagsResource.Tags
                      (default NodeTagsResource.NodeTagsResourceModel_zero (State_ resp))
      end) /\
  (forall (req : NodeRoutesResource.ImportStateRequest) resp,
      let out := NodeRoutesResource.ImportState req resp in
      match strconv.Atoi (NodeRoutesResource.ID req) with
      | inl err => State_ out = State_ resp /\ HasError out = true
      | inr n =>
          Diagnostics out = Diagnostics resp
          /\ exists d,
               State_ out = Some d
               /\ NodeRoutesResource.Id d = Known (int64 n)
               /\ NodeRoutesResource.NodeId d = Known (int64 n)
               /\ NodeRoutesResource.Routes d =
                    NodeRoutesResource.Routes
                      (default NodeRoutesResource.NodeRoutesResourceModel_zero (State_ resp))
      end).
Proof.
  split; intros req resp out; subst out.
  - unfold NodeTagsResource.ImportState.
    destruct (strconv.Atoi _) as [err|n].
    + split; [done|apply HasError_AddError].
    + split; [done|]. eexists. by repeat split.
  - unfold NodeRoutesResource.ImportState.
    destruct (strconv.Atoi _) as [err|n].
    + split; [done|apply HasError_AddError].
    + split; [done|]. eexists. by repeat split.
Qed.

(** X3. The id of a NodeTagSet (NodeRouteSet) is the node id.  Create
    writes no record other than one whose [id] and [node_id] are both the
    planned node id; Read and Update, when they write a record, keep the [id]
    and the [node_id] of the prior state. *)
Theorem X3_node_id_is_kept
    {Remote : Type} `{client : !HeadscaleServiceClient Remote} :
  (forall (req : NodeTagsResource.CreateRequest) resp (w : World Remote),
      let out := (NodeTagsResource.Create req resp w).1 in
      State_ out = State_ resp
      \/ exists plan d,
           NodeTagsResource.CreateRequest_Plan req = Some plan
           /\ State_ out = Some d
           /\ NodeTagsResource.Id d = NodeTagsResource.NodeId plan
           /\ NodeTagsResource.NodeId d = NodeTagsResource.NodeId plan) /\
  (forall (req : NodeTagsResource.ReadRequest) resp (w : World Remote),
      let out := (NodeTagsResource.Read req resp w).1 in
      State_ out = State_ resp \/ State_ out = None
      \/ exists prior d,
           NodeTagsResource.ReadRequest_State req = Some prior
           /\ State_ out = Some d
           /\ NodeTagsResource.Id d = NodeTagsResource.Id prior
           /\ NodeTagsResource.NodeId d = NodeTagsResource.NodeId prior) /\
  (forall (req : NodeTagsResource.UpdateRequest) resp (w : World Remote),
      let out := (NodeTagsResource.Update req resp w).1 in
      State_ out = State_ resp
      \/ exists prior d,
           NodeTagsResource.UpdateRequest_State req = Some prior
           /\ State_ out = Some d
           /\ NodeTagsResource.Id d = NodeTagsResource.Id prior
           /\ NodeTagsResource.NodeId d = NodeTagsResource.NodeId prior) /\
  (forall (req : NodeRoutesResource.CreateRequest) resp (w : World Remote),
      let out := (NodeRoutesResource.Create req resp w).1 in
      State_ out = State_ resp
      \/ exists plan d,
           NodeRoutesResource.CreateRequest_Plan req = Some plan
           /\ State_ out = Some d
           /\ NodeRoutesResource.Id d = NodeRoutesResource.NodeId plan
           /\ NodeRoutesResource.NodeId d = NodeRoutesResource.NodeId plan) /\
  (forall (req : NodeRoutesResource.ReadRequest) resp (w : World Remote),
      let out := (NodeRoutesResource.Read req resp w).1 in
      State_ out = State_ resp \/ State_ out = None
      \/ exists prior d,
           NodeRoutesResource.ReadRequest_State req = Some prior
           /\ State_ out = Some d
           /\ NodeRoutesResource.Id d = NodeRoutesResource.Id prior
           /\ NodeRoutesResource.NodeId d = NodeRoutesResource.NodeId prior) /\
  (forall (req : NodeRoutesResource.UpdateRequest) resp (w : World Remote),
      let out := (NodeRoutesResource.Update req resp w).1 in
      State_ out = State_ resp
      \/ exists prior d,
           NodeRoutesResource.UpdateRequest_State req = Some prior
           /\ State_ out = Some d
           /\ NodeRoutesResource.Id d = NodeRoutesResource.Id prior
           /\ NodeRoutesResource.NodeId d = NodeRoutesResource.NodeId prior).
Proof.
  split; [|split; [|split; [|split; [|split]]]]; intros req resp w out; subst out.
  - unfold NodeTagsResource.Create.
    destruct (NodeTagsResource.CreateRequest_Plan req) as [plan|]; cbn [Get];
      [|rewrite HasError_Append_error; by left].
    destruct (HasError _); [by left|].
    destruct (rpc _ _ _ w) as [[err|response] w']; [by left|].
    rewrite NodeTags_readComputedFields_eq. right. by exists plan; eexists.
  - unfold NodeTagsResource.Read.
    destruct (NodeTagsResource.ReadRequest_State req) as [prior|]; cbn [Get];
      [|rewrite HasError_Append_error; by left].
    destruct (HasError _); [by left|].
    destruct (rpc _ _ _ w) as [[err|response] w']; [by left|].
    destruct (GetNodeResponse_Node response); [|by right; left].
    rewrite NodeTags_readComputedFields_eq. right; right. by exists prior; eexists.
  - unfold NodeTagsResource.Update.
    destruct (NodeTagsResource.UpdateRequest_State req) as [prior|]; cbn [Get];
      [|rewrite HasError_Append_error; by left].
    destruct (HasError _); [by left|].
    destruct (rpc _ _ _ w) as [[err|response] w']; [by left|].
    rewrite NodeTags_readComputedFields_eq. right. by exists prior; eexists.
  - unfold NodeRoutesResource.Create.
    destruct (NodeRoutesResource.CreateRequest_Plan req) as [plan|]; cbn [Get];
      [|rewrite HasError_Append_error; by left].
    destruct (HasError _); [by left|].
    destruct (rpc _ _ _ w) as [[err|response] w']; [by left|].
    rewrite NodeRoutes_readComputedFields_eq. right. by exists plan; eexists.
  - unfold NodeRoutesResource.Read.
    destruct (NodeRoutesResource.ReadRequest_State req) as [prior|]; cbn [Get];
      [|rewrite HasError_Append_error; by left].
    destruct (HasError _); [by left|].
    destruct (rpc _ _ _ w) as [[err|response] w']; [by left|].
    destruct (GetNodeResponse_Node response); [|by right; left].
    rewrite NodeRoutes_readComputedFields_eq. right; right. by exists prior; eexists.
  - unfold NodeRoutesResource.Update.
    destruct (NodeRoutesResource.UpdateRequest_State req) as [prior|]; cbn [Get];
      [|rewrite HasError_Append_error; by left].
    destruct (HasError _); [by left|].
    destruct (rpc _ _ _ w) as [[err|response] w']; [by left|].
    rewrite NodeRoutes_readComputedFields_eq. right. by exists prior; eexists.
Qed.

(** ** PreAuthKey: the composite import identifier *)

Lemma Split_free (s : string) (sep : ascii) :
  occurs sep s = false -> Split s sep = [s].
Proof.
  induction s as [|c s IH]; simpl; [done|].
  intros Hfree. apply orb_false_iff in Hfree as [Hc Hs].
  rewrite Hc. by rewrite IH.
Qed.

Lemma Split_app (p rest : string) (sep : ascii) :
  occurs sep p = false ->
  Split (p +:+ String.String sep rest) sep = p :: Split rest sep.
Proof.
  induction p as [|c p IH]; intros Hfree.
  - change (Split (String.String sep rest) sep = "" :: Split rest sep).
    simpl. by rewrite Ascii.eqb_refl.
  - simpl in Hfree. apply orb_false_iff in Hfree as [Hc Hp].
    change (Split (String.String c (p +:+ String.String sep rest)) sep
            = String.String c p :: Split rest sep).
    simpl. rewrite Hc. by rewrite IH.
Qed.

Lemma Split_nonempty (s : string) (sep : ascii) : Split s sep <> [].
Proof.
  destruct s as [|c s]; simpl; [done|].
  destruct (Ascii.eqb c sep); [done|]. by destruct (Split s sep).
Qed.

Lemma Split_inv (s : string) (sep : ascii) (a : string) (rest : list string) :
  Split s sep = a :: rest ->
  occurs sep a = false
  /\ (rest = [] /\ s = a
      \/ exists s', s = a +:+ String.String sep s' /\ Split s' sep = rest).
Proof.
  revert a rest. induction s as [|c s IH]; intros a rest; simpl.
  - intros [= <- <-]. split; [done|]. by left.
  - destruct (Ascii.eqb c sep) eqn:E.
    + intros [= <- <-]. split; [done|]. right. exists s.
      apply Ascii.eqb_eq in E as ->. by split.
    + destruct (Split s sep) as [|piece pieces] eqn:Hs.
      * by destruct (Split_nonempty s sep).
      * intros [= <- <-]. destruct (IH piece pieces eq_refl) as [Hfree Hshape].
        split; [simpl; by rewrite E|].
        destruct Hshape as [[-> ->]|[s' [-> Hrest]]]; [by left|].
        right. by exists s'.
Qed.

(** A string has exactly two pieces when it holds exactly one separator. *)
Lemma Split_two (s : string) (sep : ascii) (a b : string) :
  Split s sep = [a; b]
  <-> s = a +:+ String.String sep b /\ occurs sep a = false /\ occurs sep b = false.
Proof.
  split.
  - intros Hs. apply Split_inv in Hs as [Ha [[[=] _]|[s' [-> Hs']]]].
    apply Split_inv in Hs' as [Hb [[_ ->]|[s'' [_ Hnil]]]]; [done|].
    by destruct (Split_nonempty s'' sep).
  - intros (-> & Ha & Hb). by rewrite Split_app, Split_free.
Qed.

(** X4. ImportState of a PreAuthKey calls no RPC and accepts exactly the
    identifiers made of two non-empty parts around a single comma, both of
    which [strconv.Atoi] converts.  An accepted identifier [a,b] adds no
    diagnostic and sets [user_id] to the number of [a] and [id] to the number
    of [b], leaving the other attributes as they were.  Every other
    identifier (no comma, several commas, an empty part, a part that is not
    a number) reports an error and leaves the state as it was. *)
Theorem X4_pre_auth_key_import_identifier {conv : strconv.Lib}
    (req : PreAuthKeyResource.ImportStateRequest)
    (resp : Response PreAuthKeyResource.PreAuthKeyResourceModel) :
  let out := PreAuthKeyResource.ImportState req resp in
  let accepted (a b : string) (u k : Z) :=
    PreAuthKeyResource.ID req = a +:+ String.String "," b
    /\ occurs "," a = false /\ occurs "," b = false
    /\ a <> "" /\ b <> ""
    /\ strconv.Atoi a = inr u /\ strconv.Atoi b = inr k in
  (forall a b u k,
      accepted a b u k ->
      Diagnostics out = Diagnostics resp
      /\ State_ out =
           Some (PreAuthKeyResource.with_Id
                   (PreAuthKeyResource.with_UserId
                      (default PreAuthKeyResource.PreAuthKeyResourceModel_zero
                         (State_ resp))
                      (Known (int64 u)))
                   (Known (int64 k)))) /\
  ((exists a b u k, accepted a b u k)
   \/ State_ out = State_ resp /\ HasError out = true).
Proof.
  intros out accepted. subst out accepted. unfold PreAuthKeyResource.ImportState.
  split.
  - intros a b u k (Hid & Ha & Hb & Hna & Hnb & Hu & Hk).
    assert (Split (PreAuthKeyResource.ID req) "," = [a; b]) as ->
      by (by apply Split_two).
    rewrite !bool_decide_eq_false_2 by done. simpl. rewrite Hu, Hk. done.
  - destruct (Split (PreAuthKeyResource.ID req) ",") as [|a [|b [|c l]]] eqn:Hs;
      try (right; split; [done|apply HasError_AddError]).
    apply Split_two in Hs as (Hid & Ha & Hb).
    case_bool_decide as Hna; [right; split; [done|apply HasError_AddError]|].
    case_bool_decide as Hnb; [right; split; [done|apply HasError_AddError]|].
    simpl.
    destruct (strconv.Atoi a) as [err|u] eqn:Hu;
      [right; split; [done|apply HasError_AddError]|].
    destruct (strconv.Atoi b) as [err|k] eqn:Hk;
      [right; split; [done|apply HasError_AddError]|].
    left. by exists a, b, u, k.
Qed.

(** X4 on the identifier "3,9". *)
Lemma X4_witness :
  let resp := fresh (M := PreAuthKeyResource.PreAuthKeyResourceModel) None in
  let out :=
    PreAuthKeyResource.ImportState (conv := FakeMore.conv)
      {| PreAuthKeyResource.ID := "3,9" |} resp in
  Diagnostics out = []
  /\ State_ out =
       Some (PreAuthKeyResource.with_Id
               (PreAuthKeyResource.with_UserId
                  PreAuthKeyResource.PreAuthKeyResourceModel_zero (Known 3))
               (Known 9)).
Proof.
  intros resp out.
  refine (proj1 (X4_pre_auth_key_import_identifier (conv := FakeMore.conv)
                   {| PreAuthKeyResource.ID := "3,9" |} resp) "3" "9" 3 9 _).
  repeat split; try reflexivity; discriminate.
Defined.

(** ** Reads only read *)

Section Read_footprint.
Context {Remote : Type} `{client : !HeadscaleServiceClient Remote} {lib : time.Lib}.

Ltac read_cases state :=
  destruct state as [prior|]; cbn [Get];
    [|rewrite HasError_Append_error; by left];
  destruct (HasError _); [by left|];
  right; exists prior; split; [done|];
  unfold rpc;
  match goal with
  | |- context [let '(_, _) := ?call in _] => destruct call as [? [?|?]]
  end.

Lemma NodesDataSource_Read_footprint (req : NodesDataSource.ReadRequest) resp
    (w : World Remote) :
  let out := NodesDataSource.Read req resp w in
  out.2 = w \/ calls out.2 = calls w ++ [CallListNodes mkListNodesRequest].
Proof.
  intros out; subst out. unfold NodesDataSource.Read.
  destruct (NodesDataSource.Config req) as [data|]; cbn [Get];
    [|rewrite HasError_Append_error; by left].
  destruct (HasError _); [by left|]. right. unfold rpc.
  destruct (ListNodes (remote w) _) as [r [err|response]]; [done|].
  by destruct (ListNodesResponse_Nodes response).
Qed.

Lemma NodeTags_Read_footprint (req : NodeTagsResource.ReadRequest) resp (w : World Remote) :
  let out := NodeTagsResource.Read req resp w in
  out.2 = w
  \/ exists prior,
       NodeTagsResource.ReadRequest_State req = Some prior
       /\ calls out.2 =
            calls w ++
              [CallGetNode
                 {| GetNodeRequest_NodeId :=
                      uint64 (ValueInt64 (NodeTagsResource.NodeId prior)) |}].
Proof.
  intros out; subst out. unfold NodeTagsResource.Read.
  read_cases (NodeTagsResource.ReadRequest_State req); [done|].
  by destruct (GetNodeResponse_Node _).
Qed.

Lemma NodeRoutes_Read_footprint (req : NodeRoutesResource.ReadRequest) resp
    (w : World Remote) :
  let out := NodeRoutesResource.Read req resp w in
  out.2 = w
  \/ exists prior,
       NodeRoutesResource.ReadRequest_State req = Some prior
       /\ calls out.2 =
            calls w ++
              [CallGetNode
                 {| GetNodeRequest_NodeId :=
                      uint64 (ValueInt64 (NodeRoutesResource.NodeId prior)) |}].
Proof.
  intros out; subst out. unfold NodeRoutesResource.Read.
  read_cases (NodeRoutesResource.ReadRequest_State req); [done|].
  by destruct (GetNodeResponse_Node _).
Qed.

Lemma PreAuthKey_Read_footprint (req : PreAuthKeyResource.ReadRequest) resp
    (w : World Remote) :
  let out := PreAuthKeyResource.Read req resp w in
  out.2 = w
  \/ exists prior,
       PreAuthKeyResource.ReadRequest_State req = Some prior
       /\ calls out.2 =
            calls w ++
              [CallListPreAuthKeys
                 {| ListPreAuthKeysRequest_User :=
                      uint64 (ValueInt64 (PreAuthKeyResource.UserId prior)) |}].
Proof.
  intros out; subst out. unfold PreAuthKeyResource.Read.
  read_cases (PreAuthKeyResource.ReadRequest_State req); [done|].
  destruct (PreAuthKeyResource.scan _ _); [|done]. simpl.
  by destruct (time.After _ _).
Qed.

Lemma UserResource_Read_footprint (req : UserResource.ReadRequest) resp (w : World Remote) :
  let out := UserResource.Read req resp w in
  out.2 = w
  \/ exists prior,
       UserResource.ReadRequest_State req = Some prior
       /\ calls out.2 =
            calls w ++
              [CallListUsers
                 {| ListUsersRequest_Id := uint64 (ValueInt64 (UserResource.Id prior)) |}].
Proof.
  intros out; subst out. unfold UserResource.Read.
  read_cases (UserResource.ReadRequest_State req); [done|].
  destruct (is_nil _ || negb _); [done|]. by destruct (index _ _).
Qed.

Lemma ApiKey_Read_footprint (req : ApiKeyResource.ReadRequest) resp (w : World Remote) :
  let out := ApiKeyResource.Read req resp w in
  out.2 = w
  \/ exists prior,
       ApiKeyResource.ReadRequest_State req = Some prior
       /\ calls out.2 = calls w ++ [CallListApiKeys mkListApiKeysRequest].
Proof.
  intros out; subst out. unfold ApiKeyResource.Read.
  read_cases (ApiKeyResource.ReadRequest_State req); [done|].
  rewrite ApiKey_readComputedFields_eq.
  destruct (List.find _ _); [|done]. simpl. by destruct (time.After _ _).
Qed.

End Read_footprint.

(** X5. A Read never issues a mutating RPC.  Each of the six Reads either
    returns the world as it found it (when the prior state could not be
    decoded or the response already carried an error), or has issued exactly
    one call: ListNodes, GetNode for the node id of the state (NodeTagSet,
    NodeRouteSet), ListPreAuthKeys for the user id of the state, ListUsers
    for the id of the state, or ListApiKeys. *)
Theorem X5_reads_issue_one_read_call
    {Remote : Type} `{client : !HeadscaleServiceClient Remote} {lib : time.Lib} :
  (forall (req : NodesDataSource.ReadRequest) resp (w : World Remote),
      let out := NodesDataSource.Read req resp w in
      out.2 = w \/ calls out.2 = calls w ++ [CallListNodes mkListNodesRequest]) /\
  (forall (req : NodeTagsResource.ReadRequest) resp (w : World Remote),
      let out := NodeTagsResource.Read req resp w in
      out.2 = w
      \/ exists prior,
           NodeTagsResource.ReadRequest_State req = Some prior
           /\ calls out.2 =
                calls w ++
                  [CallGetNode
                     {| GetNodeRequest_NodeId :=
                          uint64 (ValueInt64 (NodeTagsResource.NodeId prior)) |}]) /\
  (forall (req : NodeRoutesResource.ReadRequest) resp (w : World Remote),
      let out := NodeRoutesResource.Read req resp w in
      out.2 = w
      \/ exists prior,
           NodeRoutesResource.ReadRequest_State req = Some prior
           /\ calls out.2 =
                calls w ++
                  [CallGetNode
                     {| GetNodeRequest_NodeId :=
                          uint64 (ValueInt64 (NodeRoutesResource.NodeId prior)) |}]) /\
  (forall (req : PreAuthKeyResource.ReadRequest) resp (w : World Remote),
      let out := PreAuthKeyResource.Read req resp w in
      out.2 = w
      \/ exists prior,
           PreAuthKeyResource.ReadRequest_State req = Some prior
           /\ calls out.2 =
                calls w ++
                  [CallListPreAuthKeys
                     {| ListPreAuthKeysRequest_User :=
                          uint64 (ValueInt64 (PreAuthKeyResource.UserId prior)) |}]) /\
  (forall (req : UserResource.ReadRequest) resp (w : World Remote),
      let out := UserResource.Read req resp w in
      out.2 = w
      \/ exists prior,
           UserResource.ReadRequest_State req = Some prior
           /\ calls out.2 =
                calls w ++
                  [CallListUsers
                     {| ListUsersRequest_Id :=
                          uint64 (ValueInt64 (UserResource.Id prior)) |}]) /\
  (forall (req : ApiKeyResource.ReadRequest) resp (w : World Remote),
      let out := ApiKeyResource.Read req resp w in
      out.2 = w
      \/ exists prior,
           ApiKeyResource.ReadRequest_State req = Some prior
           /\ calls out.2 = calls w ++ [CallListApiKeys mkListApiKeysRequest]).
Proof.
  split; [apply @NodesDataSource_Read_footprint|].
  split; [apply @NodeTags_Read_footprint|].
  split; [apply @NodeRoutes_Read_footprint|].
  split; [apply @PreAuthKey_Read_footprint|].
  split; [apply @UserResource_Read_footprint|].
  apply @ApiKey_Read_footprint.
Qed.

(** ** Where a handler can panic *)

Lemma snoc_not_self {A} (l : list A) (x : A) : l <> l ++ [x].
Proof.
  intros E. apply (f_equal length) in E. rewrite length_app in E. simpl in E. lia.
Qed.

(** X6. PreAuthKey Create panics in exactly one situation: the
    CreatePreAuthKey call it issued was answered without error and without a
    key, and the field mapping then reads the expiration of the nil key.
    The call has gone out by then and the remote has taken its step, so the
    remote may hold a key of which the state knows nothing.  In every other
    case Create returns a response. *)
Theorem X6_panics_only_on_a_nil_created_key
    {Remote : Type} `{client : !HeadscaleServiceClient Remote} {lib : time.Lib}
    (req : PreAuthKeyResource.CreateRequest)
    (resp : Response PreAuthKeyResource.PreAuthKeyResourceModel) (w : World Remote) :
  let out := PreAuthKeyResource.Create req resp w in
  out.1 = None
  <-> exists q r response,
        calls out.2 = calls w ++ [CallCreatePreAuthKey q]
        /\ CreatePreAuthKey (remote w) q = (r, inr response)
        /\ CreatePreAuthKeyResponse_PreAuthKey response = None
        /\ remote out.2 = r.
Proof.
  intros out; subst out. unfold PreAuthKeyResource.Create.
  destruct (Get _) as [data ds].
  destruct (HasError _).
  { split; [done|]. intros (q & r & response & Hc & _). by apply snoc_not_self in Hc. }
  assert (forall e,
    let out :=
      (let '(res, w0) :=
         rpc CreatePreAuthKey CallCreatePreAuthKey
           {| CreatePreAuthKeyRequest_User :=
                uint64 (ValueInt64 (PreAuthKeyResource.UserId data));
              CreatePreAuthKeyRequest_Reusable :=
                ValueBool (PreAuthKeyResource.Reusable data);
              CreatePreAuthKeyRequest_Ephemeral :=
                ValueBool (PreAuthKeyResource.Ephemeral data);
              CreatePreAuthKeyRequest_Expiration := Some e;
              CreatePreAuthKeyRequest_AclTags :=
                mk_slice (ValueString <$> Elements (PreAuthKeyResource.ACLTags data)) |}
           (Now w).2 in
       match res with
       | inl err =>
           (Some (AddError (Append resp ds) "Client Error"
                    ("Unable to create pre auth key, got error: " +:+ err)), w0)
       | inr response =>
           let '(data0, w1) :=
             PreAuthKeyResource.readComputedFields
               (CreatePreAuthKeyResponse_PreAuthKey response) data w0 in
           ((fun data1 => tfsdk.Set_ (Append resp ds) data1) <$> data0, w1)
       end) in
    out.1 = None
    <-> exists q r response,
          calls out.2 = calls w ++ [CallCreatePreAuthKey q]
          /\ CreatePreAuthKey (remote w) q = (r, inr response)
          /\ CreatePreAuthKeyResponse_PreAuthKey response = None
          /\ remote out.2 = r) as Hrun.
  { intros e out. subst out. unfold rpc. cbn [Now snd remote calls clock].
    destruct (CreatePreAuthKey (remote w) _) as [r [err|response]] eqn:Hrpc.
    - split; [done|]. cbn [snd calls].
      intros (q & r' & response & Hc & Hq & _).
      apply app_inv_head in Hc. injection Hc as <-. congruence.
    - unfold PreAuthKeyResource.readComputedFields. cbn [Now].
      destruct (CreatePreAuthKeyResponse_PreAuthKey response) as [k|] eqn:Hk;
        cbn [fst snd calls remote fmap option_fmap option_map].
      + split; [done|]. intros (q & r' & response' & Hc & Hq & Hnil & _).
        apply app_inv_head in Hc. injection Hc as <-. congruence.
      + split; [|done]. intros _. by eexists _, r, response. }
  destruct (IsNull _).
  - apply Hrun.
  - destruct (time.ParseDuration _) as [err|ttl].
    + split; [done|]. intros (q & r & response & Hc & _). by apply snoc_not_self in Hc.
    + apply Hrun.
Qed.

(** ** What the key handlers store *)

(** X7. A PreAuthKey Create that succeeds (returns, without an error
    diagnostic) had a decodable plan, issued exactly one CreatePreAuthKey
    call built from the plan (expiring one hour, or the planned ttl, after
    the first reading of the clock), and that call was answered with a key
    [k].
    The record it writes keeps [user_id], [ttl] and [acl_tags] of the plan as
    they came (the tags of the created key are not read back, so an
    [acl_tags] that the plan left unknown is still unknown), while [id],
    [reusable], [ephemeral], [expired], [created_at], [expiration] and [key]
    are known values taken from the [k] of the answer; [expired] compares the
    second reading of the clock with the expiration of [k]. *)
Theorem X7_pre_auth_key_create_record
    {Remote : Type} `{client : !HeadscaleServiceClient Remote} {lib : time.Lib}
    (req : PreAuthKeyResource.CreateRequest)
    (resp resp' : Response PreAuthKeyResource.PreAuthKeyResourceModel)
    (w : World Remote) :
  (PreAuthKeyResource.Create req resp w).1 = Some resp' ->
  HasError resp' = false ->
  exists plan d r response k,
    let q := PreAuthKeyResource.request plan (time.Add (clock w 0%nat) d) in
    PreAuthKeyResource.CreateRequest_Plan req = Some plan
    /\ (IsNull (PreAuthKeyResource.Ttl plan) = true /\ d = 1 * time.Hour
        \/ IsNull (PreAuthKeyResource.Ttl plan) = false
           /\ time.ParseDuration (ValueString (PreAuthKeyResource.Ttl plan)) = inr d)
    /\ calls (PreAuthKeyResource.Create req resp w).2 = calls w ++ [CallCreatePreAuthKey q]
    /\ CreatePreAuthKey (remote w) q = (r, inr response)
    /\ remote (PreAuthKeyResource.Create req resp w).2 = r
    /\ CreatePreAuthKeyResponse_PreAuthKey response = Some k
    /\ State_ resp' =
         Some {| PreAuthKeyResource.Id := Known (int64 (PreAuthKey_Id k));
                 PreAuthKeyResource.UserId := PreAuthKeyResource.UserId plan;
                 PreAuthKeyResource.Reusable := Known (PreAuthKey_Reusable k);
                 PreAuthKeyResource.Ephemeral := Known (PreAuthKey_Ephemeral k);
                 PreAuthKeyResource.Ttl := PreAuthKeyResource.Ttl plan;
                 PreAuthKeyResource.ACLTags := PreAuthKeyResource.ACLTags plan;
                 PreAuthKeyResource.Expired :=
                   Known (time.After (clock w 1%nat) (AsTime (PreAuthKey_Expiration k)));
                 PreAuthKeyResource.CreatedAt :=
                   Known (time.FormatRFC3339 (AsTime (PreAuthKey_CreatedAt k)));
                 PreAuthKeyResource.Expiration :=
                   Known (time.FormatRFC3339 (AsTime (PreAuthKey_Expiration k)));
                 PreAuthKeyResource.Key := Known (PreAuthKey_Key k) |}
    /\ Diagnostics resp' = Diagnostics resp.
Proof.
  unfold PreAuthKeyResource.Create.
  destruct (PreAuthKeyResource.CreateRequest_Plan req) as [plan|]; cbn [Get].
  2:{ rewrite HasError_Append_error. intros [= <-] Hno.
      by rewrite HasError_Append_error in Hno. }
  rewrite Append_nil.
  destruct (HasError resp) eqn:Hok; [intros [= <-]; congruence|].
  assert (forall t,
    let q := PreAuthKeyResource.request plan t in
    let out :=
      (let '(res, w0) := rpc CreatePreAuthKey CallCreatePreAuthKey q (Now w).2 in
       match res with
       | inl err =>
           (Some (AddError resp "Client Error"
                    ("Unable to create pre auth key, got error: " +:+ err)), w0)
       | inr response =>
           let '(data0, w1) :=
             PreAuthKeyResource.readComputedFields
               (CreatePreAuthKeyResponse_PreAuthKey response) plan w0 in
           ((fun data1 => tfsdk.Set_ resp data1) <$> data0, w1)
       end) in
    out.1 = Some resp' ->
    HasError resp' = false ->
    exists r response k,
      calls out.2 = calls w ++ [CallCreatePreAuthKey q]
      /\ CreatePreAuthKey (remote w) q = (r, inr response)
      /\ remote out.2 = r
      /\ CreatePreAuthKeyResponse_PreAuthKey response = Some k
      /\ State_ resp' =
         Some {| PreAuthKeyResource.Id := Known (int64 (PreAuthKey_Id k));
                 PreAuthKeyResource.UserId := PreAuthKeyResource.UserId plan;
                 PreAuthKeyResource.Reusable := Known (PreAuthKey_Reusable k);
                 PreAuthKeyResource.Ephemeral := Known (PreAuthKey_Ephemeral k);
                 PreAuthKeyResource.Ttl := PreAuthKeyResource.Ttl plan;
                 PreAuthKeyResource.ACLTags := PreAuthKeyResource.ACLTags plan;
                 PreAuthKeyResource.Expired :=
                   Known (time.After (clock w 1%nat) (AsTime (PreAuthKey_Expiration k)));
                 PreAuthKeyResource.CreatedAt :=
                   Known (time.FormatRFC3339 (AsTime (PreAuthKey_CreatedAt k)));
                 PreAuthKeyResource.Expiration :=
                   Known (time.FormatRFC3339 (AsTime (PreAuthKey_Expiration k)));
                 PreAuthKeyResource.Key := Known (PreAuthKey_Key k) |}
      /\ Diagnostics resp' = Diagnostics resp) as Hrun.
  { intros t q out. subst q out. unfold rpc. cbn [Now snd remote calls clock].
    destruct (CreatePreAuthKey (remote w) _) as [r [err|response]] eqn:Hrpc.
    - intros [= <-] Hno. by rewrite (HasError_AddError resp) in Hno.
    - unfold PreAuthKeyResource.readComputedFields. cbn [Now].
      destruct (CreatePreAuthKeyResponse_PreAuthKey response) as [k|] eqn:Hk;
        cbn [fst snd calls remote fmap option_fmap option_map]; [|done].
      intros [= <-] _. by exists r, response, k. }
  destruct (IsNull _) eqn:Hnull.
  - intros Hout Hno.
    destruct (Hrun (time.Add (clock w 0%nat) (1 * time.Hour)) Hout Hno)
      as (r & response & k & Hrest).
    exists plan, (1 * time.Hour), r, response, k.
    split; [done|]. split; [by left|]. exact Hrest.
  - destruct (time.ParseDuration _) as [err|ttl] eqn:Hparse.
    + intros [= <-] Hno. by rewrite (HasError_AddError resp) in Hno.
    + intros Hout Hno.
      destruct (Hrun (time.Add (clock w 0%nat) ttl) Hout Hno)
        as (r & response & k & Hrest).
      exists plan, ttl, r, response, k.
      split; [done|]. split; [by right|]. exact Hrest.
Qed.

(** X7 on a plan without ttl and without acl_tags. *)
Lemma X7_witness :
  let plan :=
    {| PreAuthKeyResource.Id := Unknown; PreAuthKeyResource.UserId := Known 5;
       PreAuthKeyResource.Reusable := Known false;
       PreAuthKeyResource.Ephemeral := Known false;
       PreAuthKeyResource.Ttl := Null;
       PreAuthKeyResource.ACLTags := Unknown;
       PreAuthKeyResource.Expired := Unknown;
       PreAuthKeyResource.CreatedAt := Unknown;
       PreAuthKeyResource.Expiration := Unknown;
       PreAuthKeyResource.Key := Unknown |} in
  let out :=
    (PreAuthKeyResource.Create (client := Fake.client) (lib := Fake.timeLib)
       {| PreAuthKeyResource.CreateRequest_Plan := Some plan |} (fresh None)
       (Fake.at_ 5 Fake.empty)).1 in
  exists resp' d,
    out = Some resp' /\ State_ resp' = Some d
    /\ PreAuthKeyResource.ACLTags d = Unknown
    /\ PreAuthKeyResource.UserId d = Known 5.
Proof.
  intros plan out.
  set (resp' := default (fresh None) out).
  assert (out = Some resp') as Hout by (vm_compute; reflexivity).
  destruct (X7_pre_auth_key_create_record
              (client := Fake.client) (lib := Fake.timeLib)
              {| PreAuthKeyResource.CreateRequest_Plan := Some plan |} (fresh None) resp'
              (Fake.at_ 5 Fake.empty) Hout eq_refl)
    as (plan' & d & r & response & k & [= <-] & _ & _ & _ & _ & _ & Hst & _).
  exists resp'. eexists. split; [exact Hout|]. split; [exact Hst|].
  split; reflexivity.
Defined.

(** X8. ApiKey Read never changes [id], [ttl] or [key]: it leaves the
    state, removes it, or writes a record that carries these three
    attributes of the prior state and in which [expired], [created_at] and
    [expiration] are known. *)
Theorem X8_api_key_read_keeps_id_ttl_key
    {Remote : Type} `{client : !HeadscaleServiceClient Remote} {lib : time.Lib}
    (req : ApiKeyResource.ReadRequest)
    (resp : Response ApiKeyResource.ApiKeyResourceModel) (w : World Remote) :
  let out := (ApiKeyResource.Read req resp w).1 in
  State_ out = State_ resp \/ State_ out = None
  \/ exists prior d,
       ApiKeyResource.ReadRequest_State req = Some prior
       /\ State_ out = Some d
       /\ ApiKeyResource.Id d = ApiKeyResource.Id prior
       /\ ApiKeyResource.Ttl d = ApiKeyResource.Ttl prior
       /\ ApiKeyResource.Key d = ApiKeyResource.Key prior
       /\ (exists e, ApiKeyResource.Expired d = Known e)
       /\ (exists c, ApiKeyResource.CreatedAt d = Known c)
       /\ (exists x, ApiKeyResource.Expiration d = Known x).
Proof.
  intros out; subst out. unfold ApiKeyResource.Read.
  destruct (ApiKeyResource.ReadRequest_State req) as [prior|]; cbn [Get];
    [|rewrite HasError_Append_error; by left].
  destruct (HasError _); [by left|].
  destruct (rpc _ _ _ w) as [[err|listResponse] w']; [by left|].
  rewrite ApiKey_readComputedFields_eq.
  destruct (List.find _ _) as [k|]; [|by right; left]. simpl.
  destruct (time.After _ _); [by right; left|].
  right; right. exists prior. eexists. repeat split; try done; by eexists.
Qed.

(** X9. PreAuthKey Read keeps only [user_id] and [ttl] of the prior state.
    When it writes a record, the ListPreAuthKeys call for the user of the
    state was answered with a list, and every other attribute comes from the
    key [k] of that list that the scan returns (the last one carrying the id
    of the state): [id], [reusable], [ephemeral], [created_at], [expiration]
    and [key] are rewritten from [k], [expired] compares the first reading
    of the clock with the expiration of [k], and [acl_tags] is the set
    conversion of the tag list of [k] without normalisation, hence null for
    a nil list. *)
Theorem X9_pre_auth_key_read_overwrites_from_listed_key
    {Remote : Type} `{client : !HeadscaleServiceClient Remote} {lib : time.Lib}
    (req : PreAuthKeyResource.ReadRequest)
    (resp : Response PreAuthKeyResource.PreAuthKeyResourceModel) (w : World Remote) :
  let out := (PreAuthKeyResource.Read req resp w).1 in
  (exists resp', out = Some resp' /\ (State_ resp' = State_ resp \/ State_ resp' = None))
  \/ exists prior r response k resp' d,
       PreAuthKeyResource.ReadRequest_State req = Some prior
       /\ ListPreAuthKeys (remote w)
            {| ListPreAuthKeysRequest_User :=
                 uint64 (ValueInt64 (PreAuthKeyResource.UserId prior)) |}
          = (r, inr response)
       /\ k ∈ elements (ListPreAuthKeysResponse_PreAuthKeys response)
       /\ PreAuthKeyResource.scan (uint64 (ValueInt64 (PreAuthKeyResource.Id prior)))
            (elements (ListPreAuthKeysResponse_PreAuthKeys response)) = Some k
       /\ PreAuthKey_Id k = uint64 (ValueInt64 (PreAuthKeyResource.Id prior))
       /\ out = Some resp' /\ State_ resp' = Some d
       /\ d = {| PreAuthKeyResource.Id := Known (int64 (PreAuthKey_Id k));
                 PreAuthKeyResource.UserId := PreAuthKeyResource.UserId prior;
                 PreAuthKeyResource.Reusable := Known (PreAuthKey_Reusable k);
                 PreAuthKeyResource.Ephemeral := Known (PreAuthKey_Ephemeral k);
                 PreAuthKeyResource.Ttl := PreAuthKeyResource.Ttl prior;
                 PreAuthKeyResource.ACLTags := SetValueFrom (PreAuthKey_AclTags k);
                 PreAuthKeyResource.Expired :=
                   Known (time.After (clock w 0%nat) (AsTime (PreAuthKey_Expiration k)));
                 PreAuthKeyResource.CreatedAt :=
                   Known (time.FormatRFC3339 (AsTime (PreAuthKey_CreatedAt k)));
                 PreAuthKeyResource.Expiration :=
                   Known (time.FormatRFC3339 (AsTime (PreAuthKey_Expiration k)));
                 PreAuthKeyResource.Key := Known (PreAuthKey_Key k) |}
       /\ (PreAuthKey_AclTags k = nil_slice -> PreAuthKeyResource.ACLTags d = Null).
Proof.
  intros out; subst out. unfold PreAuthKeyResource.Read.
  destruct (PreAuthKeyResource.ReadRequest_State req) as [prior|]; cbn [Get];
    [|rewrite HasError_Append_error; left; eexists; split; [done|by left]].
  destruct (HasError _); [left; eexists; split; [done|by left]|].
  unfold rpc.
  destruct (ListPreAuthKeys (remote w) _) as [r [err|response]] eqn:Hrpc;
    [left; eexists; split; [done|by left]|].
  destruct (PreAuthKeyResource.scan _ _) as [k|] eqn:Hscan;
    [|left; eexists; split; [done|by right]].
  pose proof Hscan as Hfound.
  apply scan_Some in Hfound as [Hin Hid]. simpl.
  destruct (time.After _ _); [left; eexists; split; [done|by right]|].
  right. exists prior, r, response, k. do 2 eexists.
  split; [done|]. split; [exact Hrpc|]. split; [exact Hin|]. split; [exact Hscan|].
  split; [exact Hid|]. split; [done|]. split; [done|]. split; [done|].
  simpl. by intros ->.
Qed.

(** X10. The scan of PreAuthKey Read returns the last listed key that
    carries the wanted id: it agrees with filtering the list by id and
    taking the last element, it finds nothing exactly when no listed key has
    the id, and of several keys with the same id the one listed last wins. *)
Theorem X10_scan_returns_the_last_match (id : Z) (keys : list PreAuthKey) :
  PreAuthKeyResource.scan id keys = last (filter (fun k => PreAuthKey_Id k = id) keys)
  /\ (PreAuthKeyResource.scan id keys = None
      <-> forall k, k ∈ keys -> PreAuthKey_Id k ≠ id)
  /\ (forall before k after,
        keys = before ++ k :: after ->
        PreAuthKey_Id k = id ->
        (forall k', k' ∈ after -> PreAuthKey_Id k' ≠ id) ->
        PreAuthKeyResource.scan id keys = Some k).
Proof.
  split; [apply scan_last|]. split; [apply scan_None|].
  intros before k after -> Hid Hafter.
  rewrite scan_last, filter_app, filter_cons.
  case_decide; [|done].
  assert (filter (fun k0 => PreAuthKey_Id k0 = id) after = []) as ->.
  { apply scan_None in Hafter. rewrite scan_last in Hafter. by apply last_None. }
  by rewrite last_snoc.
Qed.

(** X10 on two keys with the same id. *)
Lemma X10_witness :
  let key secret :=
    {| PreAuthKey_Id := 9; PreAuthKey_Key := secret; PreAuthKey_Reusable := false;
       PreAuthKey_Ephemeral := false; PreAuthKey_Expiration := None;
       PreAuthKey_CreatedAt := None; PreAuthKey_AclTags := nil_slice |} in
  PreAuthKeyResource.scan 9 [key "first"; key "second"] = Some (key "second").
Proof.
  intros key.
  refine (proj2 (proj2 (X10_scan_returns_the_last_match 9 [key "first"; key "second"]))
            [key "first"] (key "second") [] eq_refl eq_refl _).
  intros k' Hin. by apply elem_of_nil in Hin.
Defined.

(** ** User: what is written, and what is asked *)

Section User_more_facts.
Context {Remote : Type} {lib : time.Lib}.

(** The record written for a user is a function of the remote user. *)
Lemma User_readComputedFields_remote (user : option User)
    (data : UserResource.UserResourceModel) :
  UserResource.readComputedFields user data
  = UserResource.readComputedFields user UserResource.UserResourceModel_zero.
Proof. reflexivity. Qed.

Lemma User_readComputedFields_normal (user : option User)
    (data : UserResource.UserResourceModel) :
  let d := UserResource.readComputedFields user data in
  UserResource.Id d = Known (int64 (User_GetId user))
  /\ UserResource.Name d = Known (User_GetName user)
  /\ UserResource.CreatedAt d = Known (time.FormatRFC3339 (AsTime (User_GetCreatedAt user)))
  /\ (UserResource.Email d = Null /\ User_GetEmail user = ""
      \/ UserResource.Email d = Known (User_GetEmail user) /\ User_GetEmail user <> "")
  /\ (UserResource.DisplayName d = Null /\ User_GetDisplayName user = ""
      \/ UserResource.DisplayName d = Known (User_GetDisplayName user)
         /\ User_GetDisplayName user <> "").
Proof.
  intros d; subst d. unfold UserResource.readComputedFields; simpl.
  repeat split; case_bool_decide; auto.
Qed.

End User_more_facts.

(** X11. The record of a user is derived from the remote user alone.
    Create, Update and Read leave the state, remove it (Read), or write the
    record computed from the user in the answer of the call they issued
    (CreateUser for the planned name, RenameUser for the id of the prior
    state, ListUsers for that id when it lists exactly one user), whatever
    the plan or the prior state held.  In that record [id], [name] and
    [created_at] are known, and [email] and [display_name] are never the
    empty string nor unknown: an empty remote value is stored as null. *)
Theorem X11_user_record_comes_from_the_remote_user
    {Remote : Type} `{client : !HeadscaleServiceClient Remote}
    `{more : !HeadscaleServiceClientMore Remote} {lib : time.Lib} :
  let from_answer (user : option User)
      (st : tfsdk.State UserResource.UserResourceModel) :=
    exists d,
      st = Some d
      /\ d = UserResource.readComputedFields user UserResource.UserResourceModel_zero
      /\ UserResource.Id d = Known (int64 (User_GetId user))
      /\ UserResource.Name d = Known (User_GetName user)
      /\ (exists c, UserResource.CreatedAt d = Known c)
      /\ UserResource.Email d <> Known "" /\ UserResource.Email d <> Unknown
      /\ UserResource.DisplayName d <> Known ""
      /\ UserResource.DisplayName d <> Unknown in
  (forall (req : UserResource.CreateRequest) resp (w : world_more.World Remote),
      let out := UserResource.Create req resp w in
      State_ out.1 = State_ resp
      \/ exists plan q r response,
           UserResource.CreateRequest_Plan req = Some plan
           /\ CreateUserRequest_Name q = ValueString (UserResource.Name plan)
           /\ world_more.calls out.2 = world_more.calls w ++ [CallCreateUser q]
           /\ CreateUser (world_more.remote w) q = (r, inr response)
           /\ from_answer (CreateUserResponse_User response) (State_ out.1)) /\
  (forall (req : UserResource.UpdateRequest) resp (w : world_more.World Remote),
      let out := UserResource.Update req resp w in
      State_ out.1 = State_ resp
      \/ exists prior q r response,
           UserResource.UpdateRequest_State req = Some prior
           /\ RenameUserRequest_OldId q = uint64 (ValueInt64 (UserResource.Id prior))
           /\ world_more.calls out.2 = world_more.calls w ++ [CallRenameUser q]
           /\ RenameUser (world_more.remote w) q = (r, inr response)
           /\ from_answer (RenameUserResponse_User response) (State_ out.1)) /\
  (forall (req : UserResource.ReadRequest) resp (w : World Remote),
      exists out,
        (UserResource.Read req resp w).1 = Some out
        /\ (State_ out = State_ resp \/ State_ out = None
            \/ exists prior r response u,
                 UserResource.ReadRequest_State req = Some prior
                 /\ ListUsers (remote w)
                      {| ListUsersRequest_Id :=
                           uint64 (ValueInt64 (UserResource.Id prior)) |}
                    = (r, inr response)
                 /\ ListUsersResponse_Users response = mk_slice [u]
                 /\ from_answer (Some u) (State_ out))).
Proof.
  intros from_answer.
  assert (forall user data,
             from_answer user (Some (UserResource.readComputedFields user data))) as Hfrom.
  { intros user data. eexists. split; [done|].
    destruct (User_readComputedFields_normal user data)
      as (Hid & Hname & Hc & Hemail & Hdisplay).
    split; [done|]. split; [done|]. split; [done|]. split; [by eexists|].
    destruct Hemail as [[-> _]|[-> ?]], Hdisplay as [[-> _]|[-> ?]];
      repeat split; congruence. }
  split; [|split].
  - intros req resp w out; subst out. unfold UserResource.Create.
    destruct (UserResource.CreateRequest_Plan req) as [plan|]; cbn [Get];
      [|rewrite HasError_Append_error; by left].
    destruct (HasError _); [by left|].
    unfold world_more.rpc.
    destruct (CreateUser (world_more.remote w) _) as [r [err|response]] eqn:Hrpc;
      [by left|].
    right. eexists plan, _, r, response.
    split; [done|]. split; [|split; [done|split; [exact Hrpc|apply Hfrom]]]. done.
  - intros req resp w out; subst out. unfold UserResource.Update.
    destruct (UserResource.UpdateRequest_State req) as [prior|]; cbn [Get];
      [|rewrite HasError_Append_error; by left].
    destruct (HasError _); [by left|].
    destruct (UserResource.GetAttribute_name _) as [newName ds'].
    unfold world_more.rpc.
    destruct (RenameUser (world_more.remote w) _) as [r [err|response]] eqn:Hrpc;
      [by left|].
    right. eexists prior, _, r, response.
    split; [done|]. split; [|split; [done|split; [exact Hrpc|apply Hfrom]]]. done.
  - intros req resp w. unfold UserResource.Read.
    destruct (UserResource.ReadRequest_State req) as [prior|]; cbn [Get];
      [|rewrite HasError_Append_error; eexists; split; [done|by left]].
    destruct (HasError _); [eexists; split; [done|by left]|].
    unfold rpc.
    destruct (ListUsers (remote w) _) as [r [err|response]] eqn:Hrpc;
      [eexists; split; [done|by left]|].
    destruct (is_nil _ || negb _) eqn:E; [eexists; split; [done|by right; left]|].
    apply exactly_one_guard in E as [u Hu]. rewrite Hu. simpl.
    eexists; split; [done|]. right; right. exists prior, r, response, u.
    split; [done|]. split; [exact Hrpc|]. split; [exact Hu|]. apply Hfrom.
Qed.

(** X12. User Update is a rename and nothing else: with a decodable prior
    state and no error so far, it issues exactly one RenameUser call, for
    the id of the prior state and the planned name; email and display name
    are not part of the request.  The diagnostics of reading the planned
    name are not checked before the call: when the planned name is not a
    known string, the call still goes out, with the empty name, and the
    response carries an error even if the remote accepts the rename. *)
Theorem X12_user_update_only_renames
    {Remote : Type} `{more : !HeadscaleServiceClientMore Remote} {lib : time.Lib}
    (prior : UserResource.UserResourceModel)
    (plan : tfsdk.State UserResource.UserResourceModel)
    (resp : Response UserResource.UserResourceModel) (w : world_more.World Remote) :
  HasError resp = false ->
  let out :=
    UserResource.Update
      {| UserResource.UpdateRequest_State := Some prior;
         UserResource.UpdateRequest_Plan := plan |} resp w in
  let rename name :=
    CallRenameUser
      {| RenameUserRequest_OldId := uint64 (ValueInt64 (UserResource.Id prior));
         RenameUserRequest_NewName := name |} in
  match UserResource.Name <$> plan with
  | Some (Known name) => world_more.calls out.2 = world_more.calls w ++ [rename name]
  | _ =>
      world_more.calls out.2 = world_more.calls w ++ [rename ""]
      /\ HasError out.1 = true
  end.
Proof.
  intros Hok out rename. subst out rename. unfold UserResource.Update.
  cbn [Get UserResource.UpdateRequest_State UserResource.UpdateRequest_Plan].
  rewrite HasError_Append_nil, Hok, Append_nil.
  unfold UserResource.GetAttribute_name, world_more.rpc.
  destruct plan as [p|]; cbn [fmap option_fmap option_map];
    [destruct (UserResource.Name p) as [| |name]|];
    destruct (RenameUser (world_more.remote w) _) as [r [err|response]];
    cbn [fst snd world_more.calls]; try done;
    (split; [done|]);
    try apply HasError_AddError; apply (HasError_AddError resp).
Qed.

(** X12 on a planned name that is unknown. *)
Lemma X12_witness :
  let prior :=
    {| UserResource.Id := Known 1; UserResource.Name := Known "alice";
       UserResource.Email := Null; UserResource.DisplayName := Null;
       UserResource.CreatedAt := Known "0" |} in
  let plan :=
    {| UserResource.Id := Known 1; UserResource.Name := Unknown;
       UserResource.Email := Null; UserResource.DisplayName := Null;
       UserResource.CreatedAt := Known "0" |} in
  let out :=
    UserResource.Update (client := FakeMore.client) (lib := Fake.timeLib)
      {| UserResource.UpdateRequest_State := Some prior;
         UserResource.UpdateRequest_Plan := Some plan |} (fresh (Some prior))
      (FakeMore.start Fake.empty) in
  world_more.calls out.2 =
    [CallRenameUser {| RenameUserRequest_OldId := 1; RenameUserRequest_NewName := "" |}]
  /\ HasError out.1 = true.
Proof.
  intros prior plan out.
  exact (X12_user_update_only_renames (more := FakeMore.client) (lib := Fake.timeLib)
           prior (Some plan) (fresh (Some prior)) (FakeMore.start Fake.empty) eq_refl).
Defined.

(** ** Identifiers across the signed state *)

Lemma uint64_int64 (z : Z) : 0 <= z < 2 ^ 64 -> uint64 (int64 z) = z.
Proof.
  intros Hz. unfold uint64, int64. rewrite (Z.mod_small z) by lia.
  destruct (z <? 2 ^ 63) eqn:E.
  - apply Z.mod_small. lia.
  - apply Z.ltb_ge in E.
    replace (z - 2 ^ 64) with (z + (-1) * 2 ^ 64) by lia.
    rewrite Z.mod_add by lia. apply Z.mod_small. lia.
Qed.

(** X13. Remote identifiers are unsigned 64-bit numbers and the state
    stores them as signed ones; the two conversions cancel on the whole
    unsigned range, also above 2^63 where the stored number is negative.
    So a User Read on a record written from a remote user asks for the id of
    that user, and a NodeTagSet or NodeRouteSet whose [node_id] is the id
    that the nodes data source reports for a node asks for that node. *)
Theorem X13_identifiers_survive_the_signed_state
    {Remote : Type} `{client : !HeadscaleServiceClient Remote} {lib : time.Lib} :
  (forall (u : User) data resp (w : World Remote),
      0 <= User_Id u < 2 ^ 64 ->
      HasError resp = false ->
      calls (UserResource.Read
               {| UserResource.ReadRequest_State :=
                    Some (UserResource.readComputedFields (Some u) data) |} resp w).2
      = calls w ++ [CallListUsers {| ListUsersRequest_Id := User_Id u |}]) /\
  (forall (n : Node) tags resp (w : World Remote),
      0 <= Node_Id n < 2 ^ 64 ->
      HasError resp = false ->
      let id := Known (int64 (Node_Id n)) in
      calls (NodeTagsResource.Read
               {| NodeTagsResource.ReadRequest_State :=
                    Some {| NodeTagsResource.Id := id; NodeTagsResource.NodeId := id;
                            NodeTagsResource.Tags := tags |} |} resp w).2
      = calls w ++ [CallGetNode {| GetNodeRequest_NodeId := Node_Id n |}]) /\
  (forall (n : Node) routes resp (w : World Remote),
      0 <= Node_Id n < 2 ^ 64 ->
      HasError resp = false ->
      let id := Known (int64 (Node_Id n)) in
      calls (NodeRoutesResource.Read
               {| NodeRoutesResource.ReadRequest_State :=
                    Some {| NodeRoutesResource.Id := id; NodeRoutesResource.NodeId := id;
                            NodeRoutesResource.Routes := routes |} |} resp w).2
      = calls w ++ [CallGetNode {| GetNodeRequest_NodeId := Node_Id n |}]).
Proof.
  split; [|split].
  - intros u data resp w Hu Hok.
    destruct (UserResource_Read_footprint
                {| UserResource.ReadRequest_State :=
                     Some (UserResource.readComputedFields (Some u) data) |} resp w)
      as [Hsame|(prior & [= <-] & ->)].
    + exfalso. revert Hsame. unfold UserResource.Read.
      cbn [Get UserResource.ReadRequest_State].
      rewrite HasError_Append_nil, Hok. unfold rpc.
      destruct (ListUsers (remote w) _) as [r [err|response]];
        [|destruct (is_nil _ || negb _); [|destruct (index _ _)]];
        cbn [snd]; intros E; apply (f_equal calls) in E; cbn [calls] in E;
        symmetry in E; by apply snoc_not_self in E.
    + cbn [UserResource.readComputedFields UserResource.Id ValueInt64 User_GetId from_option].
      by rewrite uint64_int64.
  - intros n tags resp w Hn Hok id. subst id.
    unfold NodeTagsResource.Read. cbn [Get NodeTagsResource.ReadRequest_State].
    rewrite HasError_Append_nil, Hok. cbn [NodeTagsResource.NodeId ValueInt64].
    rewrite uint64_int64 by done. unfold rpc.
    destruct (GetNode (remote w) _) as [r [err|response]]; [done|].
    by destruct (GetNodeResponse_Node response).
  - intros n routes resp w Hn Hok id. subst id.
    unfold NodeRoutesResource.Read. cbn [Get NodeRoutesResource.ReadRequest_State].
    rewrite HasError_Append_nil, Hok. cbn [NodeRoutesResource.NodeId ValueInt64].
    rewrite uint64_int64 by done. unfold rpc.
    destruct (GetNode (remote w) _) as [r [err|response]]; [done|].
    by destruct (GetNodeResponse_Node response).
Qed.

(** X13 on a user whose id is 2^63, stored as a negative number. *)
Lemma X13_witness :
  let u :=
    {| User_Id := 2 ^ 63; User_Name := "alice"; User_CreatedAt := None;
       User_DisplayName := ""; User_Email := "" |} in
  let data := UserResource.readComputedFields (lib := Fake.timeLib) (Some u)
                UserResource.UserResourceModel_zero in
  UserResource.Id data = Known (- 2 ^ 63)
  /\ calls (UserResource.Read (client := Fake.client) (lib := Fake.timeLib)
              {| UserResource.ReadRequest_State := Some data |} (fresh (Some data))
              (Fake.at_ 0 Fake.empty)).2
     = [CallListUsers {| ListUsersRequest_Id := 2 ^ 63 |}].
Proof.
  intros u data. split; [vm_compute; reflexivity|].
  apply (proj1 (X13_identifiers_survive_the_signed_state
                  (client := Fake.client) (lib := Fake.timeLib))
           u UserResource.UserResourceModel_zero (fresh (Some data))
           (Fake.at_ 0 Fake.empty)).
  - split; [discriminate|reflexivity].
  - reflexivity.
Defined.

(** ** Delete of users and keys *)


(** ** ApiKey Create: two calls, in order *)


(** ** Provider configuration: endpoint, credentials, files *)

(** X16. The endpoint is the inline attribute unless that is null, else
    HEADSCALE_ENDPOINT.  When the resolved endpoint is empty, Configure
    reports "endpoint is not set" and stops there: no file is read and no
    client is built.  An inline endpoint that is the empty string hides the
    variable, so configuration fails even when HEADSCALE_ENDPOINT is set. *)
Theorem X16_endpoint_must_resolve
    {crypto : HeadscaleProvider.Crypto} {grpc : HeadscaleProvider.Grpc}
    {conv : strconv.Lib}
    (data : HeadscaleProvider.HeadscaleProviderModel)
    (resp : HeadscaleProvider.ConfigureResponse) (os : HeadscaleProvider.OS) :
  diag.HasError (HeadscaleProvider.Diagnostics resp) = false ->
  HeadscaleProvider.inline_or_env (HeadscaleProvider.Endpoint data)
    (HeadscaleProvider.Getenv "HEADSCALE_ENDPOINT" os) = "" ->
  HeadscaleProvider.Configure {| HeadscaleProvider.Config := Some data |} resp os
  = (HeadscaleProvider.AddError resp "endpoint is not set"
       "provider's attribute 'endpoint' is not configured", os).
Proof.
  intros Hok Hempty. unfold HeadscaleProvider.Configure.
  cbn [Get HeadscaleProvider.Config].
  assert (HeadscaleProvider.Append resp [] = resp) as -> by (by destruct resp).
  rewrite Hok. unfold HeadscaleProvider.inline_or_env in Hempty.
  destruct (IsNull (HeadscaleProvider.Endpoint data)); cbn [negb];
    rewrite Hempty; by rewrite bool_decide_eq_true_2.
Qed.

(** X16 on an empty inline endpoint next to a set variable. *)
Lemma X16_witness :
  let data :=
    {| HeadscaleProvider.Endpoint := Known "";
       HeadscaleProvider.ApiKey := Null; HeadscaleProvider.TLS := None |} in
  let os :=
    {| HeadscaleProvider.env := {[ "HEADSCALE_ENDPOINT" := "headscale:50443" ]};
       HeadscaleProvider.files := ∅; HeadscaleProvider.reads := [] |} in
  let resp :=
    {| HeadscaleProvider.Diagnostics := []; HeadscaleProvider.DataSourceData := None;
       HeadscaleProvider.ResourceData := None |} in
  HeadscaleProvider.Configure (grpc := Fake.grpc) (conv := FakeMore.conv)
    {| HeadscaleProvider.Config := Some data |} resp os
  = (HeadscaleProvider.AddError resp "endpoint is not set"
       "provider's attribute 'endpoint' is not configured", os).
Proof.
  intros data os resp.
  exact (X16_endpoint_must_resolve (grpc := Fake.grpc) (conv := FakeMore.conv)
           data resp os eq_refl eq_refl).
Defined.

(** X17. When Configure hands out a client, the connection was opened to
    the resolved, non-empty endpoint with transport credentials that are
    always TLS; the bearer token option precedes them exactly when the
    resolved API key (inline unless null, else HEADSCALE_API_KEY) is not
    empty.  Verification is skipped only on the resolved insecure flag, the
    root pool is the resolved one, at most one client certificate is
    attached, and data sources and resources receive the same client. *)
Theorem X17_configured_client_always_uses_tls
    {crypto : HeadscaleProvider.Crypto} {grpc : HeadscaleProvider.Grpc}
    {conv : strconv.Lib}
    (data : HeadscaleProvider.HeadscaleProviderModel)
    (resp : HeadscaleProvider.ConfigureResponse) (os : HeadscaleProvider.OS)
    (cfg : HeadscaleProvider.HeadscaleProviderConfiguration) :
  HeadscaleProvider.ResourceData resp = None ->
  HeadscaleProvider.ResourceData
    (HeadscaleProvider.Configure {| HeadscaleProvider.Config := Some data |} resp os).1
  = Some cfg ->
  let target :=
    HeadscaleProvider.inline_or_env (HeadscaleProvider.Endpoint data)
      (HeadscaleProvider.Getenv "HEADSCALE_ENDPOINT" os) in
  let apiKey :=
    HeadscaleProvider.inline_or_env (HeadscaleProvider.ApiKey data)
      (HeadscaleProvider.Getenv "HEADSCALE_API_KEY" os) in
  target <> "" /\
  HeadscaleProvider.DataSourceData
    (HeadscaleProvider.Configure {| HeadscaleProvider.Config := Some data |} resp os).1
  = Some cfg /\
  exists tlscfg : HeadscaleProvider.tlsConfig,
    HeadscaleProvider.NewClient target
      ((if bool_decide (apiKey = "") then []
        else [HeadscaleProvider.WithPerRPCCredentials apiKey])
       ++ [HeadscaleProvider.WithTransportCredentials tlscfg])
    = inr (HeadscaleProvider.conn cfg) /\
    HeadscaleProvider.InsecureSkipVerify tlscfg
    = HeadscaleProvider.insecure_of (HeadscaleProvider.TLS data)
        (HeadscaleProvider.Getenv "HEADSCALE_TLS_INSECURE" os) /\
    HeadscaleProvider.RootCAs tlscfg
    = HeadscaleProvider.rootCAs_of (HeadscaleProvider.TLS data) os /\
    (length (HeadscaleProvider.Certificates tlscfg) <= 1)%nat.
Proof.
  intros Hnone Hsome target apiKey. subst target apiKey.
  destruct (HeadscaleProvider.Configure _ resp os) as [r os'] eqn:E.
  cbn [fst] in *.
  unfold HeadscaleProvider.Configure, HeadscaleProvider.ReadFile in E.
  cbn [Get HeadscaleProvider.Config] in E.
  assert (HeadscaleProvider.Append resp [] = resp) as Hresp by (by destruct resp).
  rewrite Hresp in E. cbv zeta in E. rewrite !if_negb in E.
  unfold HeadscaleProvider.inline_or_env, HeadscaleProvider.insecure_of,
    HeadscaleProvider.rootCAs_of.
  repeat (configure_step E).
  all: simplify_eq; cbn in Hsome; try congruence.
  all: split;
    [match goal with H : bool_decide _ = false |- _ => exact (bool_decide_eq_false_1 _ H) end|].
  all: split; [cbn; congruence|].
  all: injection Hsome as <-.
  all: eexists; split;
    [match goal with H : HeadscaleProvider.NewClient _ _ = inr _ |- _ => exact H end|].
  all: cbn [HeadscaleProvider.InsecureSkipVerify HeadscaleProvider.RootCAs
            HeadscaleProvider.Certificates length mbind option_bind].
  all: repeat match goal with
         | H : bool_decide _ = true |- _ => apply bool_decide_eq_true_1 in H; try rewrite H
         end.
  all: split; [try reflexivity|split; [try reflexivity; try congruence|try lia]].
Qed.

(** X17 on a configuration that takes the token and the insecure flag from
    the environment. *)
Lemma X17_witness :
  let data :=
    {| HeadscaleProvider.Endpoint := Known "headscale:50443";
       HeadscaleProvider.ApiKey := Null; HeadscaleProvider.TLS := None |} in
  let os :=
    {| HeadscaleProvider.env :=
         {[ "HEADSCALE_API_KEY" := "token"; "HEADSCALE_TLS_INSECURE" := "true" ]};
       HeadscaleProvider.files := ∅; HeadscaleProvider.reads := [] |} in
  let resp :=
    {| HeadscaleProvider.Diagnostics := []; HeadscaleProvider.DataSourceData := None;
       HeadscaleProvider.ResourceData := None |} in
  let out :=
    HeadscaleProvider.Configure (grpc := Fake.grpc) (conv := FakeMore.conv)
      {| HeadscaleProvider.Config := Some data |} resp os in
  exists cfg,
    HeadscaleProvider.ResourceData out.1 = Some cfg
    /\ HeadscaleProvider.DataSourceData out.1 = Some cfg
    /\ HeadscaleProvider.conn cfg
       = ("headscale:50443",
          [HeadscaleProvider.WithPerRPCCredentials "token";
           HeadscaleProvider.WithTransportCredentials
             {| HeadscaleProvider.InsecureSkipVerify := true;
                HeadscaleProvider.RootCAs := None;
                HeadscaleProvider.Certificates := [] |}]).
Proof.
  intros data os resp out. eexists ?[cfg].
  assert (HeadscaleProvider.ResourceData out.1 = Some ?cfg) as Hcfg
    by (vm_compute; reflexivity).
  split; [exact Hcfg|]. split; [|reflexivity].
  exact (proj1 (proj2
    (X17_configured_client_always_uses_tls (grpc := Fake.grpc) (conv := FakeMore.conv) data resp os _
       eq_refl Hcfg))).
Defined.

(** X18. Whatever the configuration and however the run ends, Configure
    reads no file other than those named by HEADSCALE_TLS_CA_PATH,
    HEADSCALE_TLS_CLIENT_CERT_PATH and HEADSCALE_TLS_CLIENT_KEY_PATH, each
    at most once and in that order, and never asks for the empty path. *)
Theorem X18_configure_reads_only_the_named_files
    {crypto : HeadscaleProvider.Crypto} {grpc : HeadscaleProvider.Grpc}
    {conv : strconv.Lib}
    (req : HeadscaleProvider.ConfigureRequest)
    (resp : HeadscaleProvider.ConfigureResponse) (os : HeadscaleProvider.OS) :
  exists l : list string,
    HeadscaleProvider.reads (HeadscaleProvider.Configure req resp os).2
    = HeadscaleProvider.reads os ++ l
    /\ sublist l
         [HeadscaleProvider.Getenv "HEADSCALE_TLS_CA_PATH" os;
          HeadscaleProvider.Getenv "HEADSCALE_TLS_CLIENT_CERT_PATH" os;
          HeadscaleProvider.Getenv "HEADSCALE_TLS_CLIENT_KEY_PATH" os]
    /\ "" ∉ l.
Proof.
  destruct (HeadscaleProvider.Configure req resp os) as [r os'] eqn:E.
  cbn [snd].
  unfold HeadscaleProvider.Configure, HeadscaleProvider.ReadFile,
    HeadscaleProvider.Getenv in *.
  cbv zeta in E.
  repeat (configure_step E).
  all: simplify_eq; cbn [HeadscaleProvider.reads].
  all: first [ exists []; split; [by rewrite app_nil_r|]
             | eexists; split; [by rewrite <- ?app_assoc|] ].
  all: split;
    [repeat first [apply sublist_nil | apply sublist_skip | apply sublist_cons]|].
  all: repeat match goal with
         | H : bool_decide _ = false |- _ => apply bool_decide_eq_false_1 in H
         end.
  all: repeat (apply not_elem_of_cons; split; [congruence|]); apply not_elem_of_nil.
Qed.
